(** * OmicChain: the synthetic RNA-seq count-matrix generator

    A shallow embedding of [simulate_counts] and of the script's entry
    point from [src/count_matrix_generator.py], and the properties of the
    generator stated against it.

    - Python [float] and numpy [float64] are IEEE 754 binary64 numbers,
      taken from the Standard Library's [SpecFloat] (precision 53,
      [emax] 1024) with its round-to-nearest-even operations.
    - Python [int] is [Z].
    - The module-level numpy generator ([np.random.*]) is an interface
      ([numpy_random]): its state is threaded through every call, and each
      call that consumes the stream is recorded in a log of draws.
    - Exceptions are values of [exn]; a statement that raises stops the run
      and leaves the world as it was at that point. *)

From Stdlib Require Import ZArith String Ascii List Bool Lia Permutation.
From Stdlib Require Import SpecFloat DecimalString.
From Stdlib Require DecimalZ DecimalPos.
Import ListNotations.

Local Open Scope Z_scope.

(** ** Binary64 arithmetic *)

Module F64.

Definition prec : Z := 53.
Definition emax : Z := 1024.

Definition float : Type := spec_float.

Definition valid (x : float) : bool := valid_binary prec emax x.

Definition mul : float -> float -> float := SFmul prec emax.
Definition div : float -> float -> float := SFdiv prec emax.
Definition add : float -> float -> float := SFadd prec emax.

Definition ltb : float -> float -> bool := SFltb.
Definition leb : float -> float -> bool := SFleb.
Definition eqb : float -> float -> bool := SFeqb.

(** Nearest binary64 to an integer (exact below [2^53]). *)
Definition of_Z (n : Z) : float := binary_normalize prec emax n 0 false.

Definition zero : float := S754_zero false.
Definition one : float := Eval cbv in of_Z 1.
Definition c50 : float := Eval cbv in of_Z 50.
Definition c2000 : float := Eval cbv in of_Z 2000.

(** The binary64 nearest to [a / b], as the decimal literal is read
    (for [a] and [b] below [2^53]). *)
Definition of_ratio (a b : Z) : float := div (of_Z a) (of_Z b).

Definition is_zero (x : float) : bool :=
  match x with S754_zero _ => true | _ => false end.

Definition is_nan (x : float) : bool :=
  match x with S754_nan => true | _ => false end.

(** Integer part, rounding toward zero; [None] on infinities and NaN. *)
Definition trunc (x : float) : option Z :=
  match x with
  | S754_zero _ => Some 0
  | S754_finite s m e =>
      Some (cond_Zopp s (Z.shiftl (Zpos m) e))
  | S754_infinity _ | S754_nan => None
  end.

(** Floor of the exact real product [n * x] of an integer and the real
    number a finite binary64 denotes: the product is [n * (+-m) * 2^e],
    an integer shifted by [e] bits, and shifting right floors. *)
Definition exact_floor_mul (n : Z) (x : float) : option Z :=
  match x with
  | S754_zero _ => Some 0
  | S754_finite s m e => Some (Z.shiftl (n * cond_Zopp s (Zpos m)) e)
  | S754_infinity _ | S754_nan => None
  end.

End F64.

Abbreviation float := F64.float.

(** ** Python exceptions and results *)

Inductive exn : Type :=
| ValueError (msg : string)
| ZeroDivisionError (msg : string)
| OverflowError (msg : string)
| IndexError (msg : string)
| OSError (msg : string).

Inductive outcome (A : Type) : Type :=
| Ok (a : A)
| Raise (e : exn).

Arguments Ok {A} a.
Arguments Raise {A} e.

Definition is_ok {A} (r : outcome A) : bool :=
  match r with Ok _ => true | Raise _ => false end.

(** ** Python built-ins used by the generator *)

Module Py.

(** [str(n)] for an int, as an f-string prints it. *)
Definition str (n : Z) : string := NilZero.string_of_int (Z.to_int n).

Definition len {A} (l : list A) : Z := Z.of_nat (length l).

(** [range(n)]: empty when [n <= 0]. *)
Definition range (n : Z) : list nat := seq 0 (Z.to_nat n).

(** [l[:n]], a negative [n] counting from the end. *)
Definition slice_to {A} (l : list A) (n : Z) : list A :=
  if 0 <=? n then firstn (Z.to_nat n) l
  else firstn (length l - Z.to_nat (- n)) l.

(** [l[n:]], a negative [n] counting from the end. *)
Definition slice_from {A} (l : list A) (n : Z) : list A :=
  if 0 <=? n then skipn (Z.to_nat n) l
  else skipn (length l - Z.to_nat (- n)) l.

(** Truth value of an optional list: [None] and [[]] are false. *)
Definition truthy {A} (x : option (list A)) : bool :=
  match x with
  | Some (_ :: _) => true
  | Some [] | None => false
  end.

(** [n * x] for an int [n] and a float [x]: the int is converted first. *)
Definition mul_int_float (n : Z) (x : float) : outcome float :=
  match F64.of_Z n with
  | S754_infinity _ => Raise (OverflowError "int too large to convert to float")
  | fn => Ok (F64.mul fn x)
  end.

(** [int(x)] for a float. *)
Definition int (x : float) : outcome Z :=
  match F64.trunc x with
  | Some z => Ok z
  | None =>
      if F64.is_nan x
      then Raise (ValueError "cannot convert float NaN to integer")
      else Raise (OverflowError "cannot convert float infinity to integer")
  end.

(** [x / y] on Python floats. *)
Definition truediv (x y : float) : outcome float :=
  if F64.is_zero y then Raise (ZeroDivisionError "float division by zero")
  else Ok (F64.div x y).

End Py.

(** ** The numpy generator interface *)

(** The operations of the process-wide generator behind [np.random]. Each
    takes the generator state and returns the values drawn with the state
    that follows. *)
Record numpy_random : Type := {
  rng_state : Type;
  (** [np.random.seed(s)] *)
  rng_seed : Z -> rng_state;
  (** [np.random.choice(a, size, replace=False)], for [size <= a] *)
  rng_choice : nat -> nat -> rng_state -> list nat * rng_state;
  (** [np.random.uniform(low, high, size)] *)
  rng_uniform : float -> float -> nat -> rng_state -> list float * rng_state;
  (** [np.random.negative_binomial(n, p, size)], for accepted [n], [p] *)
  rng_negative_binomial :
    float -> float -> nat -> rng_state -> list Z * rng_state
}.

(** What numpy documents of these operations. *)
Record numpy_random_ok (R : numpy_random) : Prop := {
  choice_length : forall a k s, (k <= a)%nat ->
    length (fst (rng_choice R a k s)) = k;
  choice_NoDup : forall a k s, (k <= a)%nat ->
    NoDup (fst (rng_choice R a k s));
  choice_range : forall a k s, (k <= a)%nat ->
    Forall (fun i => (i < a)%nat) (fst (rng_choice R a k s));
  uniform_length : forall lo hi n s,
    length (fst (rng_uniform R lo hi n s)) = n;
  uniform_range : forall lo hi n s,
    F64.valid lo = true -> F64.valid hi = true -> F64.leb lo hi = true ->
    Forall (fun u => F64.valid u = true /\
                     F64.leb lo u = true /\ F64.leb u hi = true)
           (fst (rng_uniform R lo hi n s));
  negative_binomial_length : forall n p k s,
    length (fst (rng_negative_binomial R n p k s)) = k;
  negative_binomial_nonneg : forall n p k s,
    Forall (fun c => 0 <= c) (fst (rng_negative_binomial R n p k s))
}.

(** The calls that touch the random stream, in the order they happen. *)
Inductive draw : Type :=
| Seeded (seed : Z)
| DrawChoice (a size : Z)
| DrawUniform (low high : float) (size : Z)
| DrawNegBin (n p : float) (size : Z).



(** ** pandas tables *)

Record DataFrame : Type := {
  df_index : list string;
  df_columns : list string;
  df_data : list (list Z)
}.

Module Csv.

Definition dquote : string := String (ascii_of_nat 34) EmptyString.
Definition newline : string := String (ascii_of_nat 10) EmptyString.

Fixpoint contains_char (c : ascii) (s : string) : bool :=
  match s with
  | EmptyString => false
  | String d s' => Ascii.eqb c d || contains_char c s'
  end.

Fixpoint double_quotes (s : string) : string :=
  match s with
  | EmptyString => EmptyString
  | String d s' =>
      if Ascii.eqb d (ascii_of_nat 34)
      then String d (String d (double_quotes s'))
      else String d (double_quotes s')
  end.

(** Minimal quoting: a field is quoted when it holds the separator, a
    quote, a carriage return or a line feed. *)
Definition needs_quote (sep : ascii) (s : string) : bool :=
  contains_char sep s || contains_char (ascii_of_nat 34) s ||
  contains_char (ascii_of_nat 13) s || contains_char (ascii_of_nat 10) s.

Definition field (sep : ascii) (s : string) : string :=
  if needs_quote sep s
  then (dquote ++ double_quotes s ++ dquote)%string
  else s.

Definition row (sep : ascii) (fields : list string) : string :=
  match fields with
  | [EmptyString] => (dquote ++ dquote ++ newline)%string
  | _ =>
      (String.concat (String sep EmptyString) (map (field sep) fields)
         ++ newline)%string
  end.

(** [df.to_csv(path, sep=sep)]: a header of the column names after an
    empty index label, then one line per row. *)
Definition to_csv (sep : ascii) (df : DataFrame) : string :=
  (row sep (EmptyString :: df_columns df) ++
   String.concat EmptyString
     (map (fun '(name, cells) => row sep (name :: map Py.str cells))
          (combine (df_index df) (df_data df))))%string.

End Csv.

(** [pd.DataFrame(data, index=..., columns=...)] for a two-dimensional
    array of shape [(rows, cols)]: the labels must match the shape. *)
Definition pd_DataFrame (rows cols : Z) (data : list (list Z))
    (index columns : list string) : outcome DataFrame :=
  if negb (Z.of_nat (length index) =? rows) then
    Raise (ValueError "Shape of passed values does not match the index")
  else if negb (Z.of_nat (length columns) =? cols) then
    Raise (ValueError "Shape of passed values does not match the columns")
  else Ok {| df_index := index; df_columns := columns; df_data := data |}.

(** ** numpy arrays of means *)

Module Np.

Definition mem (i : nat) (idx : list nat) : bool :=
  existsb (Nat.eqb i) idx.

(** [arr[idx] = op(arr[idx], c)] for an index array [idx]: the selected
    elements are read, combined with [c] and written back; an index
    outside the array raises. *)
Definition update_at (op : float -> float -> float)
    (arr : list float) (idx : list nat) (c : float) : outcome (list float) :=
  if forallb (fun i => (i <? length arr)%nat) idx then
    Ok (map (fun '(i, x) => if mem i idx then op x c else x)
            (combine (seq 0 (length arr)) arr))
  else Raise (IndexError "index is out of bounds").

(** [arr[idx] *= c] *)
Definition imul_at := update_at F64.mul.
(** [arr[idx] /= c] *)
Definition idiv_at := update_at F64.div.

(** [arr[i]] *)
Definition get (arr : list float) (i : nat) : float := nth i arr S754_nan.

(** The parameter check of the legacy [negative_binomial]: [n] must not
    be [<= 0], and [p] must lie in [[0, 1]]. *)
Definition negative_binomial_accepts (n p : float) : bool :=
  negb (F64.leb n F64.zero) && F64.leb F64.zero p && F64.leb p F64.one.

End Np.

(** ** The generator *)

(** What a run can observe and change: the state of the random generator,
    the draws made so far, the files, which paths can be written, and the
    lines printed. *)
Record world_on (S : Type) : Type := {
  rng : S;
  draws : list draw;
  files : list (string * string);
  writable : string -> bool;
  stdout : list string
}.

Arguments rng {S} w.
Arguments draws {S} w.
Arguments files {S} w.
Arguments writable {S} w.
Arguments stdout {S} w.

Section Generator.

Context (R : numpy_random).

(** What a run can observe and change, for this generator. *)
Definition world : Type := world_on (rng_state R).

Definition M (A : Type) : Type := world -> outcome A * world.

Definition ret {A} (a : A) : M A := fun w => (Ok a, w).

Definition raise {A} (e : exn) : M A := fun w => (Raise e, w).

Definition bind {A B} (m : M A) (k : A -> M B) : M B :=
  fun w =>
    match m w with
    | (Ok a, w') => k a w'
    | (Raise e, w') => (Raise e, w')
    end.

Definition lift {A} (r : outcome A) : M A := fun w => (r, w).

Notation "x <- m ;; k" := (bind m (fun x => k))
  (at level 61, m at next level, right associativity).
Notation "m ;;; k" := (bind m (fun _ => k))
  (at level 61, right associativity).

Definition set_rng (s : rng_state R) (w : world) : world :=
  {| rng := s; draws := draws w; files := files w;
     writable := writable w; stdout := stdout w |}.

Definition log (d : draw) (w : world) : world :=
  {| rng := rng w; draws := draws w ++ [d]; files := files w;
     writable := writable w; stdout := stdout w |}.

Definition write_file (path content : string) (w : world) : world :=
  {| rng := rng w; draws := draws w;
     files := (path, content) ::
              filter (fun kv => negb (String.eqb (fst kv) path)) (files w);
     writable := writable w; stdout := stdout w |}.

Definition read_file (path : string) (w : world) : option string :=
  option_map snd (find (fun kv => String.eqb (fst kv) path) (files w)).

(** [print(line)] *)
Definition print (line : string) : M unit :=
  fun w => (Ok tt,
            {| rng := rng w; draws := draws w; files := files w;
               writable := writable w; stdout := stdout w ++ [line] |}).

(** [np.random.seed(seed)]: the seed must fit in 32 bits. *)
Definition np_random_seed (seed : Z) : M unit :=
  fun w =>
    if (0 <=? seed) && (seed <? 2 ^ 32)
    then (Ok tt, log (Seeded seed) (set_rng (rng_seed R seed) w))
    else (Raise (ValueError "Seed must be between 0 and 2**32 - 1"), w).

(** [np.random.choice(a, size, replace=False)] for an int [a]. *)
Definition np_random_choice (a size : Z) : M (list nat) :=
  fun w =>
    if (a <=? 0) && negb (size =? 0) then
      (Raise (ValueError
                "a must be greater than 0 unless no samples are taken"), w)
    else if a <? size then
      (Raise (ValueError
         "Cannot take a larger sample than population when 'replace=False'"),
       w)
    else if size <? 0 then
      (Raise (ValueError "negative dimensions are not allowed"), w)
    else
      let '(out, s) := rng_choice R (Z.to_nat a) (Z.to_nat size) (rng w) in
      (Ok out, log (DrawChoice a size) (set_rng s w)).

(** [np.random.uniform(low, high, size=size)] *)
Definition np_random_uniform (low high : float) (size : Z)
  : M (list float) :=
  fun w =>
    if size <? 0 then
      (Raise (ValueError "negative dimensions are not allowed"), w)
    else
      let '(out, s) := rng_uniform R low high (Z.to_nat size) (rng w) in
      (Ok out, log (DrawUniform low high size) (set_rng s w)).

(** [np.random.negative_binomial(n, p, size=size)]: the parameters are
    checked before anything is drawn. *)
Definition np_random_negative_binomial (n p : float) (size : Z)
  : M (list Z) :=
  fun w =>
    if negb (Np.negative_binomial_accepts n p) then
      (Raise (ValueError "n <= 0, p < 0, p > 1 or p is NaN"), w)
    else if size <? 0 then
      (Raise (ValueError "negative dimensions are not allowed"), w)
    else
      let '(out, s) :=
        rng_negative_binomial R n p (Z.to_nat size) (rng w) in
      (Ok out, log (DrawNegBin n p size) (set_rng s w)).

(** [np.zeros((rows, cols), dtype=int)]: only the shape check matters,
    every cell is overwritten by the loop. *)
Definition np_zeros (rows cols : Z) : outcome unit :=
  if (rows <? 0) || (cols <? 0)
  then Raise (ValueError "negative dimensions are not allowed")
  else Ok tt.

(** [df.to_csv(output, sep=sep)] *)
Definition to_csv (df : DataFrame) (output : string) (sep : ascii)
  : M unit :=
  fun w =>
    if writable w output
    then (Ok tt, write_file output (Csv.to_csv sep df) w)
    else (Raise (OSError output), w).

(** *** Gene and sample names (lines 14 to 27) *)

Definition gene_list_too_short (available required : Z) : string :=
  ("Gene list contains only " ++ Py.str available ++
   " names, fewer than n_genes=" ++ Py.str required ++ ".")%string.

Definition numbered (prefix : string) (n : Z) : list string :=
  map (fun i => (prefix ++ Py.str (Z.of_nat i + 1))%string) (Py.range n).

Definition gene_names (n_genes : Z) (gene_list : option (list string))
  : outcome (list string) :=
  if Py.truthy gene_list then
    let gl := match gene_list with Some l => l | None => [] end in
    if Py.len gl <? n_genes then
      Raise (ValueError (gene_list_too_short (Py.len gl) n_genes))
    else Ok (Py.slice_to gl n_genes)
  else Ok (numbered "gene_" n_genes).

(** *** Local variables once the means are set (lines 14 to 45) *)

Record locals : Type := {
  genes : list string;
  ctrl_samples : list string;
  trt_samples : list string;
  n_de : Z;
  de_indices : list nat;
  mu_ctrl : list float;
  half : Z;
  mu_trt : list float
}.

(** [de_indices[:half]] and [de_indices[half:]] *)
Definition up_indices (st : locals) : list nat :=
  Py.slice_to (de_indices st) (half st).
Definition down_indices (st : locals) : list nat :=
  Py.slice_from (de_indices st) (half st).

Definition prepare (n_genes n_ctrl n_trt : Z) (de_prop fold_change : float)
    (gene_list : option (list string)) : M locals :=
  genes <- lift (gene_names n_genes gene_list) ;;
  let ctrl_samples := numbered "ctrl_" n_ctrl in
  let trt_samples := numbered "trt_" n_trt in
  product <- lift (Py.mul_int_float n_genes de_prop) ;;
  n_de <- lift (Py.int product) ;;
  de_indices <- np_random_choice n_genes n_de ;;
  mu_ctrl <- np_random_uniform F64.c50 F64.c2000 n_genes ;;
  let half := n_de / 2 in
  mu_trt <- lift (Np.imul_at mu_ctrl (Py.slice_to de_indices half)
                    fold_change) ;;
  mu_trt <- lift (Np.idiv_at mu_trt (Py.slice_from de_indices half)
                    fold_change) ;;
  ret {| genes := genes; ctrl_samples := ctrl_samples;
         trt_samples := trt_samples; n_de := n_de;
         de_indices := de_indices; mu_ctrl := mu_ctrl; half := half;
         mu_trt := mu_trt |}.

(** *** Sampling loop (lines 53 to 59) *)

Definition nb_prob (size mu : float) : float :=
  F64.div size (F64.add size mu).

Fixpoint sample_rows (size : float) (mu_ctrl mu_trt : list float)
    (n_ctrl n_trt : Z) (gs : list nat) : M (list (list Z)) :=
  match gs with
  | [] => ret []
  | i :: gs' =>
      let p_ctrl := nb_prob size (Np.get mu_ctrl i) in
      let p_trt := nb_prob size (Np.get mu_trt i) in
      c <- np_random_negative_binomial size p_ctrl n_ctrl ;;
      t <- np_random_negative_binomial size p_trt n_trt ;;
      rows <- sample_rows size mu_ctrl mu_trt n_ctrl n_trt gs' ;;
      ret ((c ++ t) :: rows)
  end.

(** *** Sampling and output (lines 50 to 66) *)

Definition sample_and_write (st : locals) (n_genes n_ctrl n_trt : Z)
    (dispersion : float) (output : string) : M unit :=
  size <- lift (Py.truediv F64.one dispersion) ;;
  lift (np_zeros n_genes (n_ctrl + n_trt)) ;;;
  counts <- sample_rows size (mu_ctrl st) (mu_trt st) n_ctrl n_trt
              (Py.range n_genes) ;;
  df <- lift (pd_DataFrame n_genes (n_ctrl + n_trt) counts (genes st)
                (ctrl_samples st ++ trt_samples st)) ;;
  to_csv df output (ascii_of_nat 9) ;;;
  print ("Simulation complete. File saved to: " ++ output)%string.

(** *** [simulate_counts] *)

Definition simulate_counts (n_genes n_ctrl n_trt : Z)
    (de_prop fold_change dispersion : float) (seed : Z) (output : string)
    (gene_list : option (list string)) : M unit :=
  np_random_seed seed ;;;
  st <- prepare n_genes n_ctrl n_trt de_prop fold_change gene_list ;;
  sample_and_write st n_genes n_ctrl n_trt dispersion output.

(** The draws of a complete run, in order. *)
Definition gene_draws (size : float) (mu_ctrl mu_trt : list float)
    (n_ctrl n_trt : Z) (i : nat) : list draw :=
  [DrawNegBin size (nb_prob size (Np.get mu_ctrl i)) n_ctrl;
   DrawNegBin size (nb_prob size (Np.get mu_trt i)) n_trt].

Definition draw_plan (n_genes n_ctrl n_trt : Z) (dispersion : float)
    (seed k : Z) (mu_ctrl mu_trt : list float) : list draw :=
  [Seeded seed; DrawChoice n_genes k;
   DrawUniform F64.c50 F64.c2000 n_genes] ++
  flat_map (gene_draws (F64.div F64.one dispersion) mu_ctrl mu_trt
              n_ctrl n_trt)
    (Py.range n_genes).


(** The world right after a successful [np.random.seed(seed)]. *)
Definition seeded (seed : Z) (w : world) : world :=
  log (Seeded seed) (set_rng (rng_seed R seed) w).

End Generator.


(** ** A small generator meeting the interface

    A linear congruential stream: [choice] takes a rotation of
    [0 .. a-1], [uniform] returns one of the two bounds, the counts are
    residues of the state. *)

Module Toy.

Definition next (s : Z) : Z := (1103515245 * s + 12345) mod 2 ^ 31.

Definition rotate (r : nat) (l : list nat) : list nat :=
  skipn r l ++ firstn r l.

Definition choice (a k : nat) (s : Z) : list nat * Z :=
  (firstn k (rotate (Z.to_nat (next s mod 7)) (seq 0 a)), next s).

Fixpoint uniform (lo hi : float) (n : nat) (s : Z) : list float * Z :=
  match n with
  | O => ([], s)
  | S n' =>
      let s' := next s in
      let '(l, s'') := uniform lo hi n' s' in
      ((if Z.even (s' / 65536) then lo else hi) :: l, s'')
  end.

Fixpoint counts (n : nat) (s : Z) : list Z * Z :=
  match n with
  | O => ([], s)
  | S n' =>
      let s' := next s in
      let '(l, s'') := counts n' s' in
      ((s' / 65536) mod 1000 :: l, s'')
  end.

Definition gen : numpy_random :=
  {| rng_state := Z;
     rng_seed := fun s => s;
     rng_choice := choice;
     rng_uniform := uniform;
     rng_negative_binomial := fun _ _ => counts |}.

Definition world0 : world gen :=
  Build_world_on Z 0 [] [] (fun _ => true) [].

End Toy.

(** ** Example runs

    Concrete parameters and the values the small generator gives for
    them. *)

Module Demo.

Definition empty_locals : locals := Build_locals [] [] [] 0 [] [] 0 [].

Definition locals_of (r : outcome locals) : locals :=
  match r with Ok st => st | Raise _ => empty_locals end.

(** The floats 0.3, 0.5, 0.7, 0.1, 4.0 and -2.0. *)
Definition f0_3 : float := Eval vm_compute in F64.of_ratio 3 10.
Definition f0_5 : float := Eval vm_compute in F64.of_ratio 1 2.
Definition f0_7 : float := Eval vm_compute in F64.of_ratio 7 10.
Definition f0_1 : float := Eval vm_compute in F64.of_ratio 1 10.
Definition f4 : float := Eval vm_compute in F64.of_Z 4.
Definition fm0_5 : float := Eval vm_compute in F64.of_ratio (-1) 2.

(** 10 genes, 30% of them DE. *)
Definition odd_st : locals :=
  Eval vm_compute in
    locals_of (fst (prepare Toy.gen 10 2 1 f0_3 f4 None Toy.world0)).
Definition odd_world : world Toy.gen :=
  Eval vm_compute in snd (prepare Toy.gen 10 2 1 f0_3 f4 None Toy.world0).

(** 10 genes, 70% of them DE. *)
Definition seven_st : locals :=
  Eval vm_compute in
    locals_of (fst (prepare Toy.gen 10 1 1 f0_7 f4 None Toy.world0)).
Definition seven_world : world Toy.gen :=
  Eval vm_compute in snd (prepare Toy.gen 10 1 1 f0_7 f4 None Toy.world0).




(** A complete run: 4 genes, 2 control and 1 treatment sample. *)
Definition full_world : world Toy.gen :=
  Eval vm_compute in
    snd (simulate_counts Toy.gen 4 2 1 f0_5 f4 f0_3 42 "out.tsv" None
           Toy.world0).
Definition full_st : locals :=
  Eval vm_compute in
    locals_of (fst (prepare Toy.gen 4 2 1 f0_5 f4 None
                      (seeded Toy.gen 42 Toy.world0))).
Definition full_prepared : world Toy.gen :=
  Eval vm_compute in
    snd (prepare Toy.gen 4 2 1 f0_5 f4 None (seeded Toy.gen 42 Toy.world0)).


(** A dispersion of -0.5. *)
Definition bad_dispersion_world : world Toy.gen :=
  Eval vm_compute in
    snd (simulate_counts Toy.gen 2 1 1 f0_5 f4 fm0_5 42 "out.tsv" None
           Toy.world0).

(** One gene and an empty gene list. *)
Definition empty_list_world : world Toy.gen :=
  Eval vm_compute in
    snd (simulate_counts Toy.gen 1 1 1 f0_5 f4 f0_3 42 "out.tsv" (Some [])
           Toy.world0).

End Demo.

(** ** Notions used in the statements and proofs *)

Fixpoint starts_with (p s : string) : bool :=
  match p, s with
  | EmptyString, _ => true
  | String a p', String b s' => Ascii.eqb a b && starts_with p' s'
  | String _ _, EmptyString => false
  end.

(** The error of the gene-list length check, whatever the two counts. *)
Definition gene_list_error (e : exn) : bool :=
  match e with
  | ValueError msg => starts_with "Gene list contains only " msg
  | _ => false
  end.



(** The result of rounding a positive mantissa [m2] of 53 bits, or [2^53]
    after a carry, at exponent [e2]. *)
Definition pack (s : bool) (m2 e2 : Z) : spec_float :=
  if m2 <? 2 ^ 53 then
    if e2 <=? 971 then S754_finite s (Z.to_pos m2) e2 else S754_infinity s
  else
    if e2 + 1 <=? 971 then S754_finite s (Z.to_pos (2 ^ 52)) (e2 + 1)
    else S754_infinity s.

(** Positive normal binary64 numbers: a mantissa of exactly 53 bits. *)
Definition normal53 (m : positive) : Prop := 2 ^ 52 <= Zpos m < 2 ^ 53.

(** A baseline mean: a valid number between 50 and 2000. *)
Definition baseline (mu : spec_float) : Prop :=
  F64.valid mu = true /\ F64.leb F64.c50 mu = true /\ F64.leb mu F64.c2000 = true.


(** A dispersion between [2^-1000] and [2^1000]. *)
Definition moderate (d : float) : Prop :=
  F64.valid d = true /\
  F64.leb (S754_finite false 4503599627370496 (-1052)) d = true /\
  F64.leb d (S754_finite false 4503599627370496 948) = true.

(** The result of rounding a mantissa [m2] between 0 and [2^53] at
    exponent [e2]. *)
Definition packg (s : bool) (m2 e2 : Z) : spec_float :=
  if m2 =? 0 then S754_zero s else pack s m2 e2.

(** A DE proportion: a valid number between 0 and 1. *)
Definition proportion (p : float) : Prop :=
  F64.valid p = true /\ F64.leb F64.zero p = true /\ F64.leb p F64.one = true.

(** ** The rest of [simulate_counts] and the command line

    [non_de_indices] (line 34), and the script's entry point (lines 71 to
    107): the genes file is read as text whose characters are code points
    below 256, and the arguments are taken as [parse_args] returns
    them. *)

(** [list(set(range(n_genes)) - set(de_indices))]: the members of the set
    difference, listed in increasing order (nothing reads the list, so the
    order a set is listed in is not observable). *)
Definition non_de_indices (n_genes : Z) (de_indices : list nat) : list nat :=
  filter (fun i => negb (Np.mem i de_indices)) (Py.range n_genes).

Module Text.

Definition lf : ascii := ascii_of_nat 10.
Definition cr : ascii := ascii_of_nat 13.

(** [c.isspace()]: tab to carriage return, the four separators 28 to 31,
    the space, and of the code points from 128 to 255 the next-line
    control and the no-break space. *)
Definition isspace (c : ascii) : bool :=
  let n := nat_of_ascii c in
  (Nat.leb 9 n && Nat.leb n 13) || (Nat.leb 28 n && Nat.leb n 32) ||
  Nat.eqb n 133 || Nat.eqb n 160.

(** [bool(s)] for a string. *)
Definition truthy (s : string) : bool :=
  match s with EmptyString => false | String _ _ => true end.

(** [s.lstrip()] *)
Fixpoint lstrip (s : string) : string :=
  match s with
  | EmptyString => EmptyString
  | String c s' => if isspace c then lstrip s' else s
  end.

(** [s.rstrip()] *)
Fixpoint rstrip (s : string) : string :=
  match s with
  | EmptyString => EmptyString
  | String c s' =>
      match rstrip s' with
      | EmptyString =>
          if isspace c then EmptyString else String c EmptyString
      | r => String c r
      end
  end.

(** [s.strip()] *)
Definition strip (s : string) : string := rstrip (lstrip s).

(** What a file opened in text mode hands over: every line ending, a
    carriage return and line feed, a lone carriage return or a line feed,
    is read as one line feed. *)
Fixpoint universal_newlines (s : string) : string :=
  match s with
  | EmptyString => EmptyString
  | String c s' =>
      if Ascii.eqb c cr then
        match s' with
        | String d s'' =>
            if Ascii.eqb d lf then String lf (universal_newlines s'')
            else String lf (universal_newlines s')
        | EmptyString => String lf EmptyString
        end
      else String c (universal_newlines s')
  end.

(** [for line in f]: the lines of the text, each with its line feed; the
    last one has none when the text does not end with one. *)
Fixpoint readlines (s : string) : list string :=
  match s with
  | EmptyString => []
  | String c s' =>
      if Ascii.eqb c lf then String lf EmptyString :: readlines s'
      else
        match readlines s' with
        | [] => [String c EmptyString]
        | line :: rest => String c line :: rest
        end
  end.

(** [[line.strip() for line in f if line.strip()]] (line 91) *)
Definition gene_lines (content : string) : list string :=
  map strip
    (filter (fun line => truthy (strip line))
       (readlines (universal_newlines content))).

(** A name as [gene_lines] returns them: not empty, no white space at
    either end, no line break inside. *)
Definition clean (name : string) : bool :=
  truthy name && String.eqb (strip name) name &&
  negb (Csv.contains_char lf name) && negb (Csv.contains_char cr name).

(** The text of a file holding one name per line, each line closed by
    [ending]. *)
Definition one_per_line (ending : string) (names : list string) : string :=
  String.concat EmptyString (map (fun n => (n ++ ending)%string) names).

End Text.

(** The first character of a string, if any, is not white space. *)
Definition starts_clean (s : string) : Prop :=
  match s with
  | EmptyString => True
  | String c _ => Text.isspace c = false
  end.

(** A line holds a line feed at its end only. *)
Definition line_shape (line : string) : Prop :=
  exists body,
    (line = body \/ line = (body ++ String Text.lf EmptyString)%string) /\
    Csv.contains_char Text.lf body = false.

(** Every character of the string is white space. *)
Fixpoint all_space (s : string) : bool :=
  match s with
  | EmptyString => true
  | String c s' => Text.isspace c && all_space s'
  end.

Module Repr.

Definition hex_digit (n : nat) : ascii :=
  if Nat.ltb n 10 then ascii_of_nat (48 + n) else ascii_of_nat (87 + n).

(** Printable characters, for code points below 256. *)
Definition isprintable (c : ascii) : bool :=
  let n := nat_of_ascii c in
  (Nat.leb 32 n && Nat.leb n 126) ||
  (Nat.leb 161 n && negb (Nat.eqb n 173)).

Definition escape (quote : ascii) (c : ascii) : string :=
  let n := nat_of_ascii c in
  if Ascii.eqb c quote || Nat.eqb n 92 then String (ascii_of_nat 92) (String c EmptyString)
  else if Nat.eqb n 9 then "\t"
  else if Nat.eqb n 10 then "\n"
  else if Nat.eqb n 13 then "\r"
  else if isprintable c then String c EmptyString
  else String (ascii_of_nat 92)
         (String "x" (String (hex_digit (Nat.div n 16))
                        (String (hex_digit (Nat.modulo n 16)) EmptyString))).

Fixpoint escape_all (quote : ascii) (s : string) : string :=
  match s with
  | EmptyString => EmptyString
  | String c s' => (escape quote c ++ escape_all quote s')%string
  end.

(** [repr(s)] for a string: single quotes, unless the string holds a
    single quote and no double quote. *)
Definition repr (s : string) : string :=
  let single := ascii_of_nat 39 in
  let double := ascii_of_nat 34 in
  let quote :=
    if Csv.contains_char single s && negb (Csv.contains_char double s)
    then double else single in
  (String quote (escape_all quote s) ++ String quote EmptyString)%string.

End Repr.

Module Cli.

(** The namespace [parse_args] returns (lines 74 to 84). *)
Record args : Type := {
  n_genes : Z;
  n_ctrl : Z;
  n_trt : Z;
  de_prop : float;
  fold_change : float;
  dispersion : float;
  seed : Z;
  output : string;
  genes_file : option string
}.

(** The values [parse_args] gives when the command line is empty. *)
Definition defaults : args :=
  {| n_genes := 18000; n_ctrl := 5; n_trt := 5;
     de_prop := Demo.f0_1; fold_change := Demo.f4; dispersion := Demo.f0_3;
     seed := 42; output := "simulated_counts.tsv"; genes_file := None |}.

(** The same arguments without [--genes_file]. *)
Definition without_genes_file (a : args) : args :=
  {| n_genes := n_genes a; n_ctrl := n_ctrl a; n_trt := n_trt a;
     de_prop := de_prop a; fold_change := fold_change a;
     dispersion := dispersion a; seed := seed a; output := output a;
     genes_file := None |}.

(** How the script ends: [sys.exit(code)] or the end of the script
    ([Exit 0]), or an exception nothing catches, which the interpreter
    reports with exit code 1. *)
Inductive status : Type :=
| Exit (code : Z)
| Uncaught (e : exn).


(** The world of the script: the world of the generator and the lines
    written to the standard error stream. *)
Record process_on (S : Type) : Type := {
  os : world_on S;
  stderr : list string
}.

Arguments os {S} p.
Arguments stderr {S} p.

(** [str(e)] *)
Definition message (e : exn) : string :=
  match e with
  | ValueError msg | ZeroDivisionError msg | OverflowError msg
  | IndexError msg | OSError msg => msg
  end.

Section Main.

Context (R : numpy_random).

Definition process : Type := process_on (rng_state R).

(** [open(path)] followed by reading: a path with no file raises. *)
Definition open_text (path : string) (w : world R) : outcome string :=
  match read_file R path w with
  | Some content => Ok content
  | None =>
      Raise (OSError ("[Errno 2] No such file or directory: " ++
                      Repr.repr path))
  end.

(** Lines 87 to 94: the gene list, or the error of reading the file. *)
Definition load_gene_list (a : args) (w : world R)
  : outcome (option (list string)) :=
  match genes_file a with
  | Some path =>
      if Text.truthy path then
        match open_text path w with
        | Ok content => Ok (Some (Text.gene_lines content))
        | Raise e => Raise e
        end
      else Ok None
  | None => Ok None
  end.

(** Lines 84 to 107, after [parse_args]. *)
Definition main (a : args) (p : process) : status * process :=
  match load_gene_list a (os p) with
  | Raise e =>
      (Exit 1,
       {| os := os p;
          stderr := stderr p ++
                    [("Error reading gene file: " ++ message e)%string] |})
  | Ok gene_list =>
      match simulate_counts R (n_genes a) (n_ctrl a) (n_trt a) (de_prop a)
              (fold_change a) (dispersion a) (seed a) (output a) gene_list
              (os p) with
      | (Ok _, w') => (Exit 0, {| os := w'; stderr := stderr p |})
      | (Raise e, w') => (Uncaught e, {| os := w'; stderr := stderr p |})
      end
  end.

End Main.

End Cli.

(** A world holding a genes file of blank lines, and one holding a genes
    file of three names with Windows line endings. *)
Definition blank_file_process : Cli.process Toy.gen :=
  {| Cli.os :=
       Build_world_on Z 0 []
         [("genes.txt"%string,
           String (ascii_of_nat 32) (String (ascii_of_nat 10)
             (String (ascii_of_nat 9) (String (ascii_of_nat 10) EmptyString))))]
         (fun _ => true) [];
     Cli.stderr := [] |}.

Definition three_names_process : Cli.process Toy.gen :=
  {| Cli.os :=
       Build_world_on Z 0 []
         [("genes.txt"%string,
           Text.one_per_line
             (String (ascii_of_nat 13) (String (ascii_of_nat 10) EmptyString))
             ["TP53"; "BRCA1"; "MT-CO1"]%string)]
         (fun _ => true) [];
     Cli.stderr := [] |}.

Definition three_genes_args : Cli.args :=
  {| Cli.n_genes := 3; Cli.n_ctrl := 1; Cli.n_trt := 1;
     Cli.de_prop := Demo.f0_5; Cli.fold_change := Demo.f4;
     Cli.dispersion := Demo.f0_3; Cli.seed := 42;
     Cli.output := "out.tsv"; Cli.genes_file := Some "genes.txt"%string |}.

(** [math.isfinite(x)] *)
Definition isfinite (x : float) : bool :=
  match x with
  | S754_zero _ | S754_finite _ _ _ => true
  | S754_infinity _ | S754_nan => false
  end.

(** A fold change from 1 to 64. *)
Definition modest (fc : float) : Prop :=
  F64.valid fc = true /\ F64.leb F64.one fc = true /\
  F64.leb fc (S754_finite false 4503599627370496 (-46)) = true.

(** The integer a decimal literal denotes, as [int(s)] reads what [str]
    prints. *)
Definition int_of_str (s : string) : option Z :=
  option_map Z.of_int (NilZero.int_of_string s).

Module Tsv.

(** The pieces of [s] between the occurrences of [sep]. *)
Fixpoint split (sep : ascii) (s : string) : list string :=
  match s with
  | EmptyString => [EmptyString]
  | String c s' =>
      if Ascii.eqb c sep then EmptyString :: split sep s'
      else
        match split sep s' with
        | [] => [String c EmptyString]
        | piece :: rest => String c piece :: rest
        end
  end.





End Tsv.

(** * Facts about binary64 rounding *)

Lemma iter_pos_nat {A} (f : A -> A) (p : positive) (x : A) :
  iter_pos f p x = Nat.iter (Pos.to_nat p) f x.
Proof.
  revert x; induction p as [p IH | p IH |]; intro x; simpl iter_pos.
  - rewrite !IH, Pos2Nat.inj_xI.
    rewrite <- Nat.iter_add, <- Nat.iter_succ_r.
    f_equal; lia.
  - rewrite !IH, Pos2Nat.inj_xO, <- Nat.iter_add.
    f_equal; lia.
  - reflexivity.
Qed.

Lemma digits2_pos_bounds (p : positive) :
  2 ^ (Zpos (digits2_pos p) - 1) <= Zpos p < 2 ^ Zpos (digits2_pos p).
Proof.
  induction p as [p IH | p IH |]; simpl digits2_pos.
  - rewrite Pos2Z.inj_succ.
    replace (Z.succ (Zpos (digits2_pos p)) - 1) with (Zpos (digits2_pos p) - 1 + 1) by lia.
    rewrite Z.pow_succ_r by lia.
    rewrite Z.pow_add_r by lia.
    change (2 ^ 1) with 2. lia.
  - rewrite Pos2Z.inj_succ.
    replace (Z.succ (Zpos (digits2_pos p)) - 1) with (Zpos (digits2_pos p) - 1 + 1) by lia.
    rewrite Z.pow_succ_r by lia.
    rewrite Z.pow_add_r by lia.
    change (2 ^ 1) with 2. lia.
  - simpl. lia.
Qed.

Lemma digits2_pos_unique (p : positive) (k : Z) :
  2 ^ (k - 1) <= Zpos p < 2 ^ k -> Zpos (digits2_pos p) = k.
Proof.
  intros [Hlo Hhi].
  pose proof (digits2_pos_bounds p) as [Dlo Dhi].
  set (d := Zpos (digits2_pos p)) in *.
  assert (0 < d) by (subst d; lia).
  destruct (Z.lt_trichotomy d k) as [Hlt | [Heq | Hgt]]; [ | exact Heq | ].
  - assert (2 ^ d <= 2 ^ (k - 1)) by (apply Z.pow_le_mono_r; lia). lia.
  - assert (0 <= k).
    { destruct (Z.le_gt_cases 0 k); [assumption|].
      rewrite (Z.pow_neg_r 2 k) in Hhi by lia. lia. }
    assert (2 ^ k <= 2 ^ (d - 1)) by (apply Z.pow_le_mono_r; lia). lia.
Qed.

Lemma shr_1_m (mrs : shr_record) :
  0 <= shr_m mrs -> shr_m (shr_1 mrs) = shr_m mrs / 2.
Proof.
  destruct mrs as [m r s]; cbn [shr_m]; intro Hm.
  destruct m as [| [p | p |] | p]; cbn [shr_1 shr_m]; try lia.
  - reflexivity.
  - apply Z.div_unique with (r := 1); lia.
  - apply Z.div_unique with (r := 0); lia.
  - reflexivity.
Qed.

Lemma shr_1_nonneg (mrs : shr_record) :
  0 <= shr_m mrs -> 0 <= shr_m (shr_1 mrs).
Proof.
  intro H. rewrite shr_1_m by assumption. apply Z.div_pos; lia.
Qed.

Lemma iter_shr_m (n : nat) (mrs : shr_record) :
  0 <= shr_m mrs ->
  shr_m (Nat.iter n shr_1 mrs) = shr_m mrs / 2 ^ Z.of_nat n.
Proof.
  intro Hm. induction n as [| n IH].
  - simpl. now rewrite Z.div_1_r.
  - rewrite Nat.iter_succ, shr_1_m.
    + rewrite IH, Nat2Z.inj_succ, Z.pow_succ_r by lia.
      rewrite Z.div_div by lia. f_equal; lia.
    + rewrite IH. apply Z.div_pos; lia.
Qed.

Lemma shr_1_exact (m : Z) :
  0 <= m -> m mod 2 = 0 ->
  shr_1 (Build_shr_record m false false) = Build_shr_record (m / 2) false false.
Proof.
  intros Hm Hev.
  destruct m as [| [p | p |] | p]; cbn [shr_1]; try lia; try reflexivity.
  - exfalso.
    replace (Z.pos p~1) with (1 + Z.pos p * 2) in Hev by lia.
    rewrite Z.mod_add in Hev by lia. discriminate.
  - f_equal.
    apply Z.div_unique with (r := 0); lia.
  - discriminate.
Qed.

Lemma iter_shr_exact (n : nat) (m : Z) :
  0 <= m -> m mod 2 ^ Z.of_nat n = 0 ->
  Nat.iter n shr_1 (Build_shr_record m false false) =
  Build_shr_record (m / 2 ^ Z.of_nat n) false false.
Proof.
  intro Hm. induction n as [| n IH]; intro Hdiv.
  - simpl. now rewrite Z.div_1_r.
  - rewrite Nat2Z.inj_succ, Z.pow_succ_r in * by lia.
    assert (P : 0 < 2 ^ Z.of_nat n) by (apply Z.pow_pos_nonneg; lia).
    apply Z.mod_divide in Hdiv; [| lia].
    destruct Hdiv as [k Hk].
    assert (Hm' : m mod 2 ^ Z.of_nat n = 0).
    { apply Z.mod_divide; [lia |]. exists (k * 2). lia. }
    rewrite Nat.iter_succ, IH by assumption.
    assert (Hq : m / 2 ^ Z.of_nat n = k * 2).
    { symmetry. apply Z.div_unique with (r := 0); lia. }
    rewrite shr_1_exact.
    + f_equal. rewrite Z.div_div by lia. f_equal; lia.
    + apply Z.div_pos; lia.
    + rewrite Hq. apply Z.mod_mul; lia.
Qed.

Lemma round_nearest_even_cases (m : Z) (l : location) :
  round_nearest_even m l = m \/ round_nearest_even m l = m + 1.
Proof.
  destruct l as [| []]; simpl; auto.
  destruct (Z.even m); auto.
Qed.

Lemma loc_of_shr_record_of_loc (m : Z) (l : location) :
  loc_of_shr_record (shr_record_of_loc m l) = l.
Proof. destruct l as [| []]; reflexivity. Qed.

Lemma shr_m_of_loc (m : Z) (l : location) :
  shr_m (shr_record_of_loc m l) = m.
Proof. destruct l as [| []]; reflexivity. Qed.

(** Second normalisation step of [binary_round_aux] on a mantissa of 53
    bits, or on [2^53] after a carry. *)
Lemma renormalise (s : bool) (m2 e1 : Z) :
  2 ^ 52 <= m2 <= 2 ^ 53 -> -1074 <= e1 ->
  (let '(mrs, e2) := shr_fexp 53 1024 m2 e1 loc_Exact in
   match shr_m mrs with
   | Z0 => S754_zero s
   | Zpos m => if e2 <=? 1024 - 53 then S754_finite s m e2 else S754_infinity s
   | Zneg _ => S754_nan
   end) = pack s m2 e1.
Proof.
  intros Hm He. unfold pack, shr_fexp.
  destruct m2 as [| p | p]; try lia.
  cbn [Zdigits2].
  destruct (Z.ltb_spec (Zpos p) (2 ^ 53)) as [Hlt | Hge].
  - rewrite (digits2_pos_unique p 53) by (change (53 - 1) with 52; lia).
    unfold fexp, emin.
    replace (Z.max (53 + e1 - 53) (3 - 1024 - 53) - e1) with 0 by lia.
    cbn [shr shr_record_of_loc shr_m]. rewrite Pos2Z.id. reflexivity.
  - assert (Hp : Zpos p = 2 ^ 53) by lia.
    rewrite (digits2_pos_unique p 54) by (change (54 - 1) with 53; rewrite Hp; split; [lia | reflexivity]).
    unfold fexp, emin.
    replace (Z.max (54 + e1 - 53) (3 - 1024 - 53) - e1) with 1 by lia.
    injection Hp as ->.
    cbn. reflexivity.
Qed.

Lemma round_aux_normal (s : bool) (m : positive) (e : Z) (l : location) :
  let d := Zpos (digits2_pos m) in
  53 <= d -> -1074 <= d + e - 53 ->
  exists m2,
    (m2 = Zpos m / 2 ^ (d - 53) \/ m2 = Zpos m / 2 ^ (d - 53) + 1) /\
    (l = loc_Exact -> Zpos m mod 2 ^ (d - 53) = 0 ->
     m2 = Zpos m / 2 ^ (d - 53)) /\
    2 ^ 52 <= Zpos m / 2 ^ (d - 53) < 2 ^ 53 /\
    binary_round_aux 53 1024 s (Zpos m) e l = pack s m2 (e + (d - 53)).
Proof.
  intros d Hd He.
  pose proof (digits2_pos_bounds m) as [Dlo Dhi]. fold d in Dlo, Dhi.
  assert (Hpow : 0 < 2 ^ (d - 53)) by (apply Z.pow_pos_nonneg; lia).
  assert (Hm1 : 2 ^ 52 <= Zpos m / 2 ^ (d - 53) < 2 ^ 53).
  { assert (E1 : 2 ^ (d - 1) = 2 ^ 52 * 2 ^ (d - 53))
      by (rewrite <- Z.pow_add_r by lia; f_equal; lia).
    assert (E2 : 2 ^ d = 2 ^ 53 * 2 ^ (d - 53))
      by (rewrite <- Z.pow_add_r by lia; f_equal; lia).
    rewrite E1 in Dlo. rewrite E2 in Dhi.
    split.
    - apply Z.div_le_lower_bound; lia.
    - apply Z.div_lt_upper_bound; lia. }
  unfold binary_round_aux.
  unfold shr_fexp at 1. cbn [Zdigits2]. fold d.
  unfold fexp, emin.
  replace (Z.max (d + e - 53) (3 - 1024 - 53) - e) with (d - 53) by lia.
  destruct (Z.eq_dec d 53) as [E53 | N53].
  - rewrite E53 in *. change (53 - 53) with 0 in *.
    cbn [shr]. rewrite shr_m_of_loc, loc_of_shr_record_of_loc.
    change (2 ^ 0) with 1 in *. rewrite Z.div_1_r in *.
    exists (round_nearest_even (Zpos m) l).
    split; [apply round_nearest_even_cases |].
    split; [intros -> _; reflexivity |].
    split; [assumption |].
    rewrite Z.add_0_r.
    apply renormalise; [| lia].
    destruct (round_nearest_even_cases (Zpos m) l) as [-> | ->]; lia.
  - destruct (d - 53) as [| p | p] eqn:Edp; try lia.
    cbn [shr]. rewrite iter_pos_nat.
    set (mrs := Nat.iter (Pos.to_nat p) shr_1 (shr_record_of_loc (Zpos m) l)).
    assert (Hmrs : shr_m mrs = Zpos m / 2 ^ Zpos p).
    { subst mrs. rewrite iter_shr_m.
      - rewrite shr_m_of_loc, positive_nat_Z. reflexivity.
      - rewrite shr_m_of_loc. lia. }
    exists (round_nearest_even (shr_m mrs) (loc_of_shr_record mrs)).
    split; [rewrite <- Hmrs; apply round_nearest_even_cases |].
    split.
    + intros -> Hdiv. subst mrs. cbn [shr_record_of_loc].
      rewrite iter_shr_exact; rewrite ?positive_nat_Z; try assumption; try lia.
      reflexivity.
    + split; [assumption |].
      apply renormalise; [| lia].
      destruct (round_nearest_even_cases (shr_m mrs) (loc_of_shr_record mrs))
        as [-> | ->]; lia.
Qed.


Lemma valid_finite_inv (s : bool) (m : positive) (e : Z) :
  F64.valid (S754_finite s m e) = true ->
  Z.max (Zpos (digits2_pos m) + e - 53) (-1074) = e /\ e <= 971.
Proof.
  unfold F64.valid, valid_binary, bounded, canonical_mantissa, fexp, emin, F64.prec, F64.emax.
  intro H. apply andb_true_iff in H as [H1 H2].
  apply Z.eqb_eq in H1. apply Z.leb_le in H2.
  change (3 - 1024 - 53) with (-1074) in H1. change (1024 - 53) with 971 in H2.
  split; assumption.
Qed.

Lemma valid_normal (s : bool) (m : positive) (e : Z) :
  F64.valid (S754_finite s m e) = true -> -1074 < e -> normal53 m.
Proof.
  intros Hv He. apply valid_finite_inv in Hv as [Hc _].
  pose proof (digits2_pos_bounds m) as B.
  assert (D : Zpos (digits2_pos m) = 53) by lia.
  rewrite D in B. exact B.
Qed.


Lemma baseline_inv (mu : spec_float) :
  baseline mu ->
  exists m e, mu = S754_finite false m e /\ -47 <= e <= -42 /\ normal53 m.
Proof.
  intros (Hv & Hlo & Hhi).
  destruct mu as [s | s | | s m e]; try discriminate.
  - destruct s; discriminate.
  - destruct s; [discriminate |].
    exists m, e. split; [reflexivity |].
    assert (He : -47 <= e <= -42).
    { unfold F64.leb, SFleb, SFcompare, F64.c50, F64.c2000 in Hlo, Hhi.
      split.
      - destruct (Z.compare_spec (-47) e); try lia; discriminate.
      - destruct (Z.compare_spec e (-42)); try lia; discriminate. }
    split; [assumption |].
    apply (valid_normal false m e Hv). lia.
Qed.


Lemma digits_product (mx my : positive) :
  normal53 mx -> normal53 my ->
  105 <= Zpos (digits2_pos (mx * my)) <= 106.
Proof.
  unfold normal53. intros Hx Hy.
  pose proof (digits2_pos_bounds (mx * my)) as [Dlo Dhi].
  rewrite Pos2Z.inj_mul in Dlo, Dhi.
  set (d := Zpos (digits2_pos (mx * my))) in *.
  assert (Hd : 0 < d) by (subst d; lia).
  assert (P1 : 2 ^ 104 <= Zpos mx * Zpos my).
  { change (2 ^ 104) with (2 ^ 52 * 2 ^ 52). apply Z.mul_le_mono_nonneg; lia. }
  assert (P2 : Zpos mx * Zpos my < 2 ^ 106).
  { change (2 ^ 106) with (2 ^ 53 * 2 ^ 53). apply Z.mul_lt_mono_nonneg; lia. }
  split.
  - destruct (Z.le_gt_cases 105 d); [assumption |].
    assert (2 ^ d <= 2 ^ 104) by (apply Z.pow_le_mono_r; lia). lia.
  - destruct (Z.le_gt_cases d 106); [assumption |].
    assert (2 ^ 106 <= 2 ^ (d - 1)) by (apply Z.pow_le_mono_r; lia). lia.
Qed.



Lemma new_location_0 (n : Z) : new_location n 0 = loc_Exact.
Proof.
  unfold new_location, new_location_even, new_location_odd.
  destruct (Z.even n); reflexivity.
Qed.

Lemma div_core_normal (mx : positive) (ex : Z) (my : positive) (ey : Z) :
  normal53 mx -> normal53 my -> -1074 <= ex - ey - 53 ->
  SFdiv_core_binary 53 1024 (Zpos mx) ex (Zpos my) ey =
  (Zpos mx * 2 ^ 53 / Zpos my, ex - ey - 53,
   new_location (Zpos my) ((Zpos mx * 2 ^ 53) mod Zpos my)).
Proof.
  intros Hx Hy He. unfold SFdiv_core_binary. cbn [Zdigits2].
  rewrite (digits2_pos_unique mx 53), (digits2_pos_unique my 53)
    by (change (53 - 1) with 52; assumption).
  unfold fexp, emin.
  replace (Z.min (Z.max (53 + ex - (53 + ey) - 53) (3 - 1024 - 53)) (ex - ey))
    with (ex - ey - 53) by lia.
  replace (ex - ey - (ex - ey - 53)) with 53 by lia.
  cbv iota.
  rewrite Z.shiftl_mul_pow2 by lia.
  unfold Z.div, Z.modulo.
  destruct (Z.div_eucl (Zpos mx * 2 ^ 53) (Zpos my)) as [q r].
  reflexivity.
Qed.



Lemma pos_iter_xO (p k : positive) :
  Zpos (Pos.iter xO p k) = Zpos p * 2 ^ Zpos k.
Proof.
  rewrite (Pos.iter_swap_gen _ _ Zpos xO (Z.mul 2)) by reflexivity.
  change (Pos.iter (Z.mul 2) (Zpos p) k) with (Z.shiftl (Zpos p) (Zpos k)).
  apply Z.shiftl_mul_pow2. lia.
Qed.

Lemma round_aux_exact53 (s : bool) (m : positive) (e : Z) :
  normal53 m -> -1074 <= e <= 971 ->
  binary_round_aux 53 1024 s (Zpos m) e loc_Exact = S754_finite s m e.
Proof.
  intros Hm He. pose proof Hm as Hm'. unfold normal53 in Hm'.
  assert (D : Zpos (digits2_pos m) = 53)
    by (apply digits2_pos_unique; change (53 - 1) with 52; assumption).
  destruct (round_aux_normal s m e loc_Exact) as (m2 & _ & Hex & _ & ->);
    rewrite ?D; try lia.
  rewrite D in Hex. change (53 - 53) with 0 in *. change (2 ^ 0) with 1 in Hex.
  rewrite Z.div_1_r in Hex. rewrite (Hex eq_refl (Z.mod_1_r _)).
  unfold pack.
  destruct (Z.ltb_spec (Zpos m) (2 ^ 53)); [| lia].
  destruct (Z.leb_spec (e + 0) 971); [| lia].
  rewrite Pos2Z.id, Z.add_0_r. reflexivity.
Qed.

Lemma of_Z_exact (n : Z) :
  0 < n < 2 ^ 53 ->
  exists m e, F64.of_Z n = S754_finite false m e /\ normal53 m /\
              -52 <= e <= 0 /\ Zpos m = n * 2 ^ (- e).
Proof.
  intros Hn. destruct n as [| p | p]; try lia.
  unfold F64.of_Z, binary_normalize, binary_round, F64.prec, F64.emax.
  pose proof (digits2_pos_bounds p) as [Dlo Dhi].
  set (d := Zpos (digits2_pos p)) in *.
  assert (Hd : 0 < d <= 53).
  { split; [subst d; lia |].
    destruct (Z.le_gt_cases d 53); [assumption |].
    assert (2 ^ 53 <= 2 ^ (d - 1)) by (apply Z.pow_le_mono_r; lia). lia. }
  unfold fexp, emin. rewrite Z.add_0_r.
  replace (Z.max (d - 53) (3 - 1024 - 53)) with (d - 53) by lia.
  unfold shl_align. rewrite Z.sub_0_r.
  destruct (d - 53) as [| k | k] eqn:Ek; try lia.
  - exists p, 0. assert (d = 53) by lia.
    assert (normal53 p) by (unfold normal53; replace 52 with (d - 1) by lia;
                             replace 53 with d by lia; lia).
    rewrite round_aux_exact53 by (assumption || lia).
    repeat split; try lia; try apply H0.
  - assert (Hk : Zpos k = 53 - d) by lia.
    assert (Hm : Zpos (Pos.iter xO p k) = Zpos p * 2 ^ (53 - d))
      by (rewrite pos_iter_xO, Hk; reflexivity).
    assert (Hpw : 0 < 2 ^ (53 - d)) by (apply Z.pow_pos_nonneg; lia).
    assert (N : normal53 (Pos.iter xO p k)).
    { unfold normal53. rewrite Hm.
      assert (E1 : 2 ^ 52 = 2 ^ (d - 1) * 2 ^ (53 - d))
        by (rewrite <- Z.pow_add_r by lia; f_equal; lia).
      assert (E2 : 2 ^ 53 = 2 ^ d * 2 ^ (53 - d))
        by (rewrite <- Z.pow_add_r by lia; f_equal; lia).
      rewrite E1, E2. split.
      - apply Z.mul_le_mono_nonneg_r; lia.
      - apply Z.mul_lt_mono_pos_r; lia. }
    exists (Pos.iter xO p k), (Zneg k).
    rewrite round_aux_exact53 by (assumption || lia).
    repeat split; try lia; try apply N.
    rewrite Hm. f_equal. f_equal. lia.
Qed.

Lemma mul_one_normal (m : positive) (e : Z) :
  normal53 m -> -1074 <= e <= 971 ->
  F64.mul (S754_finite false m e) F64.one = S754_finite false m e.
Proof.
  intros Hm He. pose proof Hm as Hm'. unfold normal53 in Hm'.
  unfold F64.mul, F64.one, SFmul, F64.prec, F64.emax. cbn [xorb].
  assert (Hp : Zpos (m * 4503599627370496) = Zpos m * 2 ^ 52)
    by (rewrite Pos2Z.inj_mul; reflexivity).
  assert (D : Zpos (digits2_pos (m * 4503599627370496)) = 105).
  { apply digits2_pos_unique. rewrite Hp.
    change (2 ^ (105 - 1)) with (2 ^ 52 * 2 ^ 52).
    change (2 ^ 105) with (2 ^ 53 * 2 ^ 52). lia. }
  destruct (round_aux_normal false (m * 4503599627370496) (e + -52) loc_Exact)
    as (m2 & _ & Hex & _ & ->); rewrite ?D; try lia.
  rewrite D, Hp in Hex. change (105 - 53) with 52 in *.
  rewrite Z.mod_mul, Z.div_mul in Hex by lia.
  rewrite (Hex eq_refl eq_refl).
  unfold pack.
  destruct (Z.ltb_spec (Zpos m) (2 ^ 53)); [| lia].
  replace (e + -52 + 52) with e by lia.
  destruct (Z.leb_spec e 971); [| lia].
  rewrite Pos2Z.id. reflexivity.
Qed.

Lemma trunc_mul_of_Z_one (n : Z) :
  0 < n < 2 ^ 53 -> F64.trunc (F64.mul (F64.of_Z n) F64.one) = Some n.
Proof.
  intro Hn. destruct (of_Z_exact n Hn) as (m & e & -> & Hm & He & Hv).
  rewrite mul_one_normal by (assumption || lia).
  cbn [F64.trunc cond_Zopp]. f_equal.
  rewrite Z.shiftl_div_pow2 by lia. rewrite Hv.
  apply Z.div_mul. apply Z.pow_nonzero; lia.
Qed.






(** * The sampler accepts the baseline parameters *)

Lemma shl_align_value (mx : positive) (ex ez : Z) :
  ez <= ex ->
  Zpos (fst (shl_align mx ex ez)) = Zpos mx * 2 ^ (ex - ez).
Proof.
  intro H. unfold shl_align.
  destruct (ez - ex) as [| d | d] eqn:E; cbn [fst]; try lia.
  - replace (ex - ez) with 0 by lia. change (2 ^ 0) with 1. lia.
  - rewrite pos_iter_xO. f_equal. f_equal. lia.
Qed.

Lemma digits_ge (p : positive) (k : Z) :
  2 ^ k <= Zpos p -> k + 1 <= Zpos (digits2_pos p).
Proof.
  intro H. pose proof (digits2_pos_bounds p) as [_ Dhi].
  destruct (Z.le_gt_cases (k + 1) (Zpos (digits2_pos p))); [assumption |].
  assert (2 ^ Zpos (digits2_pos p) <= 2 ^ k) by (apply Z.pow_le_mono_r; lia).
  lia.
Qed.

Lemma digits_le (p : positive) (k : Z) :
  0 <= k -> Zpos p < 2 ^ k -> Zpos (digits2_pos p) <= k.
Proof.
  intros Hk H. pose proof (digits2_pos_bounds p) as [Dlo _].
  destruct (Z.le_gt_cases (Zpos (digits2_pos p)) k); [assumption |].
  assert (2 ^ k <= 2 ^ (Zpos (digits2_pos p) - 1))
    by (apply Z.pow_le_mono_r; lia).
  lia.
Qed.

(** The sum of a positive normal number and a baseline mean is infinite,
    or a normal number no smaller than the first operand. *)
Lemma add_baseline (ms : positive) (es : Z) (mu : float) :
  normal53 ms -> -1074 <= es -> baseline mu ->
  F64.add (S754_finite false ms es) mu = S754_infinity false \/
  exists m' e',
    F64.add (S754_finite false ms es) mu = S754_finite false m' e' /\
    normal53 m' /\ (es < e' \/ (es = e' /\ Zpos ms <= Zpos m')) /\
    e' <= Z.max es (-42) + 2.
Proof.
  intros Hms Hes Hmu.
  apply baseline_inv in Hmu as (mm & em & -> & Hem & Hmm).
  unfold normal53 in Hms, Hmm.
  unfold F64.add, SFadd, F64.prec, F64.emax. cbn [cond_Zopp].
  set (ez := Z.min es em).
  assert (Hez : ez <= es /\ ez <= em /\ -1074 <= ez) by (subst ez; lia).
  rewrite !shl_align_value by lia.
  assert (Ps : 0 < 2 ^ (es - ez)) by (apply Z.pow_pos_nonneg; lia).
  assert (Pm : 0 < 2 ^ (em - ez)) by (apply Z.pow_pos_nonneg; lia).
  set (mx := Z.max es em).
  assert (Hmx : es <= mx /\ em <= mx /\ mx <= Z.max es (-42))
    by (subst mx; lia).
  assert (Pmx : 2 ^ (es - ez) <= 2 ^ (mx - ez) /\
                2 ^ (em - ez) <= 2 ^ (mx - ez))
    by (split; apply Z.pow_le_mono_r; lia).
  clearbody ez mx.
  remember (Zpos ms * 2 ^ (es - ez) + Zpos mm * 2 ^ (em - ez)) as M eqn:EM.
  assert (A1 : 2 ^ 52 * 2 ^ (es - ez) <= Zpos ms * 2 ^ (es - ez))
    by (apply Z.mul_le_mono_nonneg_r; lia).
  assert (A2 : 0 < Zpos mm * 2 ^ (em - ez))
    by (apply Z.mul_pos_pos; lia).
  assert (A3 : Zpos ms * 2 ^ (es - ez) < 2 ^ 53 * 2 ^ (mx - ez)).
  { apply Z.le_lt_trans with (Zpos ms * 2 ^ (mx - ez)).
    - apply Z.mul_le_mono_nonneg_l; lia.
    - apply Z.mul_lt_mono_pos_r; lia. }
  assert (A4 : Zpos mm * 2 ^ (em - ez) < 2 ^ 53 * 2 ^ (mx - ez)).
  { apply Z.le_lt_trans with (Zpos mm * 2 ^ (mx - ez)).
    - apply Z.mul_le_mono_nonneg_l; lia.
    - apply Z.mul_lt_mono_pos_r; lia. }
  assert (HM1 : Zpos ms * 2 ^ (es - ez) <= M) by (clear - EM A2; lia).
  assert (HM0 : 2 ^ (52 + (es - ez)) <= M)
    by (rewrite Z.pow_add_r by lia; clear - A1 HM1; lia).
  assert (HM2 : M < 2 ^ (54 + (mx - ez))).
  { replace (54 + (mx - ez)) with (1 + 53 + (mx - ez)) by lia.
    rewrite !Z.pow_add_r by lia. change (2 ^ 1) with 2.
    clear - EM A3 A4. lia. }
  assert (HMpos : 0 < M) by (clear - HM1 A1 Ps; lia).
  clear EM.
  destruct M as [| pM | pM]; try lia.
  unfold binary_normalize, binary_round.
  pose proof (digits_ge pM _ HM0) as Hd1.
  pose proof (digits_le pM (54 + (mx - ez)) ltac:(lia) HM2) as Hd2.
  pose proof (digits2_pos_bounds pM) as [Dlo Dhi].
  set (d := Zpos (digits2_pos pM)) in *.
  unfold fexp, emin.
  replace (Z.max (d + ez - 53) (3 - 1024 - 53)) with (d + ez - 53) by lia.
  assert (Hsh : shl_align pM ez (d + ez - 53) = (pM, ez)).
  { unfold shl_align. destruct (d + ez - 53 - ez) eqn:E; try reflexivity. lia. }
  rewrite Hsh.
  destruct (round_aux_normal false pM ez loc_Exact)
    as (m2 & Hm2 & _ & Hm1 & ->); fold d; try lia.
  fold d in Hm2, Hm1.
  assert (Hpw : 0 < 2 ^ (d - 53)) by (apply Z.pow_pos_nonneg; lia).
  assert (Hm2' : 2 ^ 52 <= m2 <= 2 ^ 53) by lia.
  assert (Hlow : d - 53 = es - ez -> Zpos ms <= Zpos pM / 2 ^ (d - 53)).
  { intros ->. apply Z.div_le_lower_bound; lia. }
  unfold pack.
  destruct (Z.ltb_spec m2 (2 ^ 53)).
  - destruct (Z.leb_spec (ez + (d - 53)) 971); [right | now left].
    exists (Z.to_pos m2), (ez + (d - 53)).
    split; [reflexivity |]. unfold normal53. rewrite Z2Pos.id by lia.
    split; [lia |]. split; [| lia].
    destruct (Z.eq_dec (d - 53) (es - ez)) as [E | N]; [right | left; lia].
    specialize (Hlow E). split; lia.
  - destruct (Z.leb_spec (ez + (d - 53) + 1) 971); [right | now left].
    exists (Z.to_pos (2 ^ 52)), (ez + (d - 53) + 1).
    split; [reflexivity |]. unfold normal53.
    change (Zpos (Z.to_pos (2 ^ 52))) with (2 ^ 52).
    split; [lia |]. split; [left; lia | lia].
Qed.

Lemma leb_finite_pos (m1 : positive) (e1 : Z) (m2 : positive) (e2 : Z) :
  e1 < e2 \/ (e1 = e2 /\ Zpos m1 <= Zpos m2) ->
  F64.leb (S754_finite false m1 e1) (S754_finite false m2 e2) = true.
Proof.
  unfold F64.leb, SFleb, SFcompare. intros [H | [-> H]].
  - apply Z.compare_lt_iff in H. now rewrite H.
  - rewrite Z.compare_refl.
    change (Pos.compare_cont Eq m1 m2) with (Pos.compare m1 m2).
    destruct (Pos.compare_spec m1 m2) as [| | Hgt]; try reflexivity.
    apply Pos2Z.pos_lt_pos in Hgt. lia.
Qed.

Lemma pack_leb_one (m2 e2 : Z) :
  2 ^ 52 <= m2 <= 2 ^ 53 -> e2 + 1 <= 971 ->
  e2 + 1 < -52 \/ (e2 < -52 /\ m2 < 2 ^ 53) \/
  (e2 + 1 = -52 /\ 2 ^ 53 <= m2) \/ (e2 = -52 /\ m2 <= 2 ^ 52) ->
  F64.leb F64.zero (pack false m2 e2) = true /\
  F64.leb (pack false m2 e2) F64.one = true.
Proof.
  intros Hm He H. unfold pack.
  destruct (Z.ltb_spec m2 (2 ^ 53)) as [Hlt | Hge].
  - destruct (Z.leb_spec e2 971); [| lia].
    split; [reflexivity |].
    apply leb_finite_pos. rewrite Z2Pos.id by lia.
    change (Zpos 4503599627370496) with (2 ^ 52). lia.
  - destruct (Z.leb_spec (e2 + 1) 971); [| lia].
    split; [reflexivity |].
    apply leb_finite_pos.
    change (Zpos (Z.to_pos (2 ^ 52))) with (2 ^ 52).
    change (Zpos 4503599627370496) with (2 ^ 52). lia.
Qed.

(** A positive normal number divided by a normal number no smaller than
    itself is in [[0, 1]]. *)
Lemma div_at_most_one (ms : positive) (es : Z) (m' : positive) (e' : Z) :
  normal53 ms -> normal53 m' ->
  es < e' \/ (es = e' /\ Zpos ms <= Zpos m') ->
  -1021 <= es - e' ->
  F64.leb F64.zero
    (F64.div (S754_finite false ms es) (S754_finite false m' e')) = true /\
  F64.leb (F64.div (S754_finite false ms es) (S754_finite false m' e'))
    F64.one = true.
Proof.
  intros Hms Hm' Hrel Hrange.
  unfold F64.div, SFdiv, F64.prec, F64.emax. cbn [xorb].
  rewrite div_core_normal by (assumption || lia).
  unfold normal53 in Hms, Hm'.
  set (A := Zpos ms) in *. set (B := Zpos m') in *.
  pose proof (Z.div_mod (A * 2 ^ 53) B ltac:(lia)) as Hdm.
  pose proof (Z.mod_pos_bound (A * 2 ^ 53) B ltac:(lia)) as Hr.
  set (q := A * 2 ^ 53 / B) in *. set (r := (A * 2 ^ 53) mod B) in *.
  assert (Hq : 2 ^ 52 <= q < 2 ^ 54).
  { split.
    - apply Z.div_le_lower_bound; lia.
    - apply Z.div_lt_upper_bound; lia. }
  destruct q as [| pq | pq] eqn:Eq; try lia.
  rewrite <- Eq in *.
  assert (Hd : 53 <= Zpos (digits2_pos pq) <= 54).
  { split.
    - apply (digits_ge pq 52). lia.
    - apply (digits_le pq 54); lia. }
  rewrite Eq.
  destruct (round_aux_normal false pq (es - e' - 53) (new_location B r))
    as (m2 & Hm2 & Hexact & Hm1 & ->); [lia | lia |].
  rewrite <- Eq in *.
  set (d := Zpos (digits2_pos pq)) in *.
  apply pack_leb_one; [lia | lia |].
  destruct (Z.eq_dec d 53) as [E53 | N53].
  - rewrite E53 in *. change (53 - 53) with 0 in *.
    change (2 ^ 0) with 1 in *. rewrite Z.div_1_r in *.
    destruct (Z.ltb_spec m2 (2 ^ 53)); [right; left; lia |].
    destruct Hrel as [Hlt | [He _]]; [left; lia |].
    right; right; left. lia.
  - assert (E54 : d = 54) by lia.
    rewrite E54 in *. change (54 - 53) with 1 in *.
    change (2 ^ 1) with 2 in *.
    pose proof (digits2_pos_bounds pq) as [Dlo _]. fold d in Dlo.
    rewrite E54 in Dlo. change (54 - 1) with 53 in Dlo. rewrite <- Eq in Dlo.
    pose proof (Z.div_mod q 2 ltac:(lia)) as Hq2m.
    pose proof (Z.mod_pos_bound q 2 ltac:(lia)) as Hq2r.
    destruct Hrel as [Hlt | [He Hle]].
    + destruct (Z.ltb_spec m2 (2 ^ 53)); [right; left; lia |].
      destruct (Z.eq_dec (es - e') (-1)); [right; right; left; lia | left; lia].
    + (* same exponent: the quotient is exactly [2^53] *)
      assert (HBq : B * 2 ^ 53 <= B * q)
        by (apply Z.mul_le_mono_nonneg_l; lia).
      assert (HAB : A = B) by lia.
      assert (Hq53 : q = 2 ^ 53).
      { subst q. rewrite HAB. rewrite Z.mul_comm. apply Z.div_mul. lia. }
      assert (Hr0 : r = 0) by (rewrite Hq53, HAB in Hdm; lia).
      rewrite Hr0, new_location_0 in Hexact.
      assert (Hev : q mod 2 = 0) by (rewrite Hq53; reflexivity).
      specialize (Hexact eq_refl Hev).
      right; right; right. rewrite Hexact, Hq53.
      split; [lia |]. reflexivity.
Qed.

Lemma moderate_inv (d : float) :
  moderate d ->
  exists m e, d = S754_finite false m e /\ normal53 m /\ -1052 <= e <= 948.
Proof.
  intros (Hv & Hlo & Hhi).
  destruct d as [s | s | | s m e]; try discriminate.
  - destruct s; discriminate.
  - destruct s; [discriminate |].
    exists m, e. split; [reflexivity |].
    assert (He : -1052 <= e <= 948).
    { unfold F64.leb, SFleb, SFcompare in Hlo, Hhi.
      split.
      - destruct (Z.compare_spec (-1052) e); try lia; discriminate.
      - destruct (Z.compare_spec e 948); try lia; discriminate. }
    split; [| assumption].
    apply (valid_normal false m e Hv). lia.
Qed.

(** The size parameter [1.0 / dispersion] of a moderate dispersion is a
    positive normal number. *)
Lemma reciprocal_normal (d : float) :
  moderate d ->
  exists ms es,
    F64.div F64.one d = S754_finite false ms es /\
    normal53 ms /\ -1053 <= es <= 949.
Proof.
  intro H. apply moderate_inv in H as (md & ed & -> & Hmd & Hed).
  unfold F64.div, F64.one, SFdiv, F64.prec, F64.emax. cbn [xorb].
  assert (H1 : normal53 4503599627370496)
    by (unfold normal53; change (Zpos 4503599627370496) with (2 ^ 52); lia).
  rewrite div_core_normal by (assumption || lia).
  unfold normal53 in Hmd.
  change (Zpos 4503599627370496) with (2 ^ 52).
  set (B := Zpos md) in *.
  set (q := 2 ^ 52 * 2 ^ 53 / B).
  assert (Hq : 2 ^ 52 <= q < 2 ^ 54).
  { subst q. split.
    - apply Z.div_le_lower_bound; lia.
    - apply Z.div_lt_upper_bound; lia. }
  destruct q as [| pq | pq] eqn:Eq; try lia.
  assert (Hd : 53 <= Zpos (digits2_pos pq) <= 54).
  { split.
    - apply (digits_ge pq 52). lia.
    - apply (digits_le pq 54); lia. }
  destruct (round_aux_normal false pq (-52 - ed - 53)
              (new_location B ((2 ^ 52 * 2 ^ 53) mod B)))
    as (m2 & Hm2 & _ & Hm1 & ->); [lia | lia |].
  set (dq := Zpos (digits2_pos pq)) in *.
  unfold pack.
  destruct (Z.ltb_spec m2 (2 ^ 53)).
  - destruct (Z.leb_spec (-52 - ed - 53 + (dq - 53)) 971); [| lia].
    exists (Z.to_pos m2), (-52 - ed - 53 + (dq - 53)).
    split; [reflexivity |]. unfold normal53. rewrite Z2Pos.id by lia. lia.
  - destruct (Z.leb_spec (-52 - ed - 53 + (dq - 53) + 1) 971); [| lia].
    exists (Z.to_pos (2 ^ 52)), (-52 - ed - 53 + (dq - 53) + 1).
    split; [reflexivity |]. unfold normal53.
    change (Zpos (Z.to_pos (2 ^ 52))) with (2 ^ 52). lia.
Qed.

(** For a moderate dispersion the sampler accepts the parameters computed
    from any baseline mean. *)
Lemma nb_prob_accepted (d mu : float) :
  moderate d -> baseline mu ->
  Np.negative_binomial_accepts (F64.div F64.one d)
    (nb_prob (F64.div F64.one d) mu) = true.
Proof.
  intros Hd Hmu.
  destruct (reciprocal_normal d Hd) as (ms & es & -> & Hms & Hes).
  unfold Np.negative_binomial_accepts, nb_prob.
  change (F64.leb (S754_finite false ms es) F64.zero) with false.
  cbn [negb andb].
  destruct (add_baseline ms es mu Hms ltac:(lia) Hmu)
    as [-> | (m' & e' & -> & Hm' & Hrel & Hup)].
  - reflexivity.
  - destruct (div_at_most_one ms es m' e' Hms Hm' Hrel ltac:(lia))
      as [-> ->].
    reflexivity.
Qed.

(** * Rounded products of a gene count and a proportion *)

Lemma renormalise_small (s : bool) (m2 e1 : Z) :
  0 <= m2 <= 2 ^ 53 -> -1074 <= e1 ->
  (let '(mrs, e2) := shr_fexp 53 1024 m2 e1 loc_Exact in
   match shr_m mrs with
   | Z0 => S754_zero s
   | Zpos m => if e2 <=? 1024 - 53 then S754_finite s m e2 else S754_infinity s
   | Zneg _ => S754_nan
   end) = packg s m2 e1.
Proof.
  intros Hm He. unfold packg.
  destruct (Z.eqb_spec m2 0) as [-> | Hnz].
  - unfold shr_fexp. cbn [Zdigits2]. unfold fexp, emin.
    destruct (Z.max (0 + e1 - 53) (3 - 1024 - 53) - e1) eqn:E; try lia;
      reflexivity.
  - destruct (Z.le_gt_cases (2 ^ 52) m2) as [Hbig | Hsmall].
    + apply renormalise; lia.
    + unfold pack, shr_fexp.
      destruct m2 as [| p | p]; try lia.
      cbn [Zdigits2].
      pose proof (digits_le p 52 ltac:(lia) Hsmall) as Hd.
      assert (0 < Zpos (digits2_pos p)) by lia.
      unfold fexp, emin.
      destruct (Z.max (Zpos (digits2_pos p) + e1 - 53) (3 - 1024 - 53) - e1)
        eqn:E; try lia.
      * cbn [shr shr_record_of_loc shr_m].
        destruct (Z.ltb_spec (Zpos p) (2 ^ 53)); [| lia].
        rewrite Pos2Z.id. reflexivity.
      * cbn [shr shr_record_of_loc shr_m].
        destruct (Z.ltb_spec (Zpos p) (2 ^ 53)); [| lia].
        rewrite Pos2Z.id. reflexivity.
Qed.

Lemma round_aux_general (s : bool) (m : positive) (e : Z) (l : location) :
  let d := Zpos (digits2_pos m) in
  let n := Z.max (d - 53) (-1074 - e) in
  0 <= n ->
  exists m2,
    (m2 = Zpos m / 2 ^ n \/ m2 = Zpos m / 2 ^ n + 1) /\
    0 <= Zpos m / 2 ^ n < 2 ^ 53 /\
    binary_round_aux 53 1024 s (Zpos m) e l = packg s m2 (e + n).
Proof.
  intros d n Hn.
  pose proof (digits2_pos_bounds m) as [Dlo Dhi]. fold d in Dlo, Dhi.
  assert (Hpow : 0 < 2 ^ n) by (apply Z.pow_pos_nonneg; lia).
  assert (Hm1 : 0 <= Zpos m / 2 ^ n < 2 ^ 53).
  { split; [apply Z.div_pos; lia |].
    apply Z.div_lt_upper_bound; [lia |].
    destruct (Z.le_gt_cases d 53) as [Hle | Hgt].
    - assert (2 ^ d <= 2 ^ 53) by (apply Z.pow_le_mono_r; lia). nia.
    - assert (E2 : 2 ^ d = 2 ^ 53 * 2 ^ (d - 53))
        by (rewrite <- Z.pow_add_r by lia; f_equal; lia).
      assert (2 ^ (d - 53) <= 2 ^ n) by (apply Z.pow_le_mono_r; lia).
      nia. }
  unfold binary_round_aux.
  unfold shr_fexp at 1. cbn [Zdigits2]. fold d.
  unfold fexp, emin.
  replace (Z.max (d + e - 53) (3 - 1024 - 53) - e) with n by lia.
  destruct n as [| p | p] eqn:En; try lia.
  - cbn [shr]. rewrite shr_m_of_loc, loc_of_shr_record_of_loc.
    change (2 ^ 0) with 1 in *. rewrite Z.div_1_r in *.
    exists (round_nearest_even (Zpos m) l).
    split; [apply round_nearest_even_cases |].
    split; [assumption |].
    rewrite Z.add_0_r.
    apply renormalise_small; [| lia].
    destruct (round_nearest_even_cases (Zpos m) l) as [-> | ->]; lia.
  - cbn [shr]. rewrite iter_pos_nat.
    set (mrs := Nat.iter (Pos.to_nat p) shr_1 (shr_record_of_loc (Zpos m) l)).
    assert (Hmrs : shr_m mrs = Zpos m / 2 ^ Zpos p).
    { subst mrs. rewrite iter_shr_m.
      - rewrite shr_m_of_loc, positive_nat_Z. reflexivity.
      - rewrite shr_m_of_loc. lia. }
    exists (round_nearest_even (shr_m mrs) (loc_of_shr_record mrs)).
    split; [rewrite <- Hmrs; apply round_nearest_even_cases |].
    split; [assumption |].
    apply renormalise_small; [| lia].
    destruct (round_nearest_even_cases (shr_m mrs) (loc_of_shr_record mrs))
      as [-> | ->]; lia.
Qed.

Lemma leb_finite_pos_inv (m1 : positive) (e1 : Z) (m2 : positive) (e2 : Z) :
  F64.leb (S754_finite false m1 e1) (S754_finite false m2 e2) = true ->
  e1 < e2 \/ (e1 = e2 /\ Zpos m1 <= Zpos m2).
Proof.
  unfold F64.leb, SFleb, SFcompare.
  destruct (Z.compare_spec e1 e2) as [E | L | G]; try discriminate.
  - change (Pos.compare_cont Eq m1 m2) with (Pos.compare m1 m2).
    destruct (Pos.compare_spec m1 m2) as [E' | L | G]; try discriminate;
      intros _; right; split; try assumption.
    + subst. lia.
    + apply Pos2Z.pos_lt_pos in L. lia.
  - intros _. now left.
Qed.

Lemma trunc_packg (m2 e1 : Z) :
  0 <= m2 <= 2 ^ 53 -> e1 <= 0 ->
  F64.trunc (packg false m2 e1) = Some (m2 / 2 ^ (- e1)).
Proof.
  intros Hm He. unfold packg.
  destruct (Z.eqb_spec m2 0) as [-> | Hnz]; [reflexivity |].
  unfold pack.
  destruct (Z.ltb_spec m2 (2 ^ 53)).
  - destruct (Z.leb_spec e1 971); [| lia].
    cbn [F64.trunc cond_Zopp]. rewrite Z2Pos.id by lia.
    now rewrite Z.shiftl_div_pow2 by lia.
  - destruct (Z.leb_spec (e1 + 1) 971); [| lia].
    cbn [F64.trunc cond_Zopp]. change (Zpos (Z.to_pos (2 ^ 52))) with (2 ^ 52).
    assert (Hm2 : m2 = 2 ^ 53) by lia. rewrite Hm2. f_equal.
    destruct (Z.eq_dec e1 0) as [-> | Hne]; [reflexivity |].
    rewrite Z.shiftl_div_pow2 by lia.
    replace (- e1) with (1 + - (e1 + 1)) by lia.
    rewrite Z.pow_add_r by lia.
    change (2 ^ 53) with (2 ^ 1 * 2 ^ 52).
    rewrite Z.div_mul_cancel_l; [reflexivity | | discriminate].
    apply Z.pow_nonzero; lia.
Qed.

Lemma proportion_inv (p : float) :
  proportion p ->
  (exists s, p = S754_zero s) \/
  exists m e, p = S754_finite false m e /\ e <= -52 /\
              0 < Zpos m <= 2 ^ (- e) /\ Zpos m < 2 ^ 53.
Proof.
  intros (Hv & Hlo & Hhi).
  destruct p as [s | s | | s m e]; try discriminate.
  - left. now exists s.
  - destruct s; discriminate.
  - destruct s; [discriminate |]. right.
    exists m, e. split; [reflexivity |].
    apply valid_finite_inv in Hv as [Hc _].
    pose proof (digits2_pos_bounds m) as [_ Dhi].
    assert (Hdg : Zpos (digits2_pos m) <= 53) by lia.
    assert (H53 : Zpos m < 2 ^ 53).
    { assert (2 ^ Zpos (digits2_pos m) <= 2 ^ 53)
        by (apply Z.pow_le_mono_r; lia). lia. }
    apply (leb_finite_pos_inv m e 4503599627370496 (-52)) in Hhi.
    change (Zpos 4503599627370496) with (2 ^ 52) in Hhi.
    destruct Hhi as [L | [-> Hle]].
    + split; [lia |]. split; [| assumption]. split; [lia |].
      assert (2 ^ 53 <= 2 ^ (- e)) by (apply Z.pow_le_mono_r; lia). lia.
    + split; [lia |]. split; [| assumption]. split; [lia |].
      change (2 ^ (- -52)) with (2 ^ 52). lia.
Qed.

(** The integer part of the rounded product [n * p] is the floor of the
    exact product, or one more, and never more than [n]. *)
Lemma product_bracket (n : Z) (p : float) :
  0 < n < 2 ^ 53 -> proportion p ->
  exists F k,
    F64.exact_floor_mul n p = Some F /\
    F64.trunc (F64.mul (F64.of_Z n) p) = Some k /\
    (k = F \/ k = F + 1) /\ 0 <= k <= n.
Proof.
  intros Hn Hp.
  apply proportion_inv in Hp as [[s ->] | (mp & ep & -> & Hep & Hmp & Hmp53)].
  - destruct (of_Z_exact n Hn) as (mn & en & -> & _).
    exists 0, 0. repeat split; auto; lia.
  - assert (Ppos : 0 < 2 ^ (- ep)) by (apply Z.pow_pos_nonneg; lia).
    destruct (Z.eq_dec (Zpos mp) (2 ^ (- ep))) as [Eone | None].
    + (* the proportion is 1.0 *)
      assert (Eep : ep = -52).
      { destruct (Z.eq_dec ep (-52)); [assumption |].
        assert (2 ^ 53 <= 2 ^ (- ep)) by (apply Z.pow_le_mono_r; lia). lia. }
      subst ep. change (2 ^ (- -52)) with (Zpos 4503599627370496) in Eone.
      injection Eone as ->.
      change (S754_finite false 4503599627370496 (-52)) with F64.one.
      exists n, n. rewrite trunc_mul_of_Z_one by assumption.
      split; [| repeat split; auto; lia].
      cbn [F64.exact_floor_mul F64.one cond_Zopp].
      rewrite Z.shiftl_div_pow2 by lia.
      change (2 ^ (- -52)) with (Zpos 4503599627370496).
      now rewrite Z.div_mul.
    + destruct (of_Z_exact n Hn) as (mn & en & -> & Hmn & Hen & Hval).
      unfold F64.mul, SFmul, F64.prec, F64.emax. cbn [xorb].
      unfold normal53 in Hmn.
      assert (Pen : 0 < 2 ^ (- en)) by (apply Z.pow_pos_nonneg; lia).
      assert (HP : Zpos (mn * mp) = Zpos mn * Zpos mp) by apply Pos2Z.inj_mul.
      assert (HPlo : 2 ^ 52 <= Zpos (mn * mp)) by (rewrite HP; nia).
      assert (HPhi : Zpos (mn * mp) < 2 ^ (53 - ep)).
      { rewrite HP. replace (53 - ep) with (53 + - ep) by lia.
        rewrite Z.pow_add_r by lia.
        apply Z.le_lt_trans with (Zpos mn * 2 ^ (- ep)).
        - apply Z.mul_le_mono_nonneg_l; lia.
        - apply Z.mul_lt_mono_pos_r; lia. }
      pose proof (digits_ge (mn * mp) 52 HPlo) as Hd1.
      pose proof (digits_le (mn * mp) (53 - ep) ltac:(lia) HPhi) as Hd2.
      destruct (round_aux_general false (mn * mp) (en + ep) loc_Exact)
        as (m2 & Hm2 & Hm1 & ->); [lia |].
      set (d := Zpos (digits2_pos (mn * mp))) in *.
      set (sh := Z.max (d - 53) (-1074 - (en + ep))) in *.
      assert (Hsh : 0 <= sh) by (subst sh; lia).
      assert (He1 : en + ep + sh <= 0) by (subst sh; lia).
      rewrite trunc_packg by lia.
      cbn [F64.exact_floor_mul cond_Zopp].
      rewrite (Z.shiftl_div_pow2 _ ep) by lia.
      exists (n * Zpos mp / 2 ^ (- ep)), (m2 / 2 ^ (- (en + ep + sh))).
      split; [reflexivity |]. split; [reflexivity |].
      set (K := 2 ^ (- (en + ep + sh))).
      assert (HK : 0 < K) by (apply Z.pow_pos_nonneg; lia).
      assert (Hsh2 : 0 < 2 ^ sh) by (apply Z.pow_pos_nonneg; lia).
      assert (HF : Zpos (mn * mp) / 2 ^ sh / K = n * Zpos mp / 2 ^ (- ep)).
      { rewrite Z.div_div by lia. subst K.
        rewrite <- Z.pow_add_r by lia.
        replace (sh + - (en + ep + sh)) with (- ep + - en) by lia.
        rewrite Z.pow_add_r by lia.
        rewrite HP, Hval.
        replace (n * 2 ^ (- en) * Zpos mp) with (n * Zpos mp * 2 ^ (- en))
          by lia.
        apply Z.div_mul_cancel_r; lia. }
      assert (HFn : 0 <= n * Zpos mp / 2 ^ (- ep) < n).
      { split; [apply Z.div_pos; nia |].
        apply Z.div_lt_upper_bound; [lia |].
        rewrite (Z.mul_comm (2 ^ (- ep))).
        apply Z.mul_lt_mono_pos_l; lia. }
      rewrite <- HF in *.
      set (m1 := Zpos (mn * mp) / 2 ^ sh) in *.
      assert (Hup : (m1 + 1) / K <= (m1 + 1 * K) / K)
        by (apply Z.div_le_mono; lia).
      rewrite Z.div_add in Hup by lia.
      assert (Hdn : m1 / K <= (m1 + 1) / K) by (apply Z.div_le_mono; lia).
      destruct Hm2 as [-> | ->]; lia.
Qed.

(** * Facts about lists and index arrays *)

Lemma mem_In (i : nat) (idx : list nat) : Np.mem i idx = true <-> In i idx.
Proof.
  unfold Np.mem. rewrite existsb_exists. split.
  - intros (x & Hx & E). apply Nat.eqb_eq in E. now subst.
  - intro H. exists i. split; [assumption | apply Nat.eqb_refl].
Qed.

Lemma mem_not_In (i : nat) (idx : list nat) :
  Np.mem i idx = false <-> ~ In i idx.
Proof.
  rewrite <- mem_In. destruct (Np.mem i idx); split; congruence.
Qed.

Lemma nth_indexed_map {A B} (f : nat -> A -> B) (l : list A) (s g : nat)
    (da : A) (db : B) :
  (g < length l)%nat ->
  nth g (map (fun '(i, x) => f i x) (combine (seq s (length l)) l)) db =
  f (s + g)%nat (nth g l da).
Proof.
  revert s g. induction l as [| a l IH]; intros s g Hg; simpl in *; [lia |].
  destruct g as [| g].
  - now rewrite Nat.add_0_r.
  - rewrite IH by lia. f_equal. lia.
Qed.

Lemma length_indexed_map {A B} (f : nat * A -> B) (l : list A) (s : nat) :
  length (map f (combine (seq s (length l)) l)) = length l.
Proof.
  rewrite length_map, length_combine, length_seq. lia.
Qed.

Lemma update_at_ok (op : float -> float -> float) (arr : list float)
    (idx : list nat) (c : float) :
  Forall (fun i => (i < length arr)%nat) idx ->
  exists out,
    Np.update_at op arr idx c = Ok out /\
    length out = length arr /\
    forall g, (g < length arr)%nat ->
      Np.get out g =
      if Np.mem g idx then op (Np.get arr g) c else Np.get arr g.
Proof.
  intro Hidx. unfold Np.update_at.
  assert (Hall : forallb (fun i => (i <? length arr)%nat) idx = true).
  { apply forallb_forall. intros i Hi.
    rewrite Forall_forall in Hidx. apply Nat.ltb_lt. auto. }
  rewrite Hall. eexists. split; [reflexivity |].
  split; [apply length_indexed_map |].
  intros g Hg. unfold Np.get.
  rewrite (nth_indexed_map
             (fun i x => if Np.mem i idx then op x c else x) arr 0 g S754_nan)
    by assumption.
  reflexivity.
Qed.

Lemma update_at_inv (op : float -> float -> float) (arr : list float)
    (idx : list nat) (c : float) (out : list float) :
  Np.update_at op arr idx c = Ok out ->
  length out = length arr /\
  forall g, (g < length arr)%nat ->
    Np.get out g = if Np.mem g idx then op (Np.get arr g) c else Np.get arr g.
Proof.
  unfold Np.update_at.
  destruct (forallb (fun i => (i <? length arr)%nat) idx) eqn:Hall;
    [| discriminate].
  intro H. injection H as <-.
  split; [apply length_indexed_map |].
  intros g Hg. unfold Np.get.
  rewrite (nth_indexed_map
             (fun i x => if Np.mem i idx then op x c else x) arr 0 g S754_nan)
    by assumption.
  reflexivity.
Qed.

Lemma update_at_nil (op : float -> float -> float) (arr : list float)
    (c : float) :
  Np.update_at op arr [] c = Ok arr.
Proof.
  unfold Np.update_at. cbn [forallb]. f_equal.
  assert (G : forall s, map (fun '(i, x) => if Np.mem i [] then op x c else x)
                (combine (seq s (length arr)) arr) = arr).
  { induction arr as [| a arr IH]; intro s; simpl; [reflexivity |].
    now rewrite IH. }
  apply G.
Qed.


Lemma slice_to_length {A} (l : list A) (k : Z) :
  0 <= k <= Py.len l -> Py.len (Py.slice_to l k) = k.
Proof.
  unfold Py.len, Py.slice_to. intro H.
  destruct (Z.leb_spec 0 k); [| lia].
  rewrite length_firstn. lia.
Qed.

Lemma slice_from_length {A} (l : list A) (k : Z) :
  0 <= k <= Py.len l -> Py.len (Py.slice_from l k) = Py.len l - k.
Proof.
  unfold Py.len, Py.slice_from. intro H.
  destruct (Z.leb_spec 0 k); [| lia].
  rewrite length_skipn. lia.
Qed.

Lemma slices_app {A} (l : list A) (k : Z) :
  Py.slice_to l k ++ Py.slice_from l k = l.
Proof.
  unfold Py.slice_to, Py.slice_from.
  destruct (0 <=? k); apply firstn_skipn.
Qed.


(** * Facts about the generator's steps *)

Section Steps.

Context (R : numpy_random).

Lemma np_random_choice_ok (a size : Z) (w w' : world R) (out : list nat) :
  np_random_choice R a size w = (Ok out, w') ->
  0 <= size <= a /\
  out = fst (rng_choice R (Z.to_nat a) (Z.to_nat size) (rng w)) /\
  w' = log R (DrawChoice a size)
         (set_rng R (snd (rng_choice R (Z.to_nat a) (Z.to_nat size) (rng w)))
            w).
Proof.
  unfold np_random_choice.
  destruct ((a <=? 0) && negb (size =? 0)); [discriminate |].
  destruct (Z.ltb_spec a size); [discriminate |].
  destruct (Z.ltb_spec size 0); [discriminate |].
  destruct (rng_choice R (Z.to_nat a) (Z.to_nat size) (rng w)) as [o s].
  intros [= <- <-]. cbn [fst snd]. repeat split; lia.
Qed.

Lemma np_random_choice_raise (a size : Z) (w w' : world R) (e : exn) :
  np_random_choice R a size w = (Raise e, w') -> w' = w.
Proof.
  unfold np_random_choice.
  destruct ((a <=? 0) && negb (size =? 0)); [now intros [= _ <-] |].
  destruct (a <? size); [now intros [= _ <-] |].
  destruct (size <? 0); [now intros [= _ <-] |].
  destruct (rng_choice R (Z.to_nat a) (Z.to_nat size) (rng w)).
  discriminate.
Qed.

Lemma np_random_choice_zero (a : Z) (w : world R) :
  0 <= a ->
  np_random_choice R a 0 w =
  (Ok (fst (rng_choice R (Z.to_nat a) 0 (rng w))),
   log R (DrawChoice a 0)
     (set_rng R (snd (rng_choice R (Z.to_nat a) 0 (rng w))) w)).
Proof.
  intro Ha. unfold np_random_choice.
  rewrite Z.eqb_refl, andb_false_r. cbn [negb].
  destruct (Z.ltb_spec a 0); [lia |].
  change (0 <? 0) with false. cbv iota. change (Z.to_nat 0) with 0%nat.
  destruct (rng_choice R (Z.to_nat a) 0 (rng w)). reflexivity.
Qed.

Lemma np_random_uniform_ok (lo hi : float) (size : Z) (w w' : world R)
    (out : list float) :
  np_random_uniform R lo hi size w = (Ok out, w') ->
  0 <= size /\
  out = fst (rng_uniform R lo hi (Z.to_nat size) (rng w)) /\
  w' = log R (DrawUniform lo hi size)
         (set_rng R (snd (rng_uniform R lo hi (Z.to_nat size) (rng w))) w).
Proof.
  unfold np_random_uniform.
  destruct (Z.ltb_spec size 0); [discriminate |].
  destruct (rng_uniform R lo hi (Z.to_nat size) (rng w)) as [o s].
  intros [= <- <-]. cbn [fst snd]. repeat split; lia.
Qed.

Lemma np_random_uniform_raise (lo hi : float) (size : Z) (w w' : world R)
    (e : exn) :
  np_random_uniform R lo hi size w = (Raise e, w') -> w' = w.
Proof.
  unfold np_random_uniform.
  destruct (size <? 0); [now intros [= _ <-] |].
  destruct (rng_uniform R lo hi (Z.to_nat size) (rng w)). discriminate.
Qed.

Lemma np_random_uniform_nonneg (lo hi : float) (size : Z) (w : world R) :
  0 <= size ->
  np_random_uniform R lo hi size w =
  (Ok (fst (rng_uniform R lo hi (Z.to_nat size) (rng w))),
   log R (DrawUniform lo hi size)
     (set_rng R (snd (rng_uniform R lo hi (Z.to_nat size) (rng w))) w)).
Proof.
  intro H. unfold np_random_uniform.
  destruct (Z.ltb_spec size 0); [lia |].
  destruct (rng_uniform R lo hi (Z.to_nat size) (rng w)). reflexivity.
Qed.

Lemma negative_binomial_ok (n p : float) (size : Z) (w w' : world R)
    (out : list Z) :
  np_random_negative_binomial R n p size w = (Ok out, w') ->
  Np.negative_binomial_accepts n p = true /\ 0 <= size /\
  out = fst (rng_negative_binomial R n p (Z.to_nat size) (rng w)) /\
  w' = log R (DrawNegBin n p size)
         (set_rng R
            (snd (rng_negative_binomial R n p (Z.to_nat size) (rng w))) w).
Proof.
  unfold np_random_negative_binomial.
  destruct (Np.negative_binomial_accepts n p); [| discriminate].
  cbn [negb].
  destruct (Z.ltb_spec size 0); [discriminate |].
  destruct (rng_negative_binomial R n p (Z.to_nat size) (rng w)) as [o s].
  intros [= <- <-]. cbn [fst snd]. repeat split; lia.
Qed.

Lemma negative_binomial_raise (n p : float) (size : Z) (w w' : world R)
    (e : exn) :
  np_random_negative_binomial R n p size w = (Raise e, w') ->
  w' = w /\ (Np.negative_binomial_accepts n p = false \/ size < 0).
Proof.
  unfold np_random_negative_binomial.
  destruct (Np.negative_binomial_accepts n p); cbn [negb];
    [| intros [= _ <-]; auto].
  destruct (Z.ltb_spec size 0); [intros [= _ <-]; auto |].
  destruct (rng_negative_binomial R n p (Z.to_nat size) (rng w)).
  discriminate.
Qed.

Lemma negative_binomial_accepted (n p : float) (size : Z) (w : world R) :
  Np.negative_binomial_accepts n p = true -> 0 <= size ->
  np_random_negative_binomial R n p size w =
  (Ok (fst (rng_negative_binomial R n p (Z.to_nat size) (rng w))),
   log R (DrawNegBin n p size)
     (set_rng R
        (snd (rng_negative_binomial R n p (Z.to_nat size) (rng w))) w)).
Proof.
  intros Ha Hs. unfold np_random_negative_binomial. rewrite Ha.
  cbn [negb]. destruct (Z.ltb_spec size 0); [lia |].
  destruct (rng_negative_binomial R n p (Z.to_nat size) (rng w)).
  reflexivity.
Qed.

(** What [prepare] returns, read off its steps. *)
Lemma prepare_ok_inv (n_genes n_ctrl n_trt : Z) (de_prop fold_change : float)
    (gene_list : option (list string)) (w w' : world R) (st : locals) :
  prepare R n_genes n_ctrl n_trt de_prop fold_change gene_list w
    = (Ok st, w') ->
  exists product mu1 s1 s2,
    gene_names n_genes gene_list = Ok (genes st) /\
    ctrl_samples st = numbered "ctrl_" n_ctrl /\
    trt_samples st = numbered "trt_" n_trt /\
    Py.mul_int_float n_genes de_prop = Ok product /\
    Py.int product = Ok (n_de st) /\
    0 <= n_de st <= n_genes /\
    rng_choice R (Z.to_nat n_genes) (Z.to_nat (n_de st)) (rng w)
      = (de_indices st, s1) /\
    rng_uniform R F64.c50 F64.c2000 (Z.to_nat n_genes) s1
      = (mu_ctrl st, s2) /\
    half st = n_de st / 2 /\
    Np.imul_at (mu_ctrl st) (up_indices st) fold_change = Ok mu1 /\
    Np.idiv_at mu1 (down_indices st) fold_change = Ok (mu_trt st) /\
    w' = log R (DrawUniform F64.c50 F64.c2000 n_genes)
           (set_rng R s2
              (log R (DrawChoice n_genes (n_de st)) (set_rng R s1 w))).
Proof.
  unfold prepare, bind, lift, ret. intro H.
  destruct (gene_names n_genes gene_list) as [gs | e] eqn:Eg;
    [| discriminate].
  destruct (Py.mul_int_float n_genes de_prop) as [product | e] eqn:Ep;
    [| discriminate].
  destruct (Py.int product) as [k | e] eqn:Ek; [| discriminate].
  destruct (np_random_choice R n_genes k w) as [[de | e] w1] eqn:Ec;
    [| discriminate].
  destruct (np_random_uniform R F64.c50 F64.c2000 n_genes w1)
    as [[mc | e] w2] eqn:Eu; [| discriminate].
  destruct (Np.imul_at mc (Py.slice_to de (k / 2)) fold_change)
    as [mu1 | e] eqn:Em; [| discriminate].
  destruct (Np.idiv_at mu1 (Py.slice_from de (k / 2)) fold_change)
    as [mt | e] eqn:Ed; [| discriminate].
  injection H as <- <-.
  apply np_random_choice_ok in Ec as (Hk & Hde & ->).
  apply np_random_uniform_ok in Eu as (Hn & Hmc & ->).
  cbn [rng set_rng log] in Hmc.
  exists product, mu1,
    (snd (rng_choice R (Z.to_nat n_genes) (Z.to_nat k) (rng w))),
    (snd (rng_uniform R F64.c50 F64.c2000 (Z.to_nat n_genes)
            (snd (rng_choice R (Z.to_nat n_genes) (Z.to_nat k) (rng w))))).
  unfold up_indices, down_indices. cbn [genes ctrl_samples trt_samples n_de
    de_indices mu_ctrl half mu_trt].
  repeat split; try assumption; try reflexivity; try lia.
  - rewrite Hde. apply surjective_pairing.
  - rewrite Hmc. apply surjective_pairing.
Qed.

Lemma log_draws (d : draw) (w : world R) :
  draws (log R d w) = draws w ++ [d].
Proof. reflexivity. Qed.

Context (HR : numpy_random_ok R).

(** The index arrays and the means of a run, under the generator's
    contract. *)
Lemma prepare_means (n_genes n_ctrl n_trt : Z) (de_prop fold_change : float)
    (gene_list : option (list string)) (w w' : world R) (st : locals) :
  prepare R n_genes n_ctrl n_trt de_prop fold_change gene_list w
    = (Ok st, w') ->
  0 <= n_de st <= n_genes /\
  length (de_indices st) = Z.to_nat (n_de st) /\
  NoDup (de_indices st) /\
  Forall (fun i => (i < Z.to_nat n_genes)%nat) (de_indices st) /\
  length (mu_ctrl st) = Z.to_nat n_genes /\
  Forall baseline (mu_ctrl st) /\
  length (mu_trt st) = Z.to_nat n_genes /\
  forall g, (g < Z.to_nat n_genes)%nat ->
    Np.get (mu_trt st) g =
    if Np.mem g (up_indices st)
    then F64.mul (Np.get (mu_ctrl st) g) fold_change
    else if Np.mem g (down_indices st)
         then F64.div (Np.get (mu_ctrl st) g) fold_change
         else Np.get (mu_ctrl st) g.
Proof.
  intro H.
  apply prepare_ok_inv in H
    as (product & mu1 & s1 & s2 & _ & _ & _ & _ & _ & Hk & Hc & Hu & _ &
        Hm & Hd & _).
  assert (Hle : (Z.to_nat (n_de st) <= Z.to_nat n_genes)%nat) by lia.
  pose proof (choice_length R HR _ _ (rng w) Hle) as Hlen.
  pose proof (choice_NoDup R HR _ _ (rng w) Hle) as Hnd.
  pose proof (choice_range R HR _ _ (rng w) Hle) as Hrg.
  rewrite Hc in Hlen, Hnd, Hrg. cbn [fst] in Hlen, Hnd, Hrg.
  pose proof (uniform_length R HR F64.c50 F64.c2000 (Z.to_nat n_genes) s1)
    as Hul.
  pose proof (uniform_range R HR F64.c50 F64.c2000 (Z.to_nat n_genes) s1
                eq_refl eq_refl eq_refl) as Hur.
  rewrite Hu in Hul, Hur. cbn [fst] in Hul, Hur.
  apply update_at_inv in Hm as [Hl1 Hg1].
  apply update_at_inv in Hd as [Hl2 Hg2].
  repeat split; try assumption; try lia.
  intros g Hg.
  rewrite Hg2 by lia. rewrite Hg1 by lia.
  destruct (Np.mem g (up_indices st)) eqn:Eup; [| reflexivity].
  destruct (Np.mem g (down_indices st)) eqn:Edn; [| reflexivity].
  exfalso. apply mem_In in Eup, Edn.
  pose proof (slices_app (de_indices st) (half st)) as Happ.
  fold (up_indices st) (down_indices st) in Happ.
  rewrite <- Happ in Hnd.
  revert Hnd Eup Edn. generalize (up_indices st), (down_indices st).
  intros l1 l2 Hnd Hin1 Hin2.
  induction l1 as [| a l1 IH]; [contradiction |].
  cbn [app] in Hnd. apply NoDup_cons_iff in Hnd as [Hna Hnd].
  destruct Hin1 as [-> | Hin1].
  - apply Hna, in_or_app. now right.
  - now apply IH.
Qed.

Lemma np_random_choice_in_range (a size : Z) (w : world R) :
  0 < a -> 0 <= size <= a ->
  np_random_choice R a size w =
  (Ok (fst (rng_choice R (Z.to_nat a) (Z.to_nat size) (rng w))),
   log R (DrawChoice a size)
     (set_rng R (snd (rng_choice R (Z.to_nat a) (Z.to_nat size) (rng w))) w)).
Proof.
  intros Ha Hs. unfold np_random_choice.
  destruct (Z.leb_spec a 0); [lia |]. cbn [andb].
  destruct (Z.ltb_spec a size); [lia |].
  destruct (Z.ltb_spec size 0); [lia |].
  destruct (rng_choice R (Z.to_nat a) (Z.to_nat size) (rng w)). reflexivity.
Qed.

(** The first half of a run returns for every gene count below [2^53]
    and every proportion, once the gene names are settled. *)
Lemma prepare_returns (n_genes n_ctrl n_trt : Z) (de_prop fold_change : float)
    (gene_list : option (list string)) (w : world R) :
  0 < n_genes < 2 ^ 53 -> proportion de_prop ->
  is_ok (gene_names n_genes gene_list) = true ->
  exists st w1,
    prepare R n_genes n_ctrl n_trt de_prop fold_change gene_list w
      = (Ok st, w1).
Proof.
  intros Hn Hp Hg.
  destruct (product_bracket n_genes de_prop Hn Hp) as (F & k & _ & Ht & _ & Hk).
  destruct (of_Z_exact n_genes Hn) as (mn & en & Eof & _).
  unfold prepare, bind, lift, ret.
  destruct (gene_names n_genes gene_list) as [gs | e]; [| discriminate].
  unfold Py.mul_int_float, Py.int. rewrite Eof. rewrite Eof in Ht. rewrite Ht.
  rewrite np_random_choice_in_range by lia.
  rewrite np_random_uniform_nonneg by lia.
  cbn [rng log set_rng].
  set (c := rng_choice R (Z.to_nat n_genes) (Z.to_nat k) (rng w)).
  set (u := rng_uniform R F64.c50 F64.c2000 (Z.to_nat n_genes) (snd c)).
  assert (Hle : (Z.to_nat k <= Z.to_nat n_genes)%nat) by lia.
  pose proof (choice_range R HR _ _ (rng w) Hle) as Hrg. fold c in Hrg.
  pose proof (uniform_length R HR F64.c50 F64.c2000 (Z.to_nat n_genes) (snd c))
    as Hul. fold u in Hul.
  assert (Hsub : forall (l : list nat) (len : nat),
            len = Z.to_nat n_genes ->
            (forall i, In i l -> In i (fst c)) ->
            Forall (fun i => (i < len)%nat) l).
  { intros l len -> Hin. apply Forall_forall. intros i Hi.
    rewrite Forall_forall in Hrg. apply Hrg, Hin, Hi. }
  destruct (update_at_ok F64.mul (fst u) (Py.slice_to (fst c) (k / 2))
              fold_change) as (mu1 & Em & Hl1 & _).
  { apply Hsub; [assumption |]. intros i Hi.
    rewrite <- (slices_app (fst c) (k / 2)). apply in_or_app. now left. }
  unfold Np.imul_at. rewrite Em.
  destruct (update_at_ok F64.div mu1 (Py.slice_from (fst c) (k / 2))
              fold_change) as (mu2 & Ed & _).
  { apply Hsub; [lia |]. intros i Hi.
    rewrite <- (slices_app (fst c) (k / 2)). apply in_or_app. now right. }
  unfold Np.idiv_at. rewrite Ed.
  eexists. eexists. reflexivity.
Qed.

End Steps.

(** * Facts about the sampling loop and the whole run *)

Section Run.

Context (R : numpy_random).

(** The loop draws a prefix of its plan, and all of it when it returns. *)
Lemma sample_rows_draws (size : float) (mc mt : list float)
    (n_ctrl n_trt : Z) (gs : list nat) :
  forall (w w' : world R) (r : outcome (list (list Z))),
    sample_rows R size mc mt n_ctrl n_trt gs w = (r, w') ->
    exists evs rest,
      flat_map (gene_draws size mc mt n_ctrl n_trt) gs = evs ++ rest /\
      draws w' = draws w ++ evs /\
      files w' = files w /\ writable w' = writable w /\
      stdout w' = stdout w /\
      (is_ok r = true -> rest = []).
Proof.
  induction gs as [| i gs IH]; intros w w' r H.
  - cbn in H. injection H as <- <-. exists [], [].
    cbn. rewrite app_nil_r. repeat split; reflexivity.
  - cbn [sample_rows] in H. unfold bind at 1 in H.
    destruct (np_random_negative_binomial R size
                (nb_prob size (Np.get mc i)) n_ctrl w)
      as [[c | e] w1] eqn:E1.
    2:{ injection H as <- <-.
        apply negative_binomial_raise in E1 as [-> _].
        exists [], (flat_map (gene_draws size mc mt n_ctrl n_trt) (i :: gs)).
        rewrite app_nil_r. cbn [is_ok]. repeat split; auto; discriminate. }
    apply negative_binomial_ok in E1 as (_ & _ & _ & ->).
    unfold bind at 1 in H.
    match type of H with
    | context [np_random_negative_binomial R size ?p n_trt ?w0] =>
        destruct (np_random_negative_binomial R size p n_trt w0)
          as [[t | e] w2] eqn:E2
    end.
    2:{ injection H as <- <-.
        apply negative_binomial_raise in E2 as [-> _].
        exists [DrawNegBin size (nb_prob size (Np.get mc i)) n_ctrl],
          (DrawNegBin size (nb_prob size (Np.get mt i)) n_trt ::
           flat_map (gene_draws size mc mt n_ctrl n_trt) gs).
        cbn [is_ok]. repeat split; auto; discriminate. }
    apply negative_binomial_ok in E2 as (_ & _ & _ & ->).
    unfold bind at 1 in H.
    match type of H with
    | context [sample_rows R size mc mt n_ctrl n_trt gs ?w0] =>
        destruct (sample_rows R size mc mt n_ctrl n_trt gs w0)
          as [[rows | e] w3] eqn:E3;
        apply IH in E3
          as (evs & rest & Hplan & Hd & Hf & Hw & Hs & Hok);
        cbn [draws files writable stdout log set_rng] in Hd, Hf, Hw, Hs
    end.
    + unfold ret in H. injection H as <- <-.
      exists (gene_draws size mc mt n_ctrl n_trt i ++ evs), rest.
      cbn [flat_map]. rewrite Hplan, <- app_assoc.
      repeat split; try assumption.
      rewrite Hd. unfold gene_draws. now rewrite <- !app_assoc.
    + injection H as <- <-.
      exists (gene_draws size mc mt n_ctrl n_trt i ++ evs), rest.
      cbn [flat_map]. rewrite Hplan, <- app_assoc.
      repeat split; try assumption; try discriminate.
      rewrite Hd. unfold gene_draws. now rewrite <- !app_assoc.
Qed.


(** The loop returns when the sampler accepts every call. *)
Lemma sample_rows_returns (size : float) (mc mt : list float)
    (n_ctrl n_trt : Z) (gs : list nat) :
  0 <= n_ctrl -> 0 <= n_trt ->
  (forall i, In i gs ->
     Np.negative_binomial_accepts size (nb_prob size (Np.get mc i)) = true /\
     Np.negative_binomial_accepts size (nb_prob size (Np.get mt i)) = true) ->
  forall w : world R,
    is_ok (fst (sample_rows R size mc mt n_ctrl n_trt gs w)) = true.
Proof.
  intros Hc Ht. induction gs as [| i gs IH]; intros Hacc w.
  - reflexivity.
  - cbn [sample_rows]. unfold bind at 1.
    destruct (Hacc i (or_introl eq_refl)) as [A1 A2].
    rewrite negative_binomial_accepted by assumption.
    unfold bind at 1.
    rewrite negative_binomial_accepted by assumption.
    unfold bind at 1.
    match goal with
    | |- context [sample_rows R size mc mt n_ctrl n_trt gs ?w0] =>
        specialize (IH (fun j Hj => Hacc j (or_intror Hj)) w0);
        destruct (sample_rows R size mc mt n_ctrl n_trt gs w0)
          as [[rows | e] w3]
    end; [reflexivity | discriminate].
Qed.

Lemma simulate_counts_unfold (n_genes n_ctrl n_trt : Z)
    (de_prop fold_change dispersion : float) (seed : Z) (output : string)
    (gene_list : option (list string)) (w : world R) :
  simulate_counts R n_genes n_ctrl n_trt de_prop fold_change dispersion
    seed output gene_list w =
  if (0 <=? seed) && (seed <? 2 ^ 32) then
    match prepare R n_genes n_ctrl n_trt de_prop fold_change gene_list
            (seeded R seed w) with
    | (Ok st, w1) =>
        sample_and_write R st n_genes n_ctrl n_trt dispersion output w1
    | (Raise e, w1) => (Raise e, w1)
    end
  else (Raise (ValueError "Seed must be between 0 and 2**32 - 1"), w).
Proof.
  unfold simulate_counts, bind, np_random_seed, seeded.
  destruct ((0 <=? seed) && (seed <? 2 ^ 32)); reflexivity.
Qed.

(** [prepare] draws a prefix of its two calls, and both when it
    returns; it writes no file and prints nothing. *)
Lemma prepare_draws (n_genes n_ctrl n_trt : Z) (de_prop fold_change : float)
    (gene_list : option (list string)) (w w' : world R)
    (r : outcome locals) :
  prepare R n_genes n_ctrl n_trt de_prop fold_change gene_list w = (r, w') ->
  exists evs rest k,
    [DrawChoice n_genes k; DrawUniform F64.c50 F64.c2000 n_genes]
      = evs ++ rest /\
    draws w' = draws w ++ evs /\
    files w' = files w /\ writable w' = writable w /\
    stdout w' = stdout w /\
    (forall st, r = Ok st -> rest = [] /\ k = n_de st).
Proof.
  unfold prepare, bind, lift, ret. intro H.
  assert (Hnone : forall e, r = Raise e -> w' = w ->
    exists evs rest k,
      [DrawChoice n_genes k; DrawUniform F64.c50 F64.c2000 n_genes]
        = evs ++ rest /\
      draws w' = draws w ++ evs /\
      files w' = files w /\ writable w' = writable w /\
      stdout w' = stdout w /\
      (forall st, r = Ok st -> rest = [] /\ k = n_de st)).
  { intros e -> ->.
    exists [], [DrawChoice n_genes 0; DrawUniform F64.c50 F64.c2000 n_genes],
      0.
    rewrite app_nil_r. repeat split; try reflexivity; discriminate. }
  destruct (gene_names n_genes gene_list) as [gs | e] eqn:Eg;
    [| injection H as <- <-; eapply Hnone; reflexivity].
  destruct (Py.mul_int_float n_genes de_prop) as [product | e] eqn:Ep;
    [| injection H as <- <-; eapply Hnone; reflexivity].
  destruct (Py.int product) as [k | e] eqn:Ek;
    [| injection H as <- <-; eapply Hnone; reflexivity].
  destruct (np_random_choice R n_genes k w) as [[de | e] w1] eqn:Ec.
  2:{ injection H as <- <-. apply np_random_choice_raise in Ec.
      eapply Hnone; [reflexivity | assumption]. }
  clear Hnone.
  apply np_random_choice_ok in Ec as (_ & _ & ->).
  destruct (np_random_uniform R F64.c50 F64.c2000 n_genes _)
    as [[mc | e] w2] eqn:Eu.
  2:{ injection H as <- <-. apply np_random_uniform_raise in Eu as ->.
      exists [DrawChoice n_genes k],
        [DrawUniform F64.c50 F64.c2000 n_genes], k.
      repeat split; try reflexivity; discriminate. }
  apply np_random_uniform_ok in Eu as (_ & _ & ->).
  assert (Hall : forall r0, r = r0 ->
    (forall st, r0 = Ok st -> n_de st = k) ->
    w' = log R (DrawUniform F64.c50 F64.c2000 n_genes)
           (set_rng R
              (snd (rng_uniform R F64.c50 F64.c2000 (Z.to_nat n_genes)
                 (rng (log R (DrawChoice n_genes k)
                    (set_rng R
                       (snd (rng_choice R (Z.to_nat n_genes) (Z.to_nat k)
                               (rng w))) w)))))
              (log R (DrawChoice n_genes k)
                 (set_rng R
                    (snd (rng_choice R (Z.to_nat n_genes) (Z.to_nat k)
                            (rng w))) w))) ->
    exists evs rest k0,
      [DrawChoice n_genes k0; DrawUniform F64.c50 F64.c2000 n_genes]
        = evs ++ rest /\
      draws w' = draws w ++ evs /\
      files w' = files w /\ writable w' = writable w /\
      stdout w' = stdout w /\
      (forall st, r = Ok st -> rest = [] /\ k0 = n_de st)).
  { intros r0 -> Hk ->.
    exists [DrawChoice n_genes k; DrawUniform F64.c50 F64.c2000 n_genes],
      [], k.
    cbn [draws files writable stdout log set_rng].
    rewrite <- app_assoc.
    repeat split; try reflexivity. symmetry. now apply Hk. }
  destruct (Np.imul_at mc (Py.slice_to de (k / 2)) fold_change)
    as [mu1 | e] eqn:Em;
    [| injection H as <- <-; eapply Hall; [reflexivity | discriminate
                                           | reflexivity]].
  destruct (Np.idiv_at mu1 (Py.slice_from de (k / 2)) fold_change)
    as [mt | e] eqn:Ed;
    [| injection H as <- <-; eapply Hall; [reflexivity | discriminate
                                           | reflexivity]].
  injection H as <- <-.
  eapply Hall; [reflexivity | | reflexivity].
  intros st [= <-]. reflexivity.
Qed.

(** The second half of a run: the loop's draws, and no output unless it
    returns. *)
Lemma sample_and_write_draws (st : locals) (n_genes n_ctrl n_trt : Z)
    (dispersion : float) (output : string) (w w' : world R)
    (r : outcome unit) :
  sample_and_write R st n_genes n_ctrl n_trt dispersion output w = (r, w') ->
  exists evs rest,
    flat_map (gene_draws (F64.div F64.one dispersion) (mu_ctrl st)
                (mu_trt st) n_ctrl n_trt) (Py.range n_genes)
      = evs ++ rest /\
    draws w' = draws w ++ evs /\
    writable w' = writable w /\
    (is_ok r = true -> rest = []) /\
    (is_ok r = false -> files w' = files w /\ stdout w' = stdout w).
Proof.
  unfold sample_and_write, bind, lift. intro H.
  unfold Py.truediv in H.
  set (plan := flat_map _ _).
  destruct (F64.is_zero dispersion).
  { injection H as <- <-. exists [], plan. rewrite app_nil_r.
    repeat split; try reflexivity; discriminate. }
  destruct (np_zeros n_genes (n_ctrl + n_trt)).
  2:{ injection H as <- <-. exists [], plan. rewrite app_nil_r.
      repeat split; try reflexivity; discriminate. }
  destruct (sample_rows R (F64.div F64.one dispersion) (mu_ctrl st)
              (mu_trt st) n_ctrl n_trt (Py.range n_genes) w)
    as [[counts | e] w1] eqn:Es;
    apply sample_rows_draws in Es
      as (evs & rest & Hplan & Hd & Hf & Hw & Hs & Hok).
  2:{ injection H as <- <-. exists evs, rest.
      repeat split; try assumption; discriminate. }
  specialize (Hok eq_refl). subst rest.
  exists evs, []. split; [assumption |].
  destruct (pd_DataFrame n_genes (n_ctrl + n_trt) counts (genes st)
              (ctrl_samples st ++ trt_samples st)) as [df | e].
  2:{ injection H as <- <-. repeat split; try assumption; discriminate. }
  unfold to_csv, print in H.
  destruct (writable w1 output).
  - injection H as <- <-. cbn [draws writable write_file].
    repeat split; try assumption; discriminate.
  - injection H as <- <-. repeat split; try assumption; discriminate.
Qed.


End Run.

(** * The small generator meets the interface *)

Lemma leb_refl (x : float) : F64.is_nan x = false -> F64.leb x x = true.
Proof.
  unfold F64.leb, SFleb, SFcompare.
  destruct x as [s | s | | s m e]; intro H; try discriminate.
  - reflexivity.
  - destruct s; reflexivity.
  - rewrite Z.compare_refl.
    change (Pos.compare_cont Eq m m) with (Pos.compare m m).
    rewrite Pos.compare_refl. destruct s; reflexivity.
Qed.

Lemma leb_not_nan (x y : float) :
  F64.leb x y = true -> F64.is_nan x = false /\ F64.is_nan y = false.
Proof.
  destruct x as [s | s | | s m e], y as [s' | s' | | s' m' e'];
    try discriminate; intros _; split; reflexivity.
Qed.

Lemma toy_rotate_perm (r : nat) (l : list nat) :
  Permutation (Toy.rotate r l) l.
Proof.
  unfold Toy.rotate.
  rewrite Permutation_app_comm, firstn_skipn. reflexivity.
Qed.

Lemma NoDup_firstn_of {A} (k : nat) (l : list A) :
  NoDup l -> NoDup (firstn k l).
Proof.
  intro H. rewrite <- (firstn_skipn k l) in H.
  now apply NoDup_app_remove_r in H.
Qed.

Lemma In_firstn_of {A} (k : nat) (l : list A) (x : A) :
  In x (firstn k l) -> In x l.
Proof.
  intro H. rewrite <- (firstn_skipn k l). apply in_or_app. now left.
Qed.

Lemma toy_uniform_length (lo hi : float) (n : nat) (s : Z) :
  length (fst (Toy.uniform lo hi n s)) = n.
Proof.
  revert s. induction n as [| n IH]; intro s; [reflexivity |].
  cbn [Toy.uniform]. specialize (IH (Toy.next s)).
  destruct (Toy.uniform lo hi n (Toy.next s)). cbn in *. now rewrite IH.
Qed.

Lemma toy_uniform_bounds (lo hi : float) (n : nat) (s : Z) :
  Forall (fun u => u = lo \/ u = hi) (fst (Toy.uniform lo hi n s)).
Proof.
  revert s. induction n as [| n IH]; intro s; [constructor |].
  cbn [Toy.uniform]. specialize (IH (Toy.next s)).
  destruct (Toy.uniform lo hi n (Toy.next s)). cbn [fst] in *.
  constructor; [| assumption].
  destruct (Z.even (Toy.next s / 65536)); auto.
Qed.

Lemma toy_counts_length (n : nat) (s : Z) :
  length (fst (Toy.counts n s)) = n.
Proof.
  revert s. induction n as [| n IH]; intro s; [reflexivity |].
  cbn [Toy.counts]. specialize (IH (Toy.next s)).
  destruct (Toy.counts n (Toy.next s)). cbn in *. now rewrite IH.
Qed.

Lemma toy_counts_nonneg (n : nat) (s : Z) :
  Forall (fun c => 0 <= c) (fst (Toy.counts n s)).
Proof.
  revert s. induction n as [| n IH]; intro s; [constructor |].
  cbn [Toy.counts]. specialize (IH (Toy.next s)).
  destruct (Toy.counts n (Toy.next s)). cbn [fst] in *.
  constructor; [| assumption].
  apply Z.mod_pos_bound. lia.
Qed.

Lemma toy_gen_ok : numpy_random_ok Toy.gen.
Proof.
  constructor; cbn [rng_choice rng_uniform rng_negative_binomial Toy.gen].
  - intros a k s Hk. unfold Toy.choice. cbn [fst].
    rewrite length_firstn.
    rewrite (Permutation_length (toy_rotate_perm _ _)), length_seq. lia.
  - intros a k s Hk. unfold Toy.choice. cbn [fst].
    apply NoDup_firstn_of.
    apply (Permutation_NoDup (Permutation_sym (toy_rotate_perm _ _))).
    apply seq_NoDup.
  - intros a k s Hk. unfold Toy.choice. cbn [fst].
    apply Forall_forall. intros i Hi.
    apply In_firstn_of in Hi.
    apply (Permutation_in _ (toy_rotate_perm _ _)) in Hi.
    apply in_seq in Hi. lia.
  - intros. apply toy_uniform_length.
  - intros lo hi n s Vlo Vhi Hle.
    destruct (leb_not_nan _ _ Hle) as [Nlo Nhi].
    eapply Forall_impl; [| apply toy_uniform_bounds].
    intros u [-> | ->]; repeat split; auto using leb_refl.
  - intros. apply toy_counts_length.
  - intros. apply toy_counts_nonneg.
Qed.

(** * Order facts on binary64 *)




(** * The two halves of the index array *)

Section Halves.

Context (R : numpy_random) (HR : numpy_random_ok R).
Context (n_genes n_ctrl n_trt : Z) (de_prop fold_change : float)
        (gene_list : option (list string)) (w w' : world R) (st : locals).
Context (Hrun : prepare R n_genes n_ctrl n_trt de_prop fold_change
                  gene_list w = (Ok st, w')).

Lemma halves_app : up_indices st ++ down_indices st = de_indices st.
Proof. apply slices_app. Qed.

Lemma half_value : half st = n_de st / 2.
Proof.
  apply prepare_ok_inv in Hrun
    as (? & ? & ? & ? & _ & _ & _ & _ & _ & _ & _ & _ & H & _).
  exact H.
Qed.

Lemma de_length : Py.len (de_indices st) = n_de st.
Proof.
  destruct (prepare_means R HR _ _ _ _ _ _ _ _ _ Hrun)
    as (Hk & Hlen & _).
  unfold Py.len. rewrite Hlen. lia.
Qed.

Lemma up_length : Py.len (up_indices st) = n_de st / 2.
Proof.
  destruct (prepare_means R HR _ _ _ _ _ _ _ _ _ Hrun) as (Hk & _).
  unfold up_indices. rewrite half_value.
  apply slice_to_length. rewrite de_length.
  split; [apply Z.div_pos; lia |].
  apply Z.div_le_upper_bound; lia.
Qed.

Lemma down_length : Py.len (down_indices st) = n_de st - n_de st / 2.
Proof.
  destruct (prepare_means R HR _ _ _ _ _ _ _ _ _ Hrun) as (Hk & _).
  unfold down_indices. rewrite half_value.
  rewrite slice_from_length; rewrite de_length; [reflexivity |].
  split; [apply Z.div_pos; lia |].
  apply Z.div_le_upper_bound; lia.
Qed.



Lemma halves_disjoint (g : nat) :
  In g (up_indices st) -> ~ In g (down_indices st).
Proof.
  destruct (prepare_means R HR _ _ _ _ _ _ _ _ _ Hrun)
    as (_ & _ & Hnd & _).
  rewrite <- halves_app in Hnd.
  revert Hnd. generalize (up_indices st), (down_indices st).
  intros l1 l2 Hnd Hin1 Hin2.
  induction l1 as [| a l1 IH]; [contradiction |].
  cbn [app] in Hnd. apply NoDup_cons_iff in Hnd as [Hna Hnd].
  destruct Hin1 as [-> | Hin1].
  - apply Hna, in_or_app. now right.
  - now apply IH.
Qed.


(** Treatment mean of each gene, by the half its index is in. *)
Lemma mu_trt_at (g : nat) :
  (g < Z.to_nat n_genes)%nat ->
  (In g (up_indices st) ->
   Np.get (mu_trt st) g = F64.mul (Np.get (mu_ctrl st) g) fold_change) /\
  (In g (down_indices st) ->
   Np.get (mu_trt st) g = F64.div (Np.get (mu_ctrl st) g) fold_change) /\
  (~ In g (de_indices st) ->
   Np.get (mu_trt st) g = Np.get (mu_ctrl st) g).
Proof.
  destruct (prepare_means R HR _ _ _ _ _ _ _ _ _ Hrun)
    as (_ & _ & _ & _ & _ & _ & _ & Hg).
  intro Hlt. specialize (Hg g Hlt).
  split; [| split].
  - intro Hin. apply mem_In in Hin. now rewrite Hin in Hg.
  - intro Hin.
    assert (Hup : Np.mem g (up_indices st) = false).
    { apply mem_not_In. intro Hu. now apply (halves_disjoint g Hu). }
    apply mem_In in Hin. now rewrite Hup, Hin in Hg.
  - intro Hnot. rewrite <- halves_app in Hnot.
    assert (Hup : Np.mem g (up_indices st) = false).
    { apply mem_not_In. intro Hu. apply Hnot, in_or_app. now left. }
    assert (Hdn : Np.mem g (down_indices st) = false).
    { apply mem_not_In. intro Hd. apply Hnot, in_or_app. now right. }
    now rewrite Hup, Hdn in Hg.
Qed.

End Halves.

(** * The split of an odd DE subset *)




(** * Direction of the treatment effect *)



(** * Number of DE genes *)

Lemma n_de_value (R : numpy_random) (n_genes n_ctrl n_trt : Z)
    (de_prop fold_change : float) (gene_list : option (list string))
    (w w' : world R) (st : locals) :
  prepare R n_genes n_ctrl n_trt de_prop fold_change gene_list w
    = (Ok st, w') ->
  F64.trunc (F64.mul (F64.of_Z n_genes) de_prop) = Some (n_de st).
Proof.
  intro Hrun.
  apply prepare_ok_inv in Hrun
    as (product & ? & ? & ? & _ & _ & _ & Hp & Hi & _).
  unfold Py.mul_int_float in Hp. unfold Py.int in Hi.
  assert (Hprod : product = F64.mul (F64.of_Z n_genes) de_prop)
    by (destruct (F64.of_Z n_genes); congruence).
  subst product.
  destruct (F64.trunc (F64.mul (F64.of_Z n_genes) de_prop)) as [z |].
  - congruence.
  - destruct (F64.is_nan _); discriminate.
Qed.

(** C6, as stated, fails: for 10 genes and the float 0.7 the exact real
    product is just below 7, so its floor is 6, but the binary64 product
    rounds to 7.0 and 7 indices are selected. *)
Lemma de_count_exceeds_exact_floor :
  F64.leb F64.zero Demo.f0_7 = true /\ F64.leb Demo.f0_7 F64.one = true /\
  prepare Toy.gen 10 1 1 Demo.f0_7 Demo.f4 None Toy.world0
    = (Ok Demo.seven_st, Demo.seven_world) /\
  Py.len (de_indices Demo.seven_st) = 7 /\
  F64.exact_floor_mul 10 Demo.f0_7 = Some 6 /\
  Some (Py.len (de_indices Demo.seven_st)) <> F64.exact_floor_mul 10 Demo.f0_7.
Proof.
  split; [reflexivity |]. split; [reflexivity |].
  split; [vm_compute; reflexivity |].
  vm_compute. repeat split; try reflexivity. discriminate.
Qed.

(** C6, amended: the number of DE genes selected is the integer part of
    the binary64 product [float(n_genes) * de_prop], rounded to nearest as
    the multiplication rounds it, and the selected indices are distinct and
    lie in [[0, n_genes)].  For a gene count below [2^53] and a proportion
    in [[0, 1]] the selection returns, and that number is the floor of the
    exact real product or one more. *)
Theorem de_count_selection (R : numpy_random) (n_genes n_ctrl n_trt : Z)
    (de_prop fold_change : float) (gene_list : option (list string))
    (w : world R) :
  numpy_random_ok R ->
  (forall (st : locals) (w' : world R),
     prepare R n_genes n_ctrl n_trt de_prop fold_change gene_list w
       = (Ok st, w') ->
     F64.trunc (F64.mul (F64.of_Z n_genes) de_prop) = Some (n_de st) /\
     Py.len (de_indices st) = n_de st /\
     NoDup (de_indices st) /\
     Forall (fun i => 0 <= Z.of_nat i < n_genes) (de_indices st)) /\
  (0 < n_genes < 2 ^ 53 -> proportion de_prop ->
   is_ok (gene_names n_genes gene_list) = true ->
   exists (st : locals) (w' : world R) (exact : Z),
     prepare R n_genes n_ctrl n_trt de_prop fold_change gene_list w
       = (Ok st, w') /\
     F64.exact_floor_mul n_genes de_prop = Some exact /\
     (n_de st = exact \/ n_de st = exact + 1) /\
     0 <= n_de st <= n_genes).
Proof.
  intro HR. split.
  - intros st w' Hrun.
    destruct (prepare_means R HR _ _ _ _ _ _ _ _ _ Hrun)
      as (Hk & Hlen & Hnd & Hrg & _).
    split; [| split; [| split]].
    + apply (n_de_value R _ _ _ _ _ _ _ _ _ Hrun).
    + apply (de_length R HR _ _ _ _ _ _ _ _ _ Hrun).
    + assumption.
    + eapply Forall_impl; [| exact Hrg]. cbn beta. intros i Hi. lia.
  - intros Hn Hp Hg.
    destruct (prepare_returns R HR n_genes n_ctrl n_trt de_prop fold_change
                gene_list w Hn Hp Hg) as (st & w' & Hrun).
    destruct (product_bracket n_genes de_prop Hn Hp)
      as (F & k & HF & Ht & Hk & Hb).
    pose proof (n_de_value R _ _ _ _ _ _ _ _ _ Hrun) as Hv.
    assert (k = n_de st) by congruence. subst k.
    exists st, w', F. repeat split; try assumption; lia.
Qed.

Lemma de_count_selection_witness :
  (F64.trunc (F64.mul (F64.of_Z 10) Demo.f0_7) = Some (n_de Demo.seven_st) /\
   Py.len (de_indices Demo.seven_st) = n_de Demo.seven_st /\
   NoDup (de_indices Demo.seven_st) /\
   Forall (fun i => 0 <= Z.of_nat i < 10) (de_indices Demo.seven_st)) /\
  (exists (st : locals) (w' : world Toy.gen) (exact : Z),
     prepare Toy.gen 10 1 1 Demo.f0_7 Demo.f4 None Toy.world0 = (Ok st, w') /\
     F64.exact_floor_mul 10 Demo.f0_7 = Some exact /\
     (n_de st = exact \/ n_de st = exact + 1) /\
     0 <= n_de st <= 10).
Proof.
  pose proof (de_count_selection Toy.gen 10 1 1 Demo.f0_7 Demo.f4 None
                Toy.world0 toy_gen_ok) as [Hall Hbracket].
  split.
  - apply (Hall Demo.seven_st Demo.seven_world). vm_compute; reflexivity.
  - apply Hbracket.
    + lia.
    + unfold proportion. repeat split; vm_compute; reflexivity.
    + reflexivity.
Defined.

(** * Rejection of bad sampling parameters *)






(** * The gene-list length check *)

(** C3, as stated, fails: an empty gene list is a supplied sequence with
    fewer than [n_genes = 1] entries, yet the run completes and writes the
    output file. *)
Lemma empty_gene_list_not_rejected :
  Py.len (@nil string) < 1 /\
  simulate_counts Toy.gen 1 1 1 Demo.f0_5 Demo.f4 Demo.f0_3 42 "out.tsv"
    (Some []) Toy.world0 = (Ok tt, Demo.empty_list_world) /\
  read_file Toy.gen "out.tsv" Toy.world0 = None /\
  read_file Toy.gen "out.tsv" Demo.empty_list_world <> None.
Proof.
  split; [reflexivity |].
  split; [vm_compute; reflexivity |].
  split; [reflexivity |].
  vm_compute. discriminate.
Qed.

(** C3, amended: for a supplied non-empty gene list with fewer than
    [n_genes] entries (and a seed numpy accepts) the run fails with a
    [ValueError] whose message gives the number of names available and the
    number required; the generator has only been seeded, no random draw has
    been made, and no file is written. *)
Theorem short_gene_list_rejected (R : numpy_random)
    (n_genes n_ctrl n_trt : Z) (de_prop fold_change dispersion : float)
    (seed : Z) (output : string) (gene_list : list string) (w : world R) :
  gene_list <> [] ->
  Py.len gene_list < n_genes ->
  0 <= seed < 2 ^ 32 ->
  exists w',
    simulate_counts R n_genes n_ctrl n_trt de_prop fold_change dispersion
      seed output (Some gene_list) w
      = (Raise (ValueError
                  ("Gene list contains only " ++ Py.str (Py.len gene_list) ++
                   " names, fewer than n_genes=" ++ Py.str n_genes ++ ".")),
         w') /\
    draws w' = draws w ++ [Seeded seed] /\
    files w' = files w /\
    stdout w' = stdout w.
Proof.
  intros Hne Hlen Hseed. rewrite simulate_counts_unfold.
  assert (Hs : (0 <=? seed) && (seed <? 2 ^ 32) = true).
  { apply andb_true_iff. split; [apply Z.leb_le | apply Z.ltb_lt]; lia. }
  rewrite Hs. unfold prepare, bind, lift, gene_names.
  destruct gene_list as [| name names]; [congruence |].
  cbn [Py.truthy].
  destruct (Z.ltb_spec (Py.len (name :: names)) n_genes); [| lia].
  exists (seeded R seed w). repeat split; reflexivity.
Qed.

Lemma short_gene_list_rejected_witness :
  ["BRCA1"%string] <> [] /\ Py.len ["BRCA1"%string] < 2 /\
  0 <= 42 < 2 ^ 32 /\
  exists w',
    simulate_counts Toy.gen 2 1 1 Demo.f0_5 Demo.f4 Demo.f0_3 42 "out.tsv"
      (Some ["BRCA1"%string]) Toy.world0
      = (Raise (ValueError
                  ("Gene list contains only " ++
                   Py.str (Py.len ["BRCA1"%string]) ++
                   " names, fewer than n_genes=" ++ Py.str 2 ++ ".")),
         w') /\
    draws w' = draws Toy.world0 ++ [Seeded 42] /\
    files w' = files Toy.world0 /\
    stdout w' = stdout Toy.world0.
Proof.
  split; [discriminate |]. split; [reflexivity |]. split; [lia |].
  apply (short_gene_list_rejected Toy.gen 2 1 1 Demo.f0_5 Demo.f4 Demo.f0_3
           42 "out.tsv" ["BRCA1"%string] Toy.world0).
  - discriminate.
  - reflexivity.
  - lia.
Defined.

(** * Determinism *)




(** * Order of the draws *)

(** C7: the draws of a run are an initial part of the plan "seeding, the
    index selection, the [n_genes] baseline means, then for each gene in
    order its control counts followed by its treatment counts", and the
    whole plan when the run returns; the plan is the one of the run's own
    number of DE genes and means. *)
Theorem draw_order (R : numpy_random) (n_genes n_ctrl n_trt : Z)
    (de_prop fold_change dispersion : float) (seed : Z) (output : string)
    (gene_list : option (list string)) (w w' : world R) (r : outcome unit) :
  simulate_counts R n_genes n_ctrl n_trt de_prop fold_change dispersion seed
    output gene_list w = (r, w') ->
  exists evs rest k mc mt,
    draws w' = draws w ++ evs /\
    draw_plan n_genes n_ctrl n_trt dispersion seed k mc mt = evs ++ rest /\
    (forall st w1,
       prepare R n_genes n_ctrl n_trt de_prop fold_change gene_list
         (seeded R seed w) = (Ok st, w1) ->
       k = n_de st /\ mc = mu_ctrl st /\ mt = mu_trt st) /\
    (r = Ok tt ->
     rest = [] /\
     exists st w1,
       prepare R n_genes n_ctrl n_trt de_prop fold_change gene_list
         (seeded R seed w) = (Ok st, w1)).
Proof.
  rewrite simulate_counts_unfold. intro H.
  destruct (prepare R n_genes n_ctrl n_trt de_prop fold_change gene_list
              (seeded R seed w)) as [[st | e] w1] eqn:Ep.
  - pose proof Ep as Ep'.
    apply prepare_draws in Ep'
      as (evs & rest & k & Hplan & Hd & _ & _ & _ & Hok).
    destruct (Hok st eq_refl) as [-> ->]. rewrite app_nil_r in Hplan.
    subst evs. cbn [seeded draws log set_rng] in Hd.
    destruct ((0 <=? seed) && (seed <? 2 ^ 32)).
    + apply sample_and_write_draws in H
        as (evs2 & rest2 & Hplan2 & Hd2 & _ & Hr & _).
      exists ([Seeded seed; DrawChoice n_genes (n_de st);
               DrawUniform F64.c50 F64.c2000 n_genes] ++ evs2),
        rest2, (n_de st), (mu_ctrl st), (mu_trt st).
      split; [rewrite Hd2, Hd, <- !app_assoc; reflexivity |].
      split; [unfold draw_plan; rewrite Hplan2, <- !app_assoc; reflexivity |].
      split; [intros st' w2 [= <- <-]; repeat split; reflexivity |].
      intros ->. split; [apply Hr; reflexivity |].
      exists st, w1. reflexivity.
    + injection H as <- <-.
      exists [], (draw_plan n_genes n_ctrl n_trt dispersion seed (n_de st)
                    (mu_ctrl st) (mu_trt st)),
        (n_de st), (mu_ctrl st), (mu_trt st).
      rewrite app_nil_r.
      split; [reflexivity |]. split; [reflexivity |].
      split; [intros st' w2 [= <- <-]; repeat split; reflexivity |].
      discriminate.
  - apply prepare_draws in Ep
      as (evs & rest & k & Hplan & Hd & _).
    cbn [seeded draws log set_rng] in Hd.
    destruct ((0 <=? seed) && (seed <? 2 ^ 32)); injection H as <- <-.
    + exists (Seeded seed :: evs),
        (rest ++ flat_map (gene_draws (F64.div F64.one dispersion) [] []
                             n_ctrl n_trt) (Py.range n_genes)),
        k, [], [].
      split; [rewrite Hd, <- app_assoc; reflexivity |].
      split.
      { unfold draw_plan.
        change [Seeded seed; DrawChoice n_genes k;
                DrawUniform F64.c50 F64.c2000 n_genes]
          with (Seeded seed ::
                [DrawChoice n_genes k; DrawUniform F64.c50 F64.c2000 n_genes]).
        rewrite Hplan. cbn [app]. now rewrite <- app_assoc. }
      split; [intros st' w2 H; discriminate H | discriminate].
    + exists [], (draw_plan n_genes n_ctrl n_trt dispersion seed k [] []),
        k, [], [].
      rewrite app_nil_r.
      split; [reflexivity |]. split; [reflexivity |].
      split; [intros st' w2 H; discriminate H | discriminate].
Qed.

Lemma draw_order_witness :
  simulate_counts Toy.gen 4 2 1 Demo.f0_5 Demo.f4 Demo.f0_3 42 "out.tsv" None
    Toy.world0 = (Ok tt, Demo.full_world) /\
  draws Demo.full_world =
    draw_plan 4 2 1 Demo.f0_3 42 (n_de Demo.full_st) (mu_ctrl Demo.full_st)
      (mu_trt Demo.full_st) /\
  exists evs rest k mc mt,
    draws Demo.full_world = draws Toy.world0 ++ evs /\
    draw_plan 4 2 1 Demo.f0_3 42 k mc mt = evs ++ rest /\
    (forall st w1,
       prepare Toy.gen 4 2 1 Demo.f0_5 Demo.f4 None
         (seeded Toy.gen 42 Toy.world0) = (Ok st, w1) ->
       k = n_de st /\ mc = mu_ctrl st /\ mt = mu_trt st) /\
    (Ok tt = Ok tt ->
     rest = [] /\
     exists st w1,
       prepare Toy.gen 4 2 1 Demo.f0_5 Demo.f4 None
         (seeded Toy.gen 42 Toy.world0) = (Ok st, w1)).
Proof.
  split; [vm_compute; reflexivity |].
  split; [vm_compute; reflexivity |].
  apply (draw_order Toy.gen 4 2 1 Demo.f0_5 Demo.f4 Demo.f0_3 42 "out.tsv"
           None Toy.world0 Demo.full_world (Ok tt)).
  vm_compute; reflexivity.
Defined.

(** * Shape of the output table *)

Lemma numbered_length (prefix : string) (n : Z) :
  length (numbered prefix n) = Z.to_nat n.
Proof.
  unfold numbered, Py.range. now rewrite length_map, length_seq.
Qed.

Lemma nth_map_seq {A} (f : nat -> A) (n j : nat) (d : A) :
  (j < n)%nat -> nth j (map f (seq 0 n)) d = f j.
Proof.
  intro Hj.
  rewrite (nth_indep _ d (f 0%nat)) by (rewrite length_map, length_seq; lia).
  rewrite (map_nth f), seq_nth by lia. reflexivity.
Qed.

Lemma numbered_nth (prefix : string) (n j : Z) :
  0 <= j < n ->
  nth (Z.to_nat j) (numbered prefix n) EmptyString
    = (prefix ++ Py.str (j + 1))%string.
Proof.
  intro Hj. unfold numbered, Py.range.
  rewrite nth_map_seq by lia. rewrite Z2Nat.id by lia. reflexivity.
Qed.



(** * The two edge cases of the DE proportion *)

Lemma gene_names_length (n_genes : Z) (gene_list : option (list string))
    (gs : list string) :
  0 <= n_genes -> gene_names n_genes gene_list = Ok gs -> Py.len gs = n_genes.
Proof.
  intros Hn. unfold gene_names.
  destruct (Py.truthy gene_list).
  - destruct (Z.ltb_spec
                (Py.len match gene_list with Some l => l | None => [] end)
                n_genes); [discriminate |].
    intros [= <-]. apply slice_to_length. lia.
  - intros [= <-]. unfold Py.len. rewrite numbered_length. lia.
Qed.

Section Returns.

Context (R : numpy_random) (HR : numpy_random_ok R).

(** Without DE genes the first half of the run returns, with untouched
    treatment means. *)
Lemma prepare_without_de (n_genes n_ctrl n_trt : Z)
    (de_prop fold_change : float) (gene_list : option (list string))
    (w : world R) (x : float) :
  0 <= n_genes ->
  is_ok (gene_names n_genes gene_list) = true ->
  Py.mul_int_float n_genes de_prop = Ok x ->
  Py.int x = Ok 0 ->
  exists st w1,
    prepare R n_genes n_ctrl n_trt de_prop fold_change gene_list w
      = (Ok st, w1) /\
    n_de st = 0 /\ de_indices st = [] /\ mu_trt st = mu_ctrl st.
Proof.
  intros Hn Hg Hx Hi. unfold prepare, bind, lift, ret.
  destruct (gene_names n_genes gene_list) as [gs | e]; [| discriminate].
  rewrite Hx, Hi. rewrite np_random_choice_zero by assumption.
  rewrite np_random_uniform_nonneg by assumption.
  pose proof (choice_length R HR (Z.to_nat n_genes) 0 (rng w) ltac:(lia))
    as Hlen.
  destruct (fst (rng_choice R (Z.to_nat n_genes) 0 (rng w))) as [| i l] eqn:Ec;
    [| discriminate].
  change (0 / 2) with 0.
  change (Py.slice_to (@nil nat) 0) with (@nil nat).
  change (Py.slice_from (@nil nat) 0) with (@nil nat).
  unfold Np.imul_at, Np.idiv_at. rewrite !update_at_nil.
  eexists. eexists. split; [reflexivity |].
  cbn. repeat split; reflexivity.
Qed.

(** The second half of the run returns when the dispersion is not zero,
    the sampler accepts every call, the labels fit and the file can be
    written. *)
Lemma sample_and_write_returns (st : locals) (n_genes n_ctrl n_trt : Z)
    (dispersion : float) (output : string) (w : world R) :
  F64.is_zero dispersion = false ->
  0 <= n_genes -> 0 <= n_ctrl -> 0 <= n_trt ->
  (forall i, In i (Py.range n_genes) ->
     Np.negative_binomial_accepts (F64.div F64.one dispersion)
       (nb_prob (F64.div F64.one dispersion) (Np.get (mu_ctrl st) i)) = true /\
     Np.negative_binomial_accepts (F64.div F64.one dispersion)
       (nb_prob (F64.div F64.one dispersion) (Np.get (mu_trt st) i)) = true) ->
  Py.len (genes st) = n_genes ->
  Py.len (ctrl_samples st ++ trt_samples st) = n_ctrl + n_trt ->
  writable w output = true ->
  fst (sample_and_write R st n_genes n_ctrl n_trt dispersion output w) = Ok tt.
Proof.
  intros Hz Hn Hc Ht Hacc Hidx Hcols Hw.
  unfold sample_and_write, bind, lift, Py.truediv. rewrite Hz.
  unfold np_zeros.
  destruct (Z.ltb_spec n_genes 0); [lia |].
  destruct (Z.ltb_spec (n_ctrl + n_trt) 0); [lia |]. cbn [orb].
  pose proof (sample_rows_returns R (F64.div F64.one dispersion) (mu_ctrl st)
                (mu_trt st) n_ctrl n_trt (Py.range n_genes) Hc Ht Hacc w)
    as Hret.
  destruct (sample_rows R (F64.div F64.one dispersion) (mu_ctrl st)
              (mu_trt st) n_ctrl n_trt (Py.range n_genes) w)
    as [[counts | e] w1] eqn:Es; [| discriminate].
  apply sample_rows_draws in Es as (_ & _ & _ & _ & _ & Hw1 & _).
  unfold pd_DataFrame. unfold Py.len in Hidx, Hcols.
  rewrite Hidx, Hcols, !Z.eqb_refl. cbn [negb].
  unfold to_csv, print. rewrite Hw1, Hw. reflexivity.
Qed.

End Returns.



(** * An empty gene list *)

Section Errors.

Context (R : numpy_random).

Lemma choice_error_kind (a size : Z) (w w' : world R) (e : exn) :
  np_random_choice R a size w = (Raise e, w') -> gene_list_error e = false.
Proof.
  unfold np_random_choice.
  destruct ((a <=? 0) && negb (size =? 0)); [now intros [= <- _] |].
  destruct (a <? size); [now intros [= <- _] |].
  destruct (size <? 0); [now intros [= <- _] |].
  destruct (rng_choice R (Z.to_nat a) (Z.to_nat size) (rng w)). discriminate.
Qed.

Lemma uniform_error_kind (lo hi : float) (size : Z) (w w' : world R)
    (e : exn) :
  np_random_uniform R lo hi size w = (Raise e, w') ->
  gene_list_error e = false.
Proof.
  unfold np_random_uniform.
  destruct (size <? 0); [now intros [= <- _] |].
  destruct (rng_uniform R lo hi (Z.to_nat size) (rng w)). discriminate.
Qed.

Lemma negative_binomial_error_kind (n p : float) (size : Z) (w w' : world R)
    (e : exn) :
  np_random_negative_binomial R n p size w = (Raise e, w') ->
  gene_list_error e = false.
Proof.
  unfold np_random_negative_binomial.
  destruct (negb (Np.negative_binomial_accepts n p)); [now intros [= <- _] |].
  destruct (size <? 0); [now intros [= <- _] |].
  destruct (rng_negative_binomial R n p (Z.to_nat size) (rng w)).
  discriminate.
Qed.

Lemma sample_rows_error_kind (size : float) (mc mt : list float)
    (n_ctrl n_trt : Z) (gs : list nat) :
  forall (w w' : world R) (e : exn),
    sample_rows R size mc mt n_ctrl n_trt gs w = (Raise e, w') ->
    gene_list_error e = false.
Proof.
  induction gs as [| i gs IH]; intros w w' e H; [discriminate |].
  cbn [sample_rows] in H. unfold bind at 1 in H.
  destruct (np_random_negative_binomial R size
              (nb_prob size (Np.get mc i)) n_ctrl w)
    as [[c | e1] w1] eqn:E1.
  2:{ injection H as <- <-. now apply negative_binomial_error_kind in E1. }
  unfold bind at 1 in H.
  destruct (np_random_negative_binomial R size
              (nb_prob size (Np.get mt i)) n_trt w1)
    as [[t | e2] w2] eqn:E2.
  2:{ injection H as <- <-. now apply negative_binomial_error_kind in E2. }
  unfold bind at 1 in H.
  destruct (sample_rows R size mc mt n_ctrl n_trt gs w2)
    as [[rows | e3] w3] eqn:E3; [discriminate |].
  injection H as <- <-. now apply IH in E3.
Qed.

Lemma update_at_error_kind (op : float -> float -> float) (arr : list float)
    (idx : list nat) (c : float) (e : exn) :
  Np.update_at op arr idx c = Raise e -> gene_list_error e = false.
Proof.
  unfold Np.update_at.
  destruct (forallb (fun i => (i <? length arr)%nat) idx);
    [discriminate | now intros [= <-]].
Qed.

(** Past the naming step, no error is the one of the gene-list check. *)
Lemma run_error_kind (n_genes n_ctrl n_trt : Z)
    (de_prop fold_change dispersion : float) (seed : Z) (output : string)
    (gene_list : option (list string)) (w w' : world R) (e : exn) :
  is_ok (gene_names n_genes gene_list) = true ->
  simulate_counts R n_genes n_ctrl n_trt de_prop fold_change dispersion seed
    output gene_list w = (Raise e, w') ->
  gene_list_error e = false.
Proof.
  intros Hg. rewrite simulate_counts_unfold.
  destruct ((0 <=? seed) && (seed <? 2 ^ 32)); [| now intros [= <- _]].
  unfold prepare, bind, lift, ret.
  destruct (gene_names n_genes gene_list) as [gs | e0]; [| discriminate].
  unfold Py.mul_int_float.
  intro H.
  destruct (F64.of_Z n_genes) as [s | s | | s m ex] eqn:En;
    try (injection H as <- _; reflexivity).
  all: unfold Py.int in H.
  all: match type of H with
       | context [F64.trunc ?x] =>
           destruct (F64.trunc x) as [k |];
           [| destruct (F64.is_nan x); injection H as <- _; reflexivity]
       end.
  all: match type of H with
       | context [np_random_choice R ?a ?b ?c] =>
           destruct (np_random_choice R a b c) as [[de | e1] w1] eqn:Ec;
           [| injection H as <- _; now apply choice_error_kind in Ec]
       end.
  all: match type of H with
       | context [np_random_uniform R ?a ?b ?c ?d] =>
           destruct (np_random_uniform R a b c d) as [[mc | e1] w2] eqn:Eu;
           [| injection H as <- _; now apply uniform_error_kind in Eu]
       end.
  all: match type of H with
       | context [Np.imul_at ?a ?b ?c] =>
           destruct (Np.imul_at a b c) as [mu1 | e1] eqn:Em;
           [| injection H as <- _; now apply update_at_error_kind in Em]
       end.
  all: match type of H with
       | context [Np.idiv_at ?a ?b ?c] =>
           destruct (Np.idiv_at a b c) as [mt | e1] eqn:Ed;
           [| injection H as <- _; now apply update_at_error_kind in Ed]
       end.
  all: unfold sample_and_write, bind, lift, Py.truediv in H;
    cbn [mu_ctrl mu_trt genes ctrl_samples trt_samples] in H.
  all: destruct (F64.is_zero dispersion);
    [injection H as <- _; reflexivity |].
  all: destruct (np_zeros n_genes (n_ctrl + n_trt)) eqn:Ez;
    [| unfold np_zeros in Ez;
       destruct ((n_genes <? 0) || (n_ctrl + n_trt <? 0));
       [injection Ez as <-; injection H as <- _; reflexivity
       | discriminate Ez]].
  all: match type of H with
       | context [sample_rows R ?a ?b ?c ?d ?f ?g ?h] =>
           destruct (sample_rows R a b c d f g h) as [[counts | e1] w3] eqn:Es;
           [| injection H as <- _; now apply sample_rows_error_kind in Es]
       end.
  all: unfold pd_DataFrame in H.
  all: match type of H with
       | context [negb ?b] =>
           destruct (negb b); [injection H as <- _; reflexivity |]
       end.
  all: match type of H with
       | context [negb ?b] =>
           destruct (negb b); [injection H as <- _; reflexivity |]
       end.
  all: unfold to_csv, print in H.
  all: match type of H with
       | context [writable ?a ?b] =>
           destruct (writable a b);
           [discriminate H | injection H as <- _; reflexivity]
       end.
Qed.

End Errors.

(** C10: an empty gene list is treated like an absent one: the naming
    step returns the synthetic names [gene_1] to [gene_{n_genes}], the run
    is the run without a gene list, and whatever error it may end with is
    not the error of the gene-list length check. *)
Theorem empty_gene_list_is_absent (R : numpy_random)
    (n_genes n_ctrl n_trt : Z) (de_prop fold_change dispersion : float)
    (seed : Z) (output : string) (w : world R) :
  0 < n_genes ->
  Py.truthy (Some (@nil string)) = Py.truthy (@None (list string)) /\
  gene_names n_genes (Some []) = Ok (numbered "gene_" n_genes) /\
  (forall j, 0 <= j < n_genes ->
     nth (Z.to_nat j) (numbered "gene_" n_genes) EmptyString
       = ("gene_" ++ Py.str (j + 1))%string) /\
  simulate_counts R n_genes n_ctrl n_trt de_prop fold_change dispersion seed
    output (Some []) w
  = simulate_counts R n_genes n_ctrl n_trt de_prop fold_change dispersion
      seed output None w /\
  (forall available required,
     gene_list_error (ValueError (gene_list_too_short available required))
       = true) /\
  (forall e w',
     simulate_counts R n_genes n_ctrl n_trt de_prop fold_change dispersion
       seed output (Some []) w = (Raise e, w') ->
     gene_list_error e = false).
Proof.
  intro Hn.
  split; [reflexivity |]. split; [reflexivity |].
  split; [intros j Hj; now apply numbered_nth |].
  split; [reflexivity |].
  split; [intros a r; reflexivity |].
  intros e w' H. eapply run_error_kind; [| exact H]. reflexivity.
Qed.

Lemma empty_gene_list_is_absent_witness :
  0 < 1 /\
  gene_names 1 (Some []) = Ok ["gene_1"%string] /\
  simulate_counts Toy.gen 1 1 1 Demo.f0_5 Demo.f4 Demo.f0_3 42 "out.tsv"
    (Some []) Toy.world0
  = simulate_counts Toy.gen 1 1 1 Demo.f0_5 Demo.f4 Demo.f0_3 42 "out.tsv"
      None Toy.world0.
Proof.
  split; [lia |].
  destruct (empty_gene_list_is_absent Toy.gen 1 1 1 Demo.f0_5 Demo.f4
              Demo.f0_3 42 "out.tsv" Toy.world0 ltac:(lia))
    as (_ & Hnames & _ & Hsame & _).
  split; [exact Hnames | exact Hsame].
Defined.

(** * The genes file *)

Lemma contains_char_app (c : ascii) (a b : string) :
  Csv.contains_char c (a ++ b) =
  Csv.contains_char c a || Csv.contains_char c b.
Proof.
  induction a as [| d a IH]; [reflexivity |].
  cbn [append Csv.contains_char]. now rewrite IH, orb_assoc.
Qed.

Lemma string_app_nil_r (s : string) : (s ++ "")%string = s.
Proof. induction s as [| c s IH]; [reflexivity | cbn; now rewrite IH]. Qed.

Lemma string_app_assoc (a b c : string) :
  ((a ++ b) ++ c)%string = (a ++ (b ++ c))%string.
Proof. induction a as [| x a IH]; [reflexivity | cbn; now rewrite IH]. Qed.

Lemma lstrip_head (s : string) : starts_clean (Text.lstrip s).
Proof.
  induction s as [| c s IH]; [exact I |].
  cbn [Text.lstrip]. destruct (Text.isspace c) eqn:E; [exact IH | exact E].
Qed.

Lemma lstrip_fixed (s : string) : starts_clean s -> Text.lstrip s = s.
Proof.
  destruct s as [| c s]; [reflexivity |]. cbn. now intros ->.
Qed.

Lemma rstrip_head (s : string) : starts_clean s -> starts_clean (Text.rstrip s).
Proof.
  destruct s as [| c s]; [trivial |]. cbn [starts_clean Text.rstrip].
  intro H. destruct (Text.rstrip s); [rewrite H |]; exact H.
Qed.

Lemma rstrip_idem (s : string) : Text.rstrip (Text.rstrip s) = Text.rstrip s.
Proof.
  induction s as [| c s IH]; [reflexivity |].
  cbn [Text.rstrip].
  destruct (Text.rstrip s) as [| d r] eqn:E.
  - destruct (Text.isspace c) eqn:Ec; [reflexivity |].
    cbn [Text.rstrip]. now rewrite Ec.
  - cbn [Text.rstrip]. cbn [Text.rstrip] in IH.
    destruct (Text.rstrip r) as [| d' r'] eqn:Er.
    + destruct (Text.isspace d) eqn:Ed; [discriminate |]. now rewrite IH.
    + now rewrite IH.
Qed.

Lemma strip_idem (s : string) : Text.strip (Text.strip s) = Text.strip s.
Proof.
  unfold Text.strip.
  rewrite (lstrip_fixed (Text.rstrip (Text.lstrip s)))
    by (apply rstrip_head, lstrip_head).
  apply rstrip_idem.
Qed.

Lemma contains_lstrip (c : ascii) (s : string) :
  Csv.contains_char c (Text.lstrip s) = true -> Csv.contains_char c s = true.
Proof.
  induction s as [| d s IH]; [trivial |].
  cbn [Text.lstrip]. destruct (Text.isspace d); [| trivial].
  intro H. cbn. rewrite (IH H). apply orb_true_r.
Qed.

Lemma contains_rstrip (c : ascii) (s : string) :
  Csv.contains_char c (Text.rstrip s) = true -> Csv.contains_char c s = true.
Proof.
  induction s as [| d s IH]; [trivial |].
  cbn [Text.rstrip].
  destruct (Text.rstrip s) as [| e r].
  - destruct (Text.isspace d); [discriminate |].
    cbn. rewrite orb_false_r. intros ->. reflexivity.
  - cbn [Csv.contains_char] in *.
    destruct (Ascii.eqb c d); [reflexivity |]. cbn [orb]. exact IH.
Qed.

Lemma contains_strip (c : ascii) (s : string) :
  Csv.contains_char c s = false -> Csv.contains_char c (Text.strip s) = false.
Proof.
  intro H. destruct (Csv.contains_char c (Text.strip s)) eqn:E; [| reflexivity].
  unfold Text.strip in E. apply contains_rstrip, contains_lstrip in E.
  congruence.
Qed.

Lemma rstrip_app_space (s : string) (c : ascii) :
  Text.isspace c = true ->
  Text.rstrip (s ++ String c EmptyString) = Text.rstrip s.
Proof.
  intro Hc. induction s as [| d s IH].
  - cbn. now rewrite Hc.
  - cbn [append Text.rstrip]. now rewrite IH.
Qed.

Lemma lstrip_app_space (s : string) (c : ascii) :
  Text.isspace c = true ->
  Text.lstrip (s ++ String c EmptyString) =
  match Text.lstrip s with
  | EmptyString => EmptyString
  | t => (t ++ String c EmptyString)%string
  end.
Proof.
  intro Hc. induction s as [| d s IH].
  - cbn. now rewrite Hc.
  - cbn [append Text.lstrip]. destruct (Text.isspace d); [exact IH | reflexivity].
Qed.

Lemma strip_app_space (s : string) (c : ascii) :
  Text.isspace c = true ->
  Text.strip (s ++ String c EmptyString) = Text.strip s.
Proof.
  intro Hc. unfold Text.strip. rewrite lstrip_app_space by assumption.
  destruct (Text.lstrip s) as [| d t]; [reflexivity |].
  now apply rstrip_app_space.
Qed.

Lemma concat_empty_cons (x : string) (xs : list string) :
  String.concat EmptyString (x :: xs) = (x ++ String.concat EmptyString xs)%string.
Proof.
  destruct xs; cbn; [now rewrite string_app_nil_r | reflexivity].
Qed.

(** The lines of a text are the text, cut into pieces. *)
Lemma readlines_concat (s : string) :
  String.concat EmptyString (Text.readlines s) = s.
Proof.
  induction s as [| c s IH]; [reflexivity |].
  cbn [Text.readlines].
  destruct (Ascii.eqb c Text.lf) eqn:Ec.
  - apply Ascii.eqb_eq in Ec. subst c.
    rewrite concat_empty_cons, IH. reflexivity.
  - destruct (Text.readlines s) as [| l ls] eqn:E.
    + cbn in IH. subst s. reflexivity.
    + rewrite concat_empty_cons in *. cbn [append]. now rewrite IH.
Qed.

Lemma readlines_shape (s : string) : Forall line_shape (Text.readlines s).
Proof.
  induction s as [| c s IH]; [constructor |].
  cbn [Text.readlines].
  destruct (Ascii.eqb c Text.lf) eqn:Ec.
  - constructor; [| exact IH].
    exists EmptyString. split; [now right | reflexivity].
  - destruct (Text.readlines s) as [| l ls].
    + constructor; [| constructor].
      exists (String c EmptyString). split; [now left |].
      cbn [Csv.contains_char]. rewrite Ascii.eqb_sym, Ec. reflexivity.
    + inversion IH as [| ? ? (body & Hl & Hb) Hls]; subst.
      constructor; [| exact Hls].
      exists (String c body). split.
      * destruct Hl as [-> | ->]; [now left | now right].
      * cbn [Csv.contains_char]. rewrite Ascii.eqb_sym, Ec. exact Hb.
Qed.

Lemma universal_newlines_no_cr (s : string) :
  Csv.contains_char Text.cr (Text.universal_newlines s) = false.
Proof.
  assert (H : forall n s, (String.length s <= n)%nat ->
            Csv.contains_char Text.cr (Text.universal_newlines s) = false).
  { clear s. induction n as [| n IH]; intros s Hn.
    - destruct s; [reflexivity | cbn in Hn; lia].
    - destruct s as [| c s]; [reflexivity |].
      cbn [String.length] in Hn. cbn [Text.universal_newlines].
      destruct (Ascii.eqb c Text.cr) eqn:Ec.
      + destruct s as [| d s']; [reflexivity |].
        cbn [String.length] in Hn.
        destruct (Ascii.eqb d Text.lf); cbn [Csv.contains_char];
          rewrite IH by (cbn [String.length]; lia); reflexivity.
      + cbn [Csv.contains_char]. rewrite Ascii.eqb_sym, Ec.
        apply IH. lia. }
  apply (H (String.length s)). lia.
Qed.

Lemma contains_char_concat (c : ascii) (ls : list string) (l : string) :
  Csv.contains_char c (String.concat EmptyString ls) = false ->
  In l ls -> Csv.contains_char c l = false.
Proof.
  induction ls as [| x xs IH]; [contradiction |].
  rewrite concat_empty_cons, contains_char_app.
  intros H [-> | Hin]; apply orb_false_iff in H as [H1 H2]; auto.
Qed.

Lemma isspace_lf : Text.isspace Text.lf = true.
Proof. reflexivity. Qed.

Lemma truthy_true (s : string) : Text.truthy s = true <-> s <> EmptyString.
Proof. destruct s; cbn; split; congruence. Qed.

(** The names read from a genes file are clean. *)
Lemma gene_lines_clean_all (content : string) :
  Forall (fun name => Text.clean name = true) (Text.gene_lines content).
Proof.
  unfold Text.gene_lines. apply Forall_forall. intros name Hin.
  apply in_map_iff in Hin as (line & <- & Hin).
  apply filter_In in Hin as [Hin Ht].
  set (text := Text.universal_newlines content) in *.
  assert (Hcr : Csv.contains_char Text.cr line = false).
  { apply (contains_char_concat _ (Text.readlines text)); [| exact Hin].
    rewrite readlines_concat. apply universal_newlines_no_cr. }
  pose proof (readlines_shape text) as Hs.
  rewrite Forall_forall in Hs. destruct (Hs line Hin) as (body & Hl & Hb).
  assert (Hstrip : Text.strip line = Text.strip body).
  { destruct Hl as [-> | ->]; [reflexivity |].
    apply strip_app_space, isspace_lf. }
  unfold Text.clean. rewrite Ht, strip_idem, String.eqb_refl. cbn [andb].
  rewrite (contains_strip Text.cr line Hcr).
  rewrite Hstrip, (contains_strip Text.lf body Hb). reflexivity.
Qed.
Lemma clean_inv (name : string) :
  Text.clean name = true ->
  name <> EmptyString /\ Text.strip name = name /\
  Csv.contains_char Text.lf name = false /\
  Csv.contains_char Text.cr name = false.
Proof.
  unfold Text.clean. intro H.
  apply andb_true_iff in H as [H Hcr]. apply andb_true_iff in H as [H Hlf].
  apply andb_true_iff in H as [Ht Hs].
  apply truthy_true in Ht. apply String.eqb_eq in Hs.
  apply negb_true_iff in Hlf, Hcr. auto.
Qed.

Lemma universal_newlines_plain (a rest : string) :
  Csv.contains_char Text.cr a = false ->
  Text.universal_newlines (a ++ rest) = (a ++ Text.universal_newlines rest)%string.
Proof.
  induction a as [| c a IH]; [reflexivity |].
  cbn [Csv.contains_char append]. intro H.
  apply orb_false_iff in H as [Hc Ha].
  cbn [Text.universal_newlines]. rewrite Ascii.eqb_sym, Hc.
  now rewrite IH.
Qed.

Lemma readlines_line (a rest : string) :
  Csv.contains_char Text.lf a = false ->
  Text.readlines (a ++ String Text.lf rest) =
  (a ++ String Text.lf EmptyString)%string :: Text.readlines rest.
Proof.
  induction a as [| c a IH].
  - intros _. reflexivity.
  - cbn [Csv.contains_char append]. intro H.
    apply orb_false_iff in H as [Hc Ha].
    cbn [Text.readlines]. rewrite Ascii.eqb_sym, Hc, (IH Ha). reflexivity.
Qed.

(** The three line endings a text file may use. *)
Lemma ending_translated (ending rest : string) :
  ending = String Text.lf EmptyString \/
  ending = String Text.cr (String Text.lf EmptyString) \/
  (ending = String Text.cr EmptyString /\
   Csv.contains_char Text.lf
     (match rest with
      | String c _ => String c EmptyString
      | EmptyString => EmptyString
      end)
   = false) ->
  Text.universal_newlines (ending ++ rest) =
  String Text.lf (Text.universal_newlines rest).
Proof.
  intros [-> | [-> | [-> Hr]]]; try reflexivity.
  cbn [append Text.universal_newlines].
  change (Ascii.eqb Text.cr Text.cr) with true. cbv iota.
  destruct rest as [| d rest']; [reflexivity |].
  cbn [Csv.contains_char] in Hr. rewrite orb_false_r in Hr.
  rewrite Ascii.eqb_sym in Hr. now rewrite Hr.
Qed.
Lemma one_per_line_cons (ending n : string) (ns : list string) :
  Text.one_per_line ending (n :: ns) =
  (n ++ (ending ++ Text.one_per_line ending ns))%string.
Proof.
  unfold Text.one_per_line. cbn [map].
  now rewrite concat_empty_cons, string_app_assoc.
Qed.

Lemma one_per_line_head (ending : string) (ns : list string) :
  Forall (fun n => Text.clean n = true) ns ->
  Csv.contains_char Text.lf
    (match Text.one_per_line ending ns with
     | String c _ => String c EmptyString
     | EmptyString => EmptyString
     end) = false.
Proof.
  intro H. destruct ns as [| n ns]; [reflexivity |].
  rewrite one_per_line_cons. inversion H as [| ? ? Hn _]; subst.
  apply clean_inv in Hn as (Hne & _ & Hlf & _).
  destruct n as [| c n]; [congruence |].
  cbn [append Csv.contains_char] in *.
  apply orb_false_iff in Hlf as [-> _]. reflexivity.
Qed.

(** Names written one per line, with any of the three line endings, are
    read back as they were. *)
Lemma gene_lines_one_per_line (ending : string) (names : list string) :
  ending = String Text.lf EmptyString \/
  ending = String Text.cr (String Text.lf EmptyString) \/
  ending = String Text.cr EmptyString ->
  Forall (fun n => Text.clean n = true) names ->
  Text.gene_lines (Text.one_per_line ending names) = names.
Proof.
  intros He Hall. induction Hall as [| n ns Hn Hns IH]; [reflexivity |].
  rewrite one_per_line_cons. unfold Text.gene_lines.
  pose proof Hn as Hn'. apply clean_inv in Hn' as (Hne & Hs & Hlf & Hcr).
  rewrite universal_newlines_plain by assumption.
  rewrite ending_translated.
  2:{ destruct He as [-> | [-> | ->]]; auto.
      right; right. split; [reflexivity |]. now apply one_per_line_head. }
  rewrite readlines_line by assumption.
  cbn [filter]. rewrite strip_app_space by apply isspace_lf.
  rewrite Hs. apply truthy_true in Hne. rewrite Hne.
  cbn [map]. rewrite strip_app_space by apply isspace_lf.
  rewrite Hs. f_equal. exact IH.
Qed.

(** X12: every name read from a genes file is not empty, has no white
    space at either end and no line break inside, whatever the file
    holds. *)
Theorem loaded_names_clean (content name : string) :
  In name (Text.gene_lines content) ->
  name <> EmptyString /\ Text.strip name = name /\
  Csv.contains_char Text.lf name = false /\
  Csv.contains_char Text.cr name = false.
Proof.
  intro Hin. apply clean_inv.
  pose proof (gene_lines_clean_all content) as H.
  rewrite Forall_forall in H. now apply H.
Qed.

Lemma loaded_names_clean_witness :
  Text.gene_lines
    ("  TP53 " ++ String Text.cr (String Text.lf (String Text.lf " BRCA1")))
  = ["TP53"; "BRCA1"]%string /\
  Text.strip "BRCA1" = "BRCA1"%string /\
  Csv.contains_char Text.lf "BRCA1" = false.
Proof.
  split; [reflexivity |].
  destruct (loaded_names_clean
              ("  TP53 " ++ String Text.cr (String Text.lf
                 (String Text.lf " BRCA1")))%string "BRCA1"%string)
    as (_ & Hs & Hlf & _).
  - vm_compute. right. left. reflexivity.
  - split; assumption.
Defined.

Lemma all_space_app (a b : string) :
  all_space (a ++ b) = all_space a && all_space b.
Proof.
  induction a as [| c a IH]; [reflexivity |].
  cbn [append all_space]. now rewrite IH, andb_assoc.
Qed.

Lemma all_space_concat (ls : list string) (l : string) :
  all_space (String.concat EmptyString ls) = true ->
  In l ls -> all_space l = true.
Proof.
  induction ls as [| x xs IH]; [contradiction |].
  rewrite concat_empty_cons, all_space_app.
  intros H [-> | Hin]; apply andb_true_iff in H as [H1 H2]; auto.
Qed.

Lemma all_space_lstrip (s : string) :
  all_space s = true -> Text.lstrip s = EmptyString.
Proof.
  induction s as [| c s IH]; [reflexivity |].
  cbn [all_space Text.lstrip]. intro H.
  apply andb_true_iff in H as [-> Hs]. auto.
Qed.

Lemma all_space_universal_newlines (s : string) :
  all_space s = true -> all_space (Text.universal_newlines s) = true.
Proof.
  assert (H : forall n s, (String.length s <= n)%nat ->
            all_space s = true ->
            all_space (Text.universal_newlines s) = true).
  { clear s. induction n as [| n IH]; intros s Hn Hs.
    - destruct s; [reflexivity | cbn in Hn; lia].
    - destruct s as [| c s]; [reflexivity |].
      cbn [String.length] in Hn. cbn [all_space] in Hs.
      apply andb_true_iff in Hs as [Hc Hs].
      cbn [Text.universal_newlines].
      destruct (Ascii.eqb c Text.cr).
      + destruct s as [| d s']; [reflexivity |].
        cbn [String.length] in Hn. cbn [all_space] in Hs.
        apply andb_true_iff in Hs as [Hd Hs'].
        destruct (Ascii.eqb d Text.lf); cbn [all_space];
          rewrite isspace_lf; cbn [andb]; apply IH;
          cbn [String.length all_space]; try lia; try assumption.
        now rewrite Hd.
      + cbn [all_space]. rewrite Hc. apply IH; [lia | assumption]. }
  apply (H (String.length s)). lia.
Qed.

(** A file of white space only holds no name. *)
Lemma gene_lines_blank (content : string) :
  all_space content = true -> Text.gene_lines content = [].
Proof.
  intro H. apply all_space_universal_newlines in H.
  unfold Text.gene_lines.
  set (text := Text.universal_newlines content) in *.
  assert (Hl : forall line, In line (Text.readlines text) ->
                 Text.truthy (Text.strip line) = false).
  { intros line Hin.
    assert (Hs : all_space line = true).
    { apply (all_space_concat (Text.readlines text)); [| exact Hin].
      now rewrite readlines_concat. }
    unfold Text.strip. now rewrite all_space_lstrip. }
  induction (Text.readlines text) as [| l ls IH]; [reflexivity |].
  cbn [filter]. rewrite (Hl l) by now left.
  apply IH. intros line Hin. apply Hl. now right.
Qed.

(** * Treatment means and the sampler *)

Lemma div_one_normal (m : positive) (e : Z) :
  normal53 m -> -1073 <= e <= 971 ->
  F64.div (S754_finite false m e) F64.one = S754_finite false m e.
Proof.
  intros Hm He. pose proof Hm as Hm'. unfold normal53 in Hm'.
  unfold F64.div, F64.one, SFdiv, F64.prec, F64.emax. cbn [xorb].
  assert (H1 : normal53 4503599627370496)
    by (unfold normal53; change (Zpos 4503599627370496) with (2 ^ 52); lia).
  rewrite div_core_normal by (assumption || lia).
  change (Zpos 4503599627370496) with (2 ^ 52).
  assert (Eq : Zpos m * 2 ^ 53 / 2 ^ 52 = Zpos (m~0)).
  { change (2 ^ 53) with (2 * 2 ^ 52). rewrite Z.mul_assoc, Z.div_mul by lia.
    lia. }
  assert (Er : (Zpos m * 2 ^ 53) mod 2 ^ 52 = 0).
  { change (2 ^ 53) with (2 * 2 ^ 52). rewrite Z.mul_assoc.
    apply Z.mod_mul. lia. }
  rewrite Eq, Er, new_location_0.
  assert (D : Zpos (digits2_pos (m~0)) = 54).
  { apply digits2_pos_unique. change (54 - 1) with 53.
    change (2 ^ 54) with (2 * 2 ^ 53). change (2 ^ 53) with (2 * 2 ^ 52) at 1.
    lia. }
  destruct (round_aux_normal false (m~0) (e - -52 - 53) loc_Exact)
    as (m2 & _ & Hex & _ & ->); rewrite ?D; try lia.
  rewrite D in Hex. change (54 - 53) with 1 in *. change (2 ^ 1) with 2 in *.
  assert (Hm2 : m2 = Zpos m).
  { rewrite Hex; [| reflexivity |].
    - change (Zpos m~0) with (2 * Zpos m). rewrite Z.mul_comm.
      apply Z.div_mul. lia.
    - change (Zpos m~0) with (2 * Zpos m). rewrite Z.mul_comm.
      apply Z.mod_mul. lia. }
  rewrite Hm2. unfold pack.
  destruct (Z.ltb_spec (Zpos m) (2 ^ 53)); [| lia].
  replace (e - -52 - 53 + 1) with e by lia.
  destruct (Z.leb_spec e 971); [| lia].
  rewrite Pos2Z.id. reflexivity.
Qed.

Lemma modest_inv (fc : float) :
  modest fc ->
  exists m e, fc = S754_finite false m e /\ normal53 m /\ -52 <= e <= -46.
Proof.
  intros (Hv & Hlo & Hhi).
  destruct fc as [s | s | | s m e]; try discriminate.
  - destruct s; discriminate.
  - destruct s; [discriminate |].
    exists m, e. split; [reflexivity |].
    assert (He : -52 <= e <= -46).
    { unfold F64.leb, SFleb, SFcompare, F64.one in Hlo, Hhi.
      split.
      - destruct (Z.compare_spec (-52) e); try lia; discriminate.
      - destruct (Z.compare_spec e (-46)); try lia; discriminate. }
    split; [| assumption].
    apply (valid_normal false m e Hv). lia.
Qed.

(** The product of a baseline mean and a modest fold change is a normal
    number below [2^19]. *)
Lemma mul_modest_normal (mu fc : float) :
  baseline mu -> modest fc ->
  exists m e, F64.mul mu fc = S754_finite false m e /\ normal53 m /\
              -47 <= e <= -34.
Proof.
  intros Hmu Hfc.
  apply baseline_inv in Hmu as (mx & ex & -> & Hex & Hmx).
  apply modest_inv in Hfc as (my & ey & -> & Hmy & Hey).
  unfold F64.mul, SFmul, F64.prec, F64.emax. cbn [xorb].
  pose proof (digits_product mx my Hmx Hmy) as Hd.
  destruct (round_aux_normal false (mx * my) (ex + ey) loc_Exact)
    as (m2 & Hm2 & _ & Hm1 & ->); [lia | lia |].
  set (d := Zpos (digits2_pos (mx * my))) in *.
  unfold pack.
  destruct (Z.ltb_spec m2 (2 ^ 53)).
  - destruct (Z.leb_spec (ex + ey + (d - 53)) 971); [| lia].
    exists (Z.to_pos m2), (ex + ey + (d - 53)).
    split; [reflexivity |]. unfold normal53. rewrite Z2Pos.id by lia. lia.
  - destruct (Z.leb_spec (ex + ey + (d - 53) + 1) 971); [| lia].
    exists (Z.to_pos (2 ^ 52)), (ex + ey + (d - 53) + 1).
    split; [reflexivity |]. unfold normal53.
    change (Zpos (Z.to_pos (2 ^ 52))) with (2 ^ 52). lia.
Qed.

(** The quotient of a baseline mean by a modest fold change is a normal
    number. *)
Lemma div_modest_normal (mu fc : float) :
  baseline mu -> modest fc ->
  exists m e, F64.div mu fc = S754_finite false m e /\ normal53 m /\
              -54 <= e <= -41.
Proof.
  intros Hmu Hfc.
  apply baseline_inv in Hmu as (mx & ex & -> & Hex & Hmx).
  apply modest_inv in Hfc as (my & ey & -> & Hmy & Hey).
  unfold F64.div, SFdiv, F64.prec, F64.emax. cbn [xorb].
  rewrite div_core_normal by (assumption || lia).
  unfold normal53 in Hmx, Hmy.
  set (A := Zpos mx) in *. set (B := Zpos my) in *.
  set (q := A * 2 ^ 53 / B).
  assert (Hq : 2 ^ 52 <= q < 2 ^ 54).
  { subst q. split.
    - apply Z.div_le_lower_bound; lia.
    - apply Z.div_lt_upper_bound; lia. }
  destruct q as [| pq | pq] eqn:Eq; try lia.
  assert (Hd : 53 <= Zpos (digits2_pos pq) <= 54).
  { split.
    - apply (digits_ge pq 52). lia.
    - apply (digits_le pq 54); lia. }
  destruct (round_aux_normal false pq (ex - ey - 53)
              (new_location B ((A * 2 ^ 53) mod B)))
    as (m2 & Hm2 & _ & Hm1 & ->); [lia | lia |].
  set (dq := Zpos (digits2_pos pq)) in *.
  unfold pack.
  destruct (Z.ltb_spec m2 (2 ^ 53)).
  - destruct (Z.leb_spec (ex - ey - 53 + (dq - 53)) 971); [| lia].
    exists (Z.to_pos m2), (ex - ey - 53 + (dq - 53)).
    split; [reflexivity |]. unfold normal53. rewrite Z2Pos.id by lia. lia.
  - destruct (Z.leb_spec (ex - ey - 53 + (dq - 53) + 1) 971); [| lia].
    exists (Z.to_pos (2 ^ 52)), (ex - ey - 53 + (dq - 53) + 1).
    split; [reflexivity |]. unfold normal53.
    change (Zpos (Z.to_pos (2 ^ 52))) with (2 ^ 52). lia.
Qed.

(** The sum of two positive normal numbers is infinite, or a normal
    number no smaller than the first operand. *)
Lemma add_normal (ms : positive) (es : Z) (mm : positive) (em : Z) :
  normal53 ms -> -1074 <= es -> normal53 mm -> -1074 <= em ->
  F64.add (S754_finite false ms es) (S754_finite false mm em)
    = S754_infinity false \/
  exists m' e',
    F64.add (S754_finite false ms es) (S754_finite false mm em)
      = S754_finite false m' e' /\
    normal53 m' /\ (es < e' \/ (es = e' /\ Zpos ms <= Zpos m')) /\
    e' <= Z.max es em + 2.
Proof.
  intros Hms Hes Hmm Hem.
  unfold normal53 in Hms, Hmm.
  unfold F64.add, SFadd, F64.prec, F64.emax. cbn [cond_Zopp].
  set (ez := Z.min es em).
  assert (Hez : ez <= es /\ ez <= em /\ -1074 <= ez) by (subst ez; lia).
  rewrite !shl_align_value by lia.
  assert (Ps : 0 < 2 ^ (es - ez)) by (apply Z.pow_pos_nonneg; lia).
  assert (Pm : 0 < 2 ^ (em - ez)) by (apply Z.pow_pos_nonneg; lia).
  set (mx := Z.max es em).
  assert (Hmx : es <= mx /\ em <= mx /\ mx <= Z.max es em)
    by (subst mx; lia).
  assert (Pmx : 2 ^ (es - ez) <= 2 ^ (mx - ez) /\
                2 ^ (em - ez) <= 2 ^ (mx - ez))
    by (split; apply Z.pow_le_mono_r; lia).
  clearbody ez mx.
  remember (Zpos ms * 2 ^ (es - ez) + Zpos mm * 2 ^ (em - ez)) as M eqn:EM.
  assert (A1 : 2 ^ 52 * 2 ^ (es - ez) <= Zpos ms * 2 ^ (es - ez))
    by (apply Z.mul_le_mono_nonneg_r; lia).
  assert (A2 : 0 < Zpos mm * 2 ^ (em - ez))
    by (apply Z.mul_pos_pos; lia).
  assert (A3 : Zpos ms * 2 ^ (es - ez) < 2 ^ 53 * 2 ^ (mx - ez)).
  { apply Z.le_lt_trans with (Zpos ms * 2 ^ (mx - ez)).
    - apply Z.mul_le_mono_nonneg_l; lia.
    - apply Z.mul_lt_mono_pos_r; lia. }
  assert (A4 : Zpos mm * 2 ^ (em - ez) < 2 ^ 53 * 2 ^ (mx - ez)).
  { apply Z.le_lt_trans with (Zpos mm * 2 ^ (mx - ez)).
    - apply Z.mul_le_mono_nonneg_l; lia.
    - apply Z.mul_lt_mono_pos_r; lia. }
  assert (HM1 : Zpos ms * 2 ^ (es - ez) <= M) by (clear - EM A2; lia).
  assert (HM0 : 2 ^ (52 + (es - ez)) <= M)
    by (rewrite Z.pow_add_r by lia; clear - A1 HM1; lia).
  assert (HM2 : M < 2 ^ (54 + (mx - ez))).
  { replace (54 + (mx - ez)) with (1 + 53 + (mx - ez)) by lia.
    rewrite !Z.pow_add_r by lia. change (2 ^ 1) with 2.
    clear - EM A3 A4. lia. }
  assert (HMpos : 0 < M) by (clear - HM1 A1 Ps; lia).
  clear EM.
  destruct M as [| pM | pM]; try lia.
  unfold binary_normalize, binary_round.
  pose proof (digits_ge pM _ HM0) as Hd1.
  pose proof (digits_le pM (54 + (mx - ez)) ltac:(lia) HM2) as Hd2.
  pose proof (digits2_pos_bounds pM) as [Dlo Dhi].
  set (d := Zpos (digits2_pos pM)) in *.
  unfold fexp, emin.
  replace (Z.max (d + ez - 53) (3 - 1024 - 53)) with (d + ez - 53) by lia.
  assert (Hsh : shl_align pM ez (d + ez - 53) = (pM, ez)).
  { unfold shl_align. destruct (d + ez - 53 - ez) eqn:E; try reflexivity. lia. }
  rewrite Hsh.
  destruct (round_aux_normal false pM ez loc_Exact)
    as (m2 & Hm2 & _ & Hm1 & ->); fold d; try lia.
  fold d in Hm2, Hm1.
  assert (Hpw : 0 < 2 ^ (d - 53)) by (apply Z.pow_pos_nonneg; lia).
  assert (Hm2' : 2 ^ 52 <= m2 <= 2 ^ 53) by lia.
  assert (Hlow : d - 53 = es - ez -> Zpos ms <= Zpos pM / 2 ^ (d - 53)).
  { intros ->. apply Z.div_le_lower_bound; lia. }
  unfold pack.
  destruct (Z.ltb_spec m2 (2 ^ 53)).
  - destruct (Z.leb_spec (ez + (d - 53)) 971); [right | now left].
    exists (Z.to_pos m2), (ez + (d - 53)).
    split; [reflexivity |]. unfold normal53. rewrite Z2Pos.id by lia.
    split; [lia |]. split; [| lia].
    destruct (Z.eq_dec (d - 53) (es - ez)) as [E | N]; [right | left; lia].
    specialize (Hlow E). split; lia.
  - destruct (Z.leb_spec (ez + (d - 53) + 1) 971); [right | now left].
    exists (Z.to_pos (2 ^ 52)), (ez + (d - 53) + 1).
    split; [reflexivity |]. unfold normal53.
    change (Zpos (Z.to_pos (2 ^ 52))) with (2 ^ 52).
    split; [lia |]. split; [left; lia | lia].
Qed.

(** For a moderate dispersion the sampler accepts the parameters computed
    from any normal mean below [2^19]. *)
Lemma nb_prob_accepted_normal (d : float) (mm : positive) (em : Z) :
  moderate d -> normal53 mm -> -1074 <= em <= -34 ->
  Np.negative_binomial_accepts (F64.div F64.one d)
    (nb_prob (F64.div F64.one d) (S754_finite false mm em)) = true.
Proof.
  intros Hd Hmm Hem.
  destruct (reciprocal_normal d Hd) as (ms & es & -> & Hms & Hes).
  unfold Np.negative_binomial_accepts, nb_prob.
  change (F64.leb (S754_finite false ms es) F64.zero) with false.
  cbn [negb andb].
  destruct (add_normal ms es mm em Hms ltac:(lia) Hmm ltac:(lia))
    as [-> | (m' & e' & -> & Hm' & Hrel & Hup)].
  - reflexivity.
  - destruct (div_at_most_one ms es m' e' Hms Hm' Hrel ltac:(lia))
      as [-> ->].
    reflexivity.
Qed.

(** For a moderate dispersion and a modest fold change the sampler
    accepts the parameters of a gene's treatment mean, whichever way the
    gene is regulated. *)
Lemma treated_mean_accepted (d fc mu : float) :
  moderate d -> modest fc -> baseline mu ->
  Np.negative_binomial_accepts (F64.div F64.one d)
    (nb_prob (F64.div F64.one d) (F64.mul mu fc)) = true /\
  Np.negative_binomial_accepts (F64.div F64.one d)
    (nb_prob (F64.div F64.one d) (F64.div mu fc)) = true.
Proof.
  intros Hd Hfc Hmu. split.
  - destruct (mul_modest_normal mu fc Hmu Hfc) as (m & e & -> & Hm & He).
    apply nb_prob_accepted_normal; (assumption || lia).
  - destruct (div_modest_normal mu fc Hmu Hfc) as (m & e & -> & Hm & He).
    apply nb_prob_accepted_normal; (assumption || lia).
Qed.

(** * Runs on the intended domain *)

Lemma gene_names_supplied (n_genes : Z) (gene_list : option (list string)) :
  (forall l, gene_list = Some l -> l = [] \/ n_genes <= Py.len l) ->
  is_ok (gene_names n_genes gene_list) = true.
Proof.
  intro H. unfold gene_names.
  destruct gene_list as [[| x l] |]; try reflexivity.
  cbn [Py.truthy].
  destruct (H (x :: l) eq_refl) as [E | Hlen]; [discriminate |].
  destruct (Z.ltb_spec (Py.len (x :: l)) n_genes); [lia | reflexivity].
Qed.

Lemma run_completes (R : numpy_random)
    (n_genes n_ctrl n_trt : Z) (de_prop fold_change dispersion : float)
    (seed : Z) (output : string) (gene_list : option (list string))
    (w : world R) :
  numpy_random_ok R ->
  0 < n_genes < 2 ^ 53 -> 0 <= n_ctrl -> 0 <= n_trt ->
  proportion de_prop -> modest fold_change -> moderate dispersion ->
  0 <= seed < 2 ^ 32 ->
  is_ok (gene_names n_genes gene_list) = true ->
  writable w output = true ->
  fst (simulate_counts R n_genes n_ctrl n_trt de_prop fold_change dispersion
         seed output gene_list w) = Ok tt.
Proof.
  intros HR Hn Hc Ht Hp Hfc Hd Hseed Hgl Hw.
  rewrite simulate_counts_unfold.
  assert (Hs : (0 <=? seed) && (seed <? 2 ^ 32) = true).
  { apply andb_true_iff. split; [apply Z.leb_le | apply Z.ltb_lt]; lia. }
  rewrite Hs.
  destruct (prepare_returns R HR n_genes n_ctrl n_trt de_prop fold_change
              gene_list (seeded R seed w) Hn Hp Hgl) as (st & w1 & Hrun).
  rewrite Hrun.
  destruct (prepare_means R HR _ _ _ _ _ _ _ _ _ Hrun)
    as (_ & _ & _ & _ & Lc & Hb & Lt & Hmt).
  pose proof Hrun as Hinv.
  apply prepare_ok_inv in Hinv
    as (? & ? & ? & ? & Hgs & Hcs & Hts & _ & _ & _ & _ & _ & _ & _ & _ & Hw1).
  apply sample_and_write_returns; try assumption; try lia.
  - apply moderate_inv in Hd as (m & e & -> & _). reflexivity.
  - intros i Hin. unfold Py.range in Hin. apply in_seq in Hin.
    assert (Hbi : baseline (Np.get (mu_ctrl st) i)).
    { rewrite Forall_forall in Hb. apply Hb. unfold Np.get.
      apply nth_In. lia. }
    split; [now apply nb_prob_accepted |].
    rewrite Hmt by lia.
    destruct (treated_mean_accepted dispersion fold_change
                (Np.get (mu_ctrl st) i) Hd Hfc Hbi) as [Hup Hdown].
    destruct (Np.mem i (up_indices st)); [exact Hup |].
    destruct (Np.mem i (down_indices st)); [exact Hdown |].
    now apply nb_prob_accepted.
  - apply (gene_names_length n_genes gene_list); [lia | exact Hgs].
  - rewrite Hcs, Hts. unfold Py.len.
    rewrite length_app, !numbered_length. lia.
  - rewrite Hw1. exact Hw.
Qed.

(** X1: on its intended domain the generator completes. For a gene count
    below [2^53], sample counts that are not negative, a DE proportion
    in [[0, 1]], a fold change from 1 to 64, a dispersion between
    [2^-1000] and [2^1000], a seed of 32 bits, a gene list that is absent,
    empty or long enough, and an output path that can be written, the run
    returns. *)
Theorem realistic_run_completes (R : numpy_random)
    (n_genes n_ctrl n_trt : Z) (de_prop fold_change dispersion : float)
    (seed : Z) (output : string) (gene_list : option (list string))
    (w : world R) :
  numpy_random_ok R ->
  0 < n_genes < 2 ^ 53 -> 0 <= n_ctrl -> 0 <= n_trt ->
  proportion de_prop -> modest fold_change -> moderate dispersion ->
  0 <= seed < 2 ^ 32 ->
  (forall l, gene_list = Some l -> l = [] \/ n_genes <= Py.len l) ->
  writable w output = true ->
  fst (simulate_counts R n_genes n_ctrl n_trt de_prop fold_change dispersion
         seed output gene_list w) = Ok tt.
Proof.
  intros HR Hn Hc Ht Hp Hfc Hd Hseed Hgl Hw.
  apply run_completes; try assumption.
  now apply gene_names_supplied.
Qed.

Lemma realistic_run_completes_witness :
  fst (simulate_counts Toy.gen 4 2 1 Demo.f0_5 Demo.f4 Demo.f0_3 42
         "out.tsv" None Toy.world0) = Ok tt.
Proof.
  apply realistic_run_completes.
  - exact toy_gen_ok.
  - lia.
  - lia.
  - lia.
  - repeat split; reflexivity.
  - repeat split; reflexivity.
  - repeat split; reflexivity.
  - lia.
  - discriminate.
  - reflexivity.
Defined.
(** * What a run leaves behind *)

Lemma find_filter_other (path other : string) (l : list (string * string)) :
  other <> path ->
  find (fun kv => String.eqb (fst kv) other)
    (filter (fun kv => negb (String.eqb (fst kv) path)) l)
  = find (fun kv => String.eqb (fst kv) other) l.
Proof.
  intro Hne. induction l as [| [k v] l IH]; [reflexivity |].
  cbn [filter find fst].
  destruct (String.eqb_spec k path) as [-> | Hk]; cbn [negb].
  - destruct (String.eqb_spec path other) as [E | _]; [congruence | exact IH].
  - cbn [find fst]. destruct (String.eqb k other); [reflexivity | exact IH].
Qed.

(** The second half of a returning run writes the file and prints the
    closing line, and nothing else. *)
Lemma sample_and_write_effects (R : numpy_random) (st : locals)
    (n_genes n_ctrl n_trt : Z) (dispersion : float) (output : string)
    (w w' : world R) :
  sample_and_write R st n_genes n_ctrl n_trt dispersion output w
    = (Ok tt, w') ->
  writable w output = true /\
  stdout w' =
    stdout w ++ [("Simulation complete. File saved to: " ++ output)%string] /\
  exists content,
    read_file R output w' = Some content /\
    forall other, other <> output ->
      read_file R other w' = read_file R other w.
Proof.
  unfold sample_and_write, bind, lift. intro H.
  destruct (Py.truediv F64.one dispersion) as [size | e]; [| discriminate].
  destruct (np_zeros n_genes (n_ctrl + n_trt)); [| discriminate].
  destruct (sample_rows R size (mu_ctrl st) (mu_trt st) n_ctrl n_trt
              (Py.range n_genes) w) as [[counts | e] w1] eqn:Es;
    [| discriminate].
  apply sample_rows_draws in Es as (_ & _ & _ & _ & Hf & Hw & Hs & _).
  destruct (pd_DataFrame n_genes (n_ctrl + n_trt) counts (genes st)
              (ctrl_samples st ++ trt_samples st)) as [df | e];
    [| discriminate].
  unfold to_csv, print in H.
  destruct (writable w1 output) eqn:Ew; [| discriminate].
  injection H as <-.
  split; [now rewrite <- Hw |].
  split; [cbn [stdout write_file]; now rewrite Hs |].
  exists (Csv.to_csv (ascii_of_nat 9) df). split.
  - unfold read_file. cbn [files write_file find fst].
    now rewrite String.eqb_refl.
  - intros other Hne. unfold read_file. cbn [files write_file find fst].
    destruct (String.eqb_spec output other) as [E | _]; [congruence |].
    rewrite find_filter_other by assumption. now rewrite Hf.
Qed.

Lemma output_frame (R : numpy_random) (n_genes n_ctrl n_trt : Z)
    (de_prop fold_change dispersion : float) (seed : Z) (output : string)
    (gene_list : option (list string)) (w : world R) :
  let run :=
    simulate_counts R n_genes n_ctrl n_trt de_prop fold_change dispersion
      seed output gene_list w in
  match fst run with
  | Ok _ =>
      writable w output = true /\
      stdout (snd run) =
        stdout w ++
        [("Simulation complete. File saved to: " ++ output)%string] /\
      (exists content, read_file R output (snd run) = Some content) /\
      (forall other, other <> output ->
         read_file R other (snd run) = read_file R other w)
  | Raise _ => files (snd run) = files w /\ stdout (snd run) = stdout w
  end.
Proof.
  intro run. subst run. rewrite simulate_counts_unfold.
  destruct ((0 <=? seed) && (seed <? 2 ^ 32)); [| split; reflexivity].
  destruct (prepare R n_genes n_ctrl n_trt de_prop fold_change gene_list
              (seeded R seed w)) as [[st | e] w1] eqn:Ep;
    apply prepare_draws in Ep as (_ & _ & _ & _ & _ & Hf & Hw & Hs & _);
    cbn [files writable stdout seeded log set_rng] in Hf, Hw, Hs.
  2:{ cbn [fst snd]. split; assumption. }
  destruct (sample_and_write R st n_genes n_ctrl n_trt dispersion output w1)
    as [[[] | e] w2] eqn:Es; cbn [fst snd].
  - apply sample_and_write_effects in Es as (Hwr & Hout & c & Hc & Hoth).
    split; [now rewrite <- Hw |].
    split; [now rewrite Hout, Hs |].
    split; [now exists c |].
    intros other Hne. rewrite (Hoth other Hne).
    unfold read_file. now rewrite Hf.
  - apply sample_and_write_draws in Es as (_ & _ & _ & _ & _ & _ & Hfail).
    destruct (Hfail eq_refl) as [Hf2 Hs2].
    split; congruence.
Qed.
(** X2: a run writes its output all at once or not at all. A run that
    returns has printed its one closing line, has written the file at
    [output] and has left every other file as it was; a run that raises
    has written no file and printed nothing. *)
Theorem output_all_or_nothing (R : numpy_random) (n_genes n_ctrl n_trt : Z)
    (de_prop fold_change dispersion : float) (seed : Z) (output : string)
    (gene_list : option (list string)) (w : world R) :
  let run :=
    simulate_counts R n_genes n_ctrl n_trt de_prop fold_change dispersion
      seed output gene_list w in
  match fst run with
  | Ok _ =>
      writable w output = true /\
      stdout (snd run) =
        stdout w ++
        [("Simulation complete. File saved to: " ++ output)%string] /\
      (exists content, read_file R output (snd run) = Some content) /\
      (forall other, other <> output ->
         read_file R other (snd run) = read_file R other w)
  | Raise _ => files (snd run) = files w /\ stdout (snd run) = stdout w
  end.
Proof.
  apply output_frame.
Qed.

(** * Genes outside the DE subset *)

(** X3: the genes that are not selected keep their baseline mean. The
    selected indices and [non_de_indices] split [range(n_genes)] in two,
    there are [n_genes - n_de] genes that are not selected, and the
    treatment mean of each of them is its control mean. *)
Theorem non_de_genes_keep_baseline (R : numpy_random)
    (n_genes n_ctrl n_trt : Z) (de_prop fold_change : float)
    (gene_list : option (list string)) (w w' : world R) (st : locals) :
  numpy_random_ok R ->
  prepare R n_genes n_ctrl n_trt de_prop fold_change gene_list w
    = (Ok st, w') ->
  Permutation (de_indices st ++ non_de_indices n_genes (de_indices st))
    (Py.range n_genes) /\
  Py.len (non_de_indices n_genes (de_indices st)) = n_genes - n_de st /\
  (forall g, In g (non_de_indices n_genes (de_indices st)) ->
     Np.get (mu_trt st) g = Np.get (mu_ctrl st) g).
Proof.
  intros HR Hrun.
  destruct (prepare_means R HR _ _ _ _ _ _ _ _ _ Hrun)
    as (Hk & Hlen & Hnd & Hrg & _).
  rewrite Forall_forall in Hrg.
  assert (Hperm : Permutation
            (de_indices st ++ non_de_indices n_genes (de_indices st))
            (Py.range n_genes)).
  { apply NoDup_Permutation.
    - apply NoDup_app; [assumption | apply NoDup_filter, seq_NoDup |].
      intros g Hin Hin'. apply filter_In in Hin' as [_ Hm].
      apply negb_true_iff, mem_not_In in Hm. contradiction.
    - apply seq_NoDup.
    - intro g. rewrite in_app_iff. unfold non_de_indices, Py.range.
      rewrite filter_In, in_seq. split.
      + intros [Hin | [Hin _]]; [specialize (Hrg g Hin); lia | lia].
      + intro Hg. destruct (Np.mem g (de_indices st)) eqn:Em.
        * left. now apply mem_In.
        * right. split; [lia | reflexivity]. }
  split; [exact Hperm |]. split.
  - apply Permutation_length in Hperm.
    rewrite length_app in Hperm. unfold Py.range in Hperm.
    rewrite length_seq in Hperm. unfold Py.len. lia.
  - intros g Hin. apply filter_In in Hin as [Hg Hm].
    unfold Py.range in Hg. apply in_seq in Hg.
    apply negb_true_iff, mem_not_In in Hm.
    apply (mu_trt_at R HR _ _ _ _ _ _ _ _ _ Hrun g); [lia | exact Hm].
Qed.

Lemma non_de_genes_keep_baseline_witness :
  Permutation
    (de_indices Demo.odd_st ++ non_de_indices 10 (de_indices Demo.odd_st))
    (Py.range 10) /\
  Py.len (non_de_indices 10 (de_indices Demo.odd_st)) = 10 - n_de Demo.odd_st /\
  (forall g, In g (non_de_indices 10 (de_indices Demo.odd_st)) ->
     Np.get (mu_trt Demo.odd_st) g = Np.get (mu_ctrl Demo.odd_st) g).
Proof.
  apply (non_de_genes_keep_baseline Toy.gen 10 2 1 Demo.f0_3 Demo.f4 None
           Toy.world0 Demo.odd_world Demo.odd_st).
  - exact toy_gen_ok.
  - vm_compute; reflexivity.
Defined.

(** X4: a fold change of 1.0 changes nothing: multiplying and dividing a
    baseline mean by 1.0 are exact, so every treatment mean is the
    control mean. *)
Theorem unit_fold_change_changes_nothing (R : numpy_random)
    (n_genes n_ctrl n_trt : Z) (de_prop : float)
    (gene_list : option (list string)) (w w' : world R) (st : locals) :
  numpy_random_ok R ->
  prepare R n_genes n_ctrl n_trt de_prop F64.one gene_list w
    = (Ok st, w') ->
  mu_trt st = mu_ctrl st.
Proof.
  intros HR Hrun.
  destruct (prepare_means R HR _ _ _ _ _ _ _ _ _ Hrun)
    as (_ & _ & _ & _ & Lc & Hb & Lt & Hmt).
  apply (nth_ext _ _ S754_nan S754_nan);
    [transitivity (Z.to_nat n_genes); [exact Lt | symmetry; exact Lc] |].
  intros g Hg. assert (Hg' : (g < Z.to_nat n_genes)%nat)
    by (rewrite <- Lt; exact Hg). clear Hg. rename Hg' into Hg.
  specialize (Hmt g Hg).
  change (Np.get (mu_trt st) g = Np.get (mu_ctrl st) g). rewrite Hmt.
  assert (Hbg : baseline (Np.get (mu_ctrl st) g)).
  { rewrite Forall_forall in Hb. apply Hb. unfold Np.get. apply nth_In. lia. }
  apply baseline_inv in Hbg as (m & e & -> & He & Hm).
  rewrite mul_one_normal, div_one_normal by (assumption || lia).
  destruct (Np.mem g (up_indices st)), (Np.mem g (down_indices st));
    reflexivity.
Qed.

Lemma unit_fold_change_changes_nothing_witness :
  mu_trt (Demo.locals_of
            (fst (prepare Toy.gen 10 2 1 Demo.f0_3 F64.one None Toy.world0)))
  = mu_ctrl (Demo.locals_of
               (fst (prepare Toy.gen 10 2 1 Demo.f0_3 F64.one None
                       Toy.world0))).
Proof.
  apply (unit_fold_change_changes_nothing Toy.gen 10 2 1 Demo.f0_3 None
           Toy.world0
           (snd (prepare Toy.gen 10 2 1 Demo.f0_3 F64.one None Toy.world0))).
  - exact toy_gen_ok.
  - vm_compute; reflexivity.
Defined.
(** * Arguments outside the intended domain *)

(** X5: a DE proportion whose count [int(n_genes * de_prop)] is negative
    or above [n_genes], or is no number at all, stops the run right after
    the seeding: nothing has been drawn, written or printed. The error is
    a [ValueError], but for an infinite product, which [int] refuses with
    an [OverflowError]. *)
Theorem bad_de_proportion_rejected (R : numpy_random)
    (n_genes n_ctrl n_trt : Z) (de_prop fold_change dispersion : float)
    (seed : Z) (output : string) (gene_list : option (list string))
    (w : world R) :
  0 < n_genes < 2 ^ 53 -> 0 <= seed < 2 ^ 32 ->
  (forall l, gene_list = Some l -> l = [] \/ n_genes <= Py.len l) ->
  (forall k, F64.trunc (F64.mul (F64.of_Z n_genes) de_prop) = Some k ->
     k < 0 \/ n_genes < k) ->
  exists e,
    simulate_counts R n_genes n_ctrl n_trt de_prop fold_change dispersion
      seed output gene_list w = (Raise e, seeded R seed w) /\
    match F64.trunc (F64.mul (F64.of_Z n_genes) de_prop) with
    | Some _ => exists msg, e = ValueError msg
    | None =>
        e = if F64.is_nan (F64.mul (F64.of_Z n_genes) de_prop)
            then ValueError "cannot convert float NaN to integer"
            else OverflowError "cannot convert float infinity to integer"
    end.
Proof.
  intros Hn Hseed Hgl Hk.
  apply gene_names_supplied in Hgl.
  rewrite simulate_counts_unfold.
  assert (Hs : (0 <=? seed) && (seed <? 2 ^ 32) = true).
  { apply andb_true_iff. split; [apply Z.leb_le | apply Z.ltb_lt]; lia. }
  rewrite Hs. unfold prepare, bind, lift.
  destruct (gene_names n_genes gene_list) as [gs | e0]; [| discriminate].
  destruct (of_Z_exact n_genes Hn) as (mn & en & Eof & _).
  unfold Py.mul_int_float, Py.int. rewrite Eof in *.
  set (product := F64.mul (S754_finite false mn en) de_prop) in *.
  destruct (F64.trunc product) as [k |] eqn:Et.
  - destruct (Hk k eq_refl) as [Hneg | Hbig].
    + unfold np_random_choice.
      destruct (Z.leb_spec n_genes 0); [lia |]. cbn [andb].
      destruct (Z.ltb_spec n_genes k); [lia |].
      destruct (Z.ltb_spec k 0); [| lia].
      eexists. split; [reflexivity |]. eexists. reflexivity.
    + unfold np_random_choice.
      destruct (Z.leb_spec n_genes 0); [lia |]. cbn [andb].
      destruct (Z.ltb_spec n_genes k); [| lia].
      eexists. split; [reflexivity |]. eexists. reflexivity.
  - destruct (F64.is_nan product); eexists; split; reflexivity.
Qed.

Lemma bad_de_proportion_rejected_witness :
  exists e,
    simulate_counts Toy.gen 2 1 1 (F64.of_ratio 3 2) Demo.f4 Demo.f0_3 42
      "out.tsv" None Toy.world0 = (Raise e, seeded Toy.gen 42 Toy.world0) /\
    match F64.trunc (F64.mul (F64.of_Z 2) (F64.of_ratio 3 2)) with
    | Some _ => exists msg, e = ValueError msg
    | None =>
        e = if F64.is_nan (F64.mul (F64.of_Z 2) (F64.of_ratio 3 2))
            then ValueError "cannot convert float NaN to integer"
            else OverflowError "cannot convert float infinity to integer"
    end.
Proof.
  apply bad_de_proportion_rejected.
  - lia.
  - lia.
  - discriminate.
  - intros k Hk. vm_compute in Hk. injection Hk as <-. right. lia.
Defined.

(** X6: a negative number of control or of treatment samples makes every
    run on at least one gene fail: no table with a negative number of
    columns is ever written. *)
Theorem negative_sample_count_rejected (R : numpy_random)
    (n_genes n_ctrl n_trt : Z) (de_prop fold_change dispersion : float)
    (seed : Z) (output : string) (gene_list : option (list string))
    (w : world R) :
  0 < n_genes -> n_ctrl < 0 \/ n_trt < 0 ->
  let run :=
    simulate_counts R n_genes n_ctrl n_trt de_prop fold_change dispersion
      seed output gene_list w in
  is_ok (fst run) = false /\ files (snd run) = files w /\
  stdout (snd run) = stdout w.
Proof.
  intros Hn Hneg run.
  assert (Hfail : is_ok (fst run) = false).
  { subst run. rewrite simulate_counts_unfold.
    destruct ((0 <=? seed) && (seed <? 2 ^ 32)); [| reflexivity].
    destruct (prepare R n_genes n_ctrl n_trt de_prop fold_change gene_list
                (seeded R seed w)) as [[st | e] w1]; [| reflexivity].
    unfold sample_and_write, bind, lift.
    destruct (Py.truediv F64.one dispersion) as [size | e]; [| reflexivity].
    destruct (np_zeros n_genes (n_ctrl + n_trt)); [| reflexivity].
    unfold Py.range.
    destruct (Z.to_nat n_genes) as [| n] eqn:En; [lia |].
    cbn [seq sample_rows]. unfold bind at 1.
    unfold np_random_negative_binomial at 1.
    destruct (Np.negative_binomial_accepts size
                (nb_prob size (Np.get (mu_ctrl st) 0))); [| reflexivity].
    cbn [negb].
    destruct (Z.ltb_spec n_ctrl 0); [reflexivity |].
    destruct (rng_negative_binomial R size
                (nb_prob size (Np.get (mu_ctrl st) 0)) (Z.to_nat n_ctrl)
                (rng w1)) as [c s1].
    unfold bind at 1. unfold np_random_negative_binomial at 1.
    destruct (Np.negative_binomial_accepts size
                (nb_prob size (Np.get (mu_trt st) 0))); [| reflexivity].
    cbn [negb].
    destruct (Z.ltb_spec n_trt 0); [reflexivity | lia]. }
  split; [exact Hfail |].
  pose proof (output_frame R n_genes n_ctrl n_trt de_prop fold_change
                dispersion seed output gene_list w) as Hframe.
  cbv zeta in Hframe. fold run in Hframe.
  destruct (fst run); [discriminate | exact Hframe].
Qed.
Lemma negative_sample_count_rejected_witness :
  is_ok (fst (simulate_counts Toy.gen 2 (-1) 1 Demo.f0_5 Demo.f4 Demo.f0_3
                42 "out.tsv" None Toy.world0)) = false /\
  files (snd (simulate_counts Toy.gen 2 (-1) 1 Demo.f0_5 Demo.f4 Demo.f0_3
                42 "out.tsv" None Toy.world0)) = files Toy.world0 /\
  stdout (snd (simulate_counts Toy.gen 2 (-1) 1 Demo.f0_5 Demo.f4 Demo.f0_3
                 42 "out.tsv" None Toy.world0)) = stdout Toy.world0.
Proof.
  apply (negative_sample_count_rejected Toy.gen 2 (-1) 1 Demo.f0_5 Demo.f4
           Demo.f0_3 42 "out.tsv" None Toy.world0).
  - lia.
  - left. lia.
Defined.

(** X7: a negative gene count is refused before anything is drawn: the run
    raises, and the world is the one the seeding left, or the one it
    started in when the seed itself is refused. *)
Theorem negative_gene_count_rejected (R : numpy_random)
    (n_genes n_ctrl n_trt : Z) (de_prop fold_change dispersion : float)
    (seed : Z) (output : string) (gene_list : option (list string))
    (w : world R) :
  n_genes < 0 ->
  exists e,
    simulate_counts R n_genes n_ctrl n_trt de_prop fold_change dispersion
      seed output gene_list w
    = (Raise e,
       if (0 <=? seed) && (seed <? 2 ^ 32) then seeded R seed w else w).
Proof.
  intro Hn. rewrite simulate_counts_unfold.
  destruct ((0 <=? seed) && (seed <? 2 ^ 32)); [| eexists; reflexivity].
  unfold prepare, bind, lift.
  destruct (gene_names n_genes gene_list) as [gs | e0];
    [| eexists; reflexivity].
  destruct (Py.mul_int_float n_genes de_prop) as [x | e0];
    [| eexists; reflexivity].
  destruct (Py.int x) as [k | e0]; [| eexists; reflexivity].
  unfold np_random_choice.
  destruct (Z.leb_spec n_genes 0); [| lia]. cbn [andb].
  destruct (Z.eqb_spec k 0) as [-> | Hk]; cbn [negb].
  - destruct (Z.ltb_spec n_genes 0); [| lia]. eexists; reflexivity.
  - eexists; reflexivity.
Qed.

Lemma negative_gene_count_rejected_witness :
  exists e,
    simulate_counts Toy.gen (-3) 2 1 Demo.f0_5 Demo.f4 Demo.f0_3 42
      "out.tsv" None Toy.world0
    = (Raise e, seeded Toy.gen 42 Toy.world0).
Proof.
  apply (negative_gene_count_rejected Toy.gen (-3) 2 1 Demo.f0_5 Demo.f4
           Demo.f0_3 42 "out.tsv" None Toy.world0).
  lia.
Defined.

(** * Gene names *)

(** X9: only the first [n_genes] names of a gene list count. A list that
    is long enough labels the rows with its first [n_genes] names, in
    order, and two lists that agree on these names give the same run. *)
Theorem gene_list_extra_names_ignored (R : numpy_random)
    (n_genes n_ctrl n_trt : Z) (de_prop fold_change dispersion : float)
    (seed : Z) (output : string) (l1 l2 : list string) (w : world R) :
  0 < n_genes -> n_genes <= Py.len l1 -> n_genes <= Py.len l2 ->
  firstn (Z.to_nat n_genes) l1 = firstn (Z.to_nat n_genes) l2 ->
  gene_names n_genes (Some l1) = Ok (firstn (Z.to_nat n_genes) l1) /\
  simulate_counts R n_genes n_ctrl n_trt de_prop fold_change dispersion
    seed output (Some l1) w
  = simulate_counts R n_genes n_ctrl n_trt de_prop fold_change dispersion
      seed output (Some l2) w.
Proof.
  intros Hn H1 H2 Heq.
  assert (Hg : forall l, n_genes <= Py.len l ->
            gene_names n_genes (Some l) = Ok (firstn (Z.to_nat n_genes) l)).
  { intros l Hl. unfold gene_names.
    destruct l as [| x l]; [unfold Py.len in Hl; cbn in Hl; lia |].
    cbn [Py.truthy].
    destruct (Z.ltb_spec (Py.len (x :: l)) n_genes); [lia |].
    unfold Py.slice_to. destruct (Z.leb_spec 0 n_genes); [reflexivity | lia]. }
  split; [now apply Hg |].
  unfold simulate_counts, prepare.
  now rewrite (Hg l1 H1), (Hg l2 H2), Heq.
Qed.

Lemma gene_list_extra_names_ignored_witness :
  gene_names 2 (Some ["TP53"; "BRCA1"; "EGFR"]%string)
    = Ok ["TP53"; "BRCA1"]%string /\
  simulate_counts Toy.gen 2 1 1 Demo.f0_5 Demo.f4 Demo.f0_3 42 "out.tsv"
    (Some ["TP53"; "BRCA1"; "EGFR"]%string) Toy.world0
  = simulate_counts Toy.gen 2 1 1 Demo.f0_5 Demo.f4 Demo.f0_3 42 "out.tsv"
      (Some ["TP53"; "BRCA1"; "MYC"; "KRAS"]%string) Toy.world0.
Proof.
  apply (gene_list_extra_names_ignored Toy.gen 2 1 1 Demo.f0_5 Demo.f4
           Demo.f0_3 42 "out.tsv" ["TP53"; "BRCA1"; "EGFR"]%string
           ["TP53"; "BRCA1"; "MYC"; "KRAS"]%string Toy.world0).
  - lia.
  - vm_compute; discriminate.
  - vm_compute; discriminate.
  - reflexivity.
Defined.
(** * No gene at all *)

(** X8: with [n_genes = 0] the run completes without drawing any count,
    and the file it writes holds the header line only. *)
Theorem zero_genes_header_only (R : numpy_random) (n_ctrl n_trt : Z)
    (de_prop fold_change dispersion : float) (seed : Z) (output : string)
    (gene_list : option (list string)) (w : world R) :
  numpy_random_ok R ->
  0 <= seed < 2 ^ 32 -> 0 <= n_ctrl -> 0 <= n_trt ->
  isfinite de_prop = true -> F64.is_zero dispersion = false ->
  writable w output = true ->
  exists w',
    simulate_counts R 0 n_ctrl n_trt de_prop fold_change dispersion seed
      output gene_list w = (Ok tt, w') /\
    read_file R output w' =
      Some (Csv.row (ascii_of_nat 9)
              (EmptyString :: numbered "ctrl_" n_ctrl ++ numbered "trt_" n_trt))
    /\
    draws w' =
      draws w ++ [Seeded seed; DrawChoice 0 0; DrawUniform F64.c50 F64.c2000 0].
Proof.
  intros HR Hseed Hc Ht Hfin Hz Hw.
  rewrite simulate_counts_unfold.
  assert (Hs : (0 <=? seed) && (seed <? 2 ^ 32) = true).
  { apply andb_true_iff. split; [apply Z.leb_le | apply Z.ltb_lt]; lia. }
  rewrite Hs.
  assert (Hg : gene_names 0 gene_list = Ok []).
  { unfold gene_names. destruct gene_list as [[| x l] |]; reflexivity. }
  assert (Hx : Py.mul_int_float 0 de_prop = Ok (F64.mul F64.zero de_prop))
    by reflexivity.
  assert (Hi : Py.int (F64.mul F64.zero de_prop) = Ok 0).
  { destruct de_prop as [s | s | | s m e]; try discriminate; reflexivity. }
  destruct (prepare_without_de R HR 0 n_ctrl n_trt de_prop fold_change
              gene_list (seeded R seed w) _ ltac:(lia)
              ltac:(now rewrite Hg) Hx Hi)
    as (st & w1 & Hrun & Hk & Hde & Hmu).
  rewrite Hrun.
  pose proof Hrun as Hinv.
  apply prepare_ok_inv in Hinv
    as (? & ? & ? & ? & Hgs & Hcs & Hts & _ & _ & _ & _ & _ & _ & _ & _ & Hw1).
  rewrite Hg in Hgs. injection Hgs as Hgs.
  unfold sample_and_write, bind, lift, Py.truediv. rewrite Hz.
  unfold np_zeros. change (0 <? 0) with false.
  destruct (Z.ltb_spec (n_ctrl + n_trt) 0); [lia |]. cbn [orb].
  change (Py.range 0) with (@nil nat). cbn [sample_rows]. unfold ret.
  unfold pd_DataFrame. rewrite <- Hgs. cbn [length]. cbn [Z.of_nat Z.eqb negb].
  rewrite Hcs, Hts, length_app, !numbered_length.
  destruct (Z.eqb_spec (Z.of_nat (Z.to_nat n_ctrl + Z.to_nat n_trt))
              (n_ctrl + n_trt)); [| lia].
  cbn [negb]. unfold to_csv, print.
  assert (Hw1' : writable w1 output = true) by (rewrite Hw1; exact Hw).
  rewrite Hw1'. eexists. split; [reflexivity |]. split.
  - unfold read_file. cbn [files write_file find fst].
    rewrite String.eqb_refl. cbn [option_map snd]. f_equal.
    unfold Csv.to_csv. cbn [df_index df_data df_columns combine map].
    cbn [String.concat]. apply string_app_nil_r.
  - cbn [draws write_file]. rewrite Hw1. cbn [draws log set_rng seeded].
    rewrite Hk. rewrite <- !app_assoc. reflexivity.
Qed.

Lemma zero_genes_header_only_witness :
  exists w',
    simulate_counts Toy.gen 0 2 1 Demo.f0_5 Demo.f4 Demo.f0_3 42 "out.tsv"
      None Toy.world0 = (Ok tt, w') /\
    read_file Toy.gen "out.tsv" w' =
      Some (Csv.row (ascii_of_nat 9)
              (EmptyString :: numbered "ctrl_" 2 ++ numbered "trt_" 1)) /\
    draws w' =
      draws Toy.world0 ++
      [Seeded 42; DrawChoice 0 0; DrawUniform F64.c50 F64.c2000 0].
Proof.
  apply (zero_genes_header_only Toy.gen 2 1 Demo.f0_5 Demo.f4 Demo.f0_3 42
           "out.tsv" None Toy.world0).
  - exact toy_gen_ok.
  - lia.
  - lia.
  - lia.
  - reflexivity.
  - reflexivity.
  - reflexivity.
Defined.

(** * Labels and the written text *)

(** What [str] prints, [int] reads back. *)
Lemma int_of_str_str (z : Z) : int_of_str (Py.str z) = Some z.
Proof.
  unfold int_of_str, Py.str.
  rewrite NilZero.isi.
  - cbn [option_map]. now rewrite DecimalZ.of_to.
  - destruct z as [| p | p]; try discriminate.
    cbn [Z.to_int]. intros [= H]. now apply DecimalPos.Unsigned.to_uint_nonnil in H.
  - destruct z as [| p | p]; try discriminate.
    cbn [Z.to_int]. intros [= H]. now apply DecimalPos.Unsigned.to_uint_nonnil in H.
Qed.

Lemma str_inj (a b : Z) : Py.str a = Py.str b -> a = b.
Proof.
  intro H. pose proof (int_of_str_str a) as Ha. rewrite H in Ha.
  rewrite int_of_str_str in Ha. congruence.
Qed.

Lemma append_inj_l (p a b : string) : (p ++ a = p ++ b)%string -> a = b.
Proof.
  induction p as [| c p IH]; [trivial |]. cbn [append]. intros [= H]. auto.
Qed.

Lemma NoDup_map_inj {A B} (f : A -> B) (l : list A) :
  (forall x y, In x l -> In y l -> f x = f y -> x = y) ->
  NoDup l -> NoDup (map f l).
Proof.
  intros Hinj Hnd. induction Hnd as [| a l Hna Hnd IH]; [constructor |].
  cbn [map]. constructor.
  - intro Hin. apply in_map_iff in Hin as (y & Hy & Hin).
    apply Hna. rewrite (Hinj a y) ; [assumption | now left | now right |].
    now symmetry.
  - apply IH. intros x y Hx Hy. apply Hinj; now right.
Qed.

Lemma numbered_NoDup (prefix : string) (n : Z) : NoDup (numbered prefix n).
Proof.
  unfold numbered. apply NoDup_map_inj; [| apply seq_NoDup].
  intros x y _ _ H. apply append_inj_l, str_inj in H. lia.
Qed.

Lemma numbered_In (prefix : string) (n : Z) (s : string) :
  In s (numbered prefix n) -> exists z, s = (prefix ++ Py.str z)%string.
Proof.
  unfold numbered. intro H. apply in_map_iff in H as (i & <- & _).
  now exists (Z.of_nat i + 1).
Qed.
(** X10: the labels of the table are pairwise distinct: the column labels
    always, and the row labels when the gene names are generated. *)
Theorem labels_distinct (R : numpy_random) (n_genes n_ctrl n_trt : Z)
    (de_prop fold_change : float) (gene_list : option (list string))
    (w w' : world R) (st : locals) :
  prepare R n_genes n_ctrl n_trt de_prop fold_change gene_list w
    = (Ok st, w') ->
  NoDup (ctrl_samples st ++ trt_samples st) /\
  (Py.truthy gene_list = false -> NoDup (genes st)).
Proof.
  intro Hrun.
  apply prepare_ok_inv in Hrun
    as (? & ? & ? & ? & Hgs & Hcs & Hts & _).
  split.
  - rewrite Hcs, Hts.
    apply NoDup_app; try apply numbered_NoDup.
    intros s Hc Ht.
    apply numbered_In in Hc as (a & ->). apply numbered_In in Ht as (b & Hb).
    discriminate.
  - intro Hf. unfold gene_names in Hgs. rewrite Hf in Hgs.
    injection Hgs as <-. apply numbered_NoDup.
Qed.

Lemma labels_distinct_witness :
  NoDup (ctrl_samples Demo.odd_st ++ trt_samples Demo.odd_st) /\
  (Py.truthy (@None (list string)) = false -> NoDup (genes Demo.odd_st)).
Proof.
  apply (labels_distinct Toy.gen 10 2 1 Demo.f0_3 Demo.f4 None Toy.world0
           Demo.odd_world Demo.odd_st).
  vm_compute; reflexivity.
Defined.

















(** * The command line *)

(** X15: a genes file that does not exist ends the script with exit
    status 1 and one line on the standard error stream; the simulation
    is not run: the generator is not seeded, nothing is written and
    nothing is printed. *)
Theorem missing_genes_file_exits (R : numpy_random) (a : Cli.args)
    (p : Cli.process R) (path : string) :
  Cli.genes_file a = Some path -> path <> EmptyString ->
  read_file R path (Cli.os p) = None ->
  exists line,
    Cli.main R a p =
      (Cli.Exit 1,
       {| Cli.os := Cli.os p; Cli.stderr := Cli.stderr p ++ [line] |}) /\
    starts_with "Error reading gene file: [Errno 2] No such file" line = true.
Proof.
  intros Hg Hne Hmiss. unfold Cli.main, Cli.load_gene_list, Cli.open_text.
  rewrite Hg. apply truthy_true in Hne. rewrite Hne, Hmiss.
  eexists. split; reflexivity.
Qed.

Lemma missing_genes_file_exits_witness :
  exists line,
    Cli.main Toy.gen three_genes_args
      {| Cli.os := Toy.world0; Cli.stderr := [] |} =
      (Cli.Exit 1, {| Cli.os := Toy.world0; Cli.stderr := [] ++ [line] |}) /\
    starts_with "Error reading gene file: [Errno 2] No such file" line = true.
Proof.
  apply (missing_genes_file_exits Toy.gen _ {| Cli.os := Toy.world0;
           Cli.stderr := [] |} "genes.txt").
  - reflexivity.
  - discriminate.
  - reflexivity.
Defined.

(** X14: a genes file without a name is as good as none. When the path is
    the empty string, or the file holds white space only, the script
    behaves as it does without [--genes_file]: the rows get the generated
    names. *)
Theorem blank_genes_file_is_ignored (R : numpy_random) (a : Cli.args)
    (p : Cli.process R) (path : string) :
  Cli.genes_file a = Some path ->
  path = EmptyString \/
  (exists content,
     read_file R path (Cli.os p) = Some content /\
     all_space content = true) ->
  Cli.main R a p = Cli.main R (Cli.without_genes_file a) p.
Proof.
  intros Hg H. unfold Cli.main, Cli.load_gene_list, Cli.open_text.
  rewrite Hg. cbn [Cli.genes_file Cli.without_genes_file Cli.n_genes
    Cli.n_ctrl Cli.n_trt Cli.de_prop Cli.fold_change Cli.dispersion
    Cli.seed Cli.output].
  destruct H as [-> | (content & Hr & Hs)]; [reflexivity |].
  destruct (Text.truthy path); [| reflexivity].
  rewrite Hr, (gene_lines_blank content Hs). reflexivity.
Qed.
Lemma blank_genes_file_is_ignored_witness :
  Cli.main Toy.gen three_genes_args blank_file_process =
  Cli.main Toy.gen (Cli.without_genes_file three_genes_args)
    blank_file_process.
Proof.
  apply (blank_genes_file_is_ignored Toy.gen three_genes_args
           blank_file_process "genes.txt").
  - reflexivity.
  - right. eexists. split; reflexivity.
Defined.

(** X13: a genes file holding clean names, one per line, with any of the
    three line endings, is loaded as exactly these names, in order. *)
Theorem genes_file_round_trip (R : numpy_random) (a : Cli.args)
    (w : world R) (path ending : string) (names : list string) :
  Cli.genes_file a = Some path -> path <> EmptyString ->
  ending = String Text.lf EmptyString \/
  ending = String Text.cr (String Text.lf EmptyString) \/
  ending = String Text.cr EmptyString ->
  Forall (fun n => Text.clean n = true) names ->
  read_file R path w = Some (Text.one_per_line ending names) ->
  Text.gene_lines (Text.one_per_line ending names) = names /\
  Cli.load_gene_list R a w = Ok (Some names).
Proof.
  intros Hg Hne He Hall Hr.
  pose proof (gene_lines_one_per_line ending names He Hall) as Hl.
  split; [exact Hl |].
  unfold Cli.load_gene_list, Cli.open_text.
  apply truthy_true in Hne. now rewrite Hg, Hne, Hr, Hl.
Qed.

Lemma genes_file_round_trip_witness :
  Text.gene_lines
    (Text.one_per_line (String Text.cr (String Text.lf EmptyString))
       ["TP53"; "BRCA1"; "MT-CO1"]%string)
  = ["TP53"; "BRCA1"; "MT-CO1"]%string /\
  Cli.load_gene_list Toy.gen three_genes_args (Cli.os three_names_process)
  = Ok (Some ["TP53"; "BRCA1"; "MT-CO1"]%string).
Proof.
  apply (genes_file_round_trip Toy.gen three_genes_args
           (Cli.os three_names_process) "genes.txt"
           (String Text.cr (String Text.lf EmptyString))).
  - reflexivity.
  - discriminate.
  - right; left; reflexivity.
  - repeat constructor.
  - reflexivity.
Defined.


(** X17: the script's default arguments are on the generator's intended
    domain: with an empty command line the script ends with status 0 as
    soon as [simulated_counts.tsv] can be written, and of its 18000 genes
    1800 are selected, 900 upregulated and 900 downregulated. *)
Theorem defaults_run_completes (R : numpy_random) (p : Cli.process R) :
  numpy_random_ok R ->
  writable (Cli.os p) "simulated_counts.tsv" = true ->
  fst (Cli.main R Cli.defaults p) = Cli.Exit 0 /\
  exists st w1,
    prepare R 18000 5 5 (Cli.de_prop Cli.defaults)
      (Cli.fold_change Cli.defaults) None (seeded R 42 (Cli.os p))
      = (Ok st, w1) /\
    n_de st = 1800 /\
    Py.len (up_indices st) = 900 /\ Py.len (down_indices st) = 900.
Proof.
  intros HR Hw.
  assert (Hp : proportion Demo.f0_1) by (repeat split; reflexivity).
  assert (Hfc : modest Demo.f4) by (repeat split; reflexivity).
  assert (Hd : moderate Demo.f0_3) by (repeat split; reflexivity).
  split.
  - unfold Cli.main. cbn [Cli.load_gene_list Cli.genes_file Cli.defaults].
    pose proof (run_completes R 18000 5 5 Demo.f0_1 Demo.f4 Demo.f0_3 42
                  "simulated_counts.tsv" None (Cli.os p) HR ltac:(lia)
                  ltac:(lia) ltac:(lia) Hp Hfc Hd ltac:(lia) eq_refl Hw)
      as Hrun.
    cbn [Cli.n_genes Cli.n_ctrl Cli.n_trt Cli.de_prop Cli.fold_change
         Cli.dispersion Cli.seed Cli.output Cli.defaults].
    destruct (simulate_counts R 18000 5 5 Demo.f0_1 Demo.f4 Demo.f0_3 42
                "simulated_counts.tsv" None (Cli.os p)) as [[u | e] w'];
      [reflexivity | discriminate].
  - cbn [Cli.de_prop Cli.fold_change Cli.defaults].
    destruct (prepare_returns R HR 18000 5 5 Demo.f0_1 Demo.f4 None
                (seeded R 42 (Cli.os p)) ltac:(lia) Hp eq_refl)
      as (st & w1 & Hrun).
    exists st, w1. split; [exact Hrun |].
    pose proof (n_de_value R _ _ _ _ _ _ _ _ _ Hrun) as Hv.
    assert (Hk : n_de st = 1800).
    { vm_compute in Hv. now injection Hv. }
    split; [exact Hk |].
    rewrite (up_length R HR _ _ _ _ _ _ _ _ _ Hrun).
    rewrite (down_length R HR _ _ _ _ _ _ _ _ _ Hrun).
    rewrite Hk. split; reflexivity.
Qed.

Lemma defaults_run_completes_witness :
  fst (Cli.main Toy.gen Cli.defaults
         {| Cli.os := Toy.world0; Cli.stderr := [] |}) = Cli.Exit 0 /\
  exists st w1,
    prepare Toy.gen 18000 5 5 (Cli.de_prop Cli.defaults)
      (Cli.fold_change Cli.defaults) None (seeded Toy.gen 42 Toy.world0)
      = (Ok st, w1) /\
    n_de st = 1800 /\
    Py.len (up_indices st) = 900 /\ Py.len (down_indices st) = 900.
Proof.
  apply (defaults_run_completes Toy.gen
           {| Cli.os := Toy.world0; Cli.stderr := [] |}).
  - exact toy_gen_ok.
  - reflexivity.
Defined.
